(** * Feature resolution and defaulting engine of the Datadog operator

    A shallow embedding of

    - [controllers/datadogagent/feature/factory.go]: the feature registry
      ([Register]), the ordering of the registered identifiers
      ([getSortedFeatureIDs]) and the resolution driver ([BuildFeatures]);
    - the [v1alpha1] defaulting pass ([DefaultDatadogAgent] and the functions
      it calls), which fills the unset fields of a [DatadogAgentSpec] in place
      and returns the fields it filled as a second [DatadogAgentSpec].

    Go pointers are options ([None] is [nil]); a Go method that mutates its
    receiver returns the new value; a nil-pointer fault is [None] in the
    result of the function that faults. *)

From Stdlib Require Import ZArith Ascii String List.
From stdpp Require Import base option list gmap strings sorting.

Open Scope string_scope.
Open Scope list_scope.

(** ** Pointer helpers of [apis/utils]

    [BoolValue] reads a [*bool], with [false] for [nil]; [NewBoolPointer],
    [NewStringPointer] and [NewInt32Pointer] allocate, which is [Some]. *)

Definition BoolValue (b : option bool) : bool :=
  match b with
  | Some v => v
  | None => false
  end.

Definition NewBoolPointer (b : bool) : option bool := Some b.
Definition NewStringPointer (s : string) : option string := Some s.
Definition NewInt32Pointer (i : Z) : option Z := Some i.

(** * The feature factory *)

Module feature.

(** [IDType] is a string type in Go: [Register] formats it with [%s] and
    [getSortedFeatureIDs] compares two of them with [<], which on strings is
    the lexicographic order of the bytes, [String.le] here. *)
Abbreviation IDType := string (only parsing).

(** ** Required components *)

(** Modelled from the spec: [RequiredComponent] is declared outside
    [factory.go].  Per kind of component a requirement is a tri-state
    [enabled] (true, false, unspecified) and a [privileged] flag. *)
Record RequiredComponent := {
  IsRequired : option bool;
  Privileged : bool
}.

(** Modelled from the spec: [RequiredComponents] maps each [ComponentKind]
    (node agent, cluster agent, cluster-check runner) to its requirement. *)
Record RequiredComponents := {
  Agent : RequiredComponent;
  ClusterAgent : RequiredComponent;
  ClusterChecksRunner : RequiredComponent
}.

(** The zero value, [var requiredComponents RequiredComponents]. *)
Definition noRequirement : RequiredComponent :=
  {| IsRequired := None; Privileged := false |}.

Definition emptyRequiredComponents : RequiredComponents :=
  {| Agent := noRequirement;
     ClusterAgent := noRequirement;
     ClusterChecksRunner := noRequirement |}.

(** Modelled from the spec: a component is enabled when its tri-state is
    true. *)
Definition IsEnabled (rc : RequiredComponent) : bool := BoolValue (IsRequired rc).

(** Modelled from the spec: a component is privileged when its flag is set. *)
Definition IsPrivileged (rc : RequiredComponent) : bool := Privileged rc.

(** Modelled from the spec: a component is configured when its tri-state is
    not unspecified. *)
Definition componentIsConfigured (rc : RequiredComponent) : bool :=
  match IsRequired rc with
  | Some _ => true
  | None => false
  end.

(** Modelled from the spec: a requirement is configured when at least one of
    its components is. *)
Definition IsConfigured (rc : RequiredComponents) : bool :=
  componentIsConfigured (ClusterAgent rc)
  || componentIsConfigured (Agent rc)
  || componentIsConfigured (ClusterChecksRunner rc).

(** Modelled from the spec: the merged tri-state is true if either side is
    true, false if a side is false and none is true, and unspecified when
    both sides are. *)
Definition mergeEnabled (a b : option bool) : option bool :=
  match a, b with
  | Some true, _ => Some true
  | _, Some true => Some true
  | Some false, _ => Some false
  | _, Some false => Some false
  | None, None => None
  end.

(** Modelled from the spec: the merge of one component; privileged is true
    if either side is. *)
Definition mergeComponent (rc inc : RequiredComponent) : RequiredComponent :=
  {| IsRequired := mergeEnabled (IsRequired rc) (IsRequired inc);
     Privileged := Privileged rc || Privileged inc |}.

(** Modelled from the spec: [RequiredComponents.Merge], component by
    component.  The Go method updates its receiver; here it returns it. *)
Definition Merge (rc inc : RequiredComponents) : RequiredComponents :=
  {| Agent := mergeComponent (Agent rc) (Agent inc);
     ClusterAgent := mergeComponent (ClusterAgent rc) (ClusterAgent inc);
     ClusterChecksRunner :=
       mergeComponent (ClusterChecksRunner rc) (ClusterChecksRunner inc) |}.

(** ** The [v2alpha1] object, as far as [BuildFeatures] reads it *)

Record ContainerProcessModel := {
  UseMultiProcessContainer : option bool
}.

Record GlobalConfig := {
  ContainerProcessModel_ : option ContainerProcessModel
}.

Record DatadogAgentSpec := {
  Global : option GlobalConfig
}.

Record DatadogAgent := {
  Spec : DatadogAgentSpec
}.

(** ** Features and the registry *)

(** A [Feature] is an interface; [BuildFeatures] calls its [Configure]
    method only.  [FeatureName] stands for the rest of the instance, so that
    two features can be told apart in the returned list. *)
Record Feature := {
  FeatureName : string;
  Configure : DatadogAgent -> bool -> RequiredComponents
}.

Section Factory.

(** [Options] is passed through to the constructors and never inspected. *)
Variable Options : Type.

(** The identifiers of the privileged features are constants of the package
    declared outside [factory.go]. *)
Variables EBPFCheckIDType CWSIDType CSPMIDType : IDType.
Variables OOMKillIDType TCPQueueLengthIDType USMIDType : IDType.

Definition BuildFunc : Type := Options -> Feature.

(** [featureBuilders map[IDType]BuildFunc], passed explicitly. *)
Abbreviation Registry := (gmap string BuildFunc).

(** The error [Register] returns. *)
Definition alreadyRegistered (id : IDType) : string :=
  "the Feature " +:+ id +:+ " is registered already".

(** [Register]: the registry after the call and the error, [None] for
    [nil]. *)
Definition Register (id : IDType) (buildFunc : BuildFunc)
    (featureBuilders : Registry) : Registry * option string :=
  match featureBuilders !! id with
  | Some _ => (featureBuilders, Some (alreadyRegistered id))
  | None => (<[id := buildFunc]> featureBuilders, None)
  end.

(** [privilegedFeatures], a list that the source declares with [const]. *)
Definition privilegedFeatures : list IDType :=
  [ EBPFCheckIDType;
    CWSIDType;
    CSPMIDType;
    OOMKillIDType;
    TCPQueueLengthIDType;
    USMIDType ].

(** [for key := range featureBuilders]: Go visits the keys in an order of its
    choosing; they are sorted before use. *)
Definition registeredIDs (featureBuilders : Registry) : list IDType :=
  (map_to_list featureBuilders).*1.

(** [sort.Slice] with [sortedKeys[i] < sortedKeys[j]]. *)
Definition sortIDs (keys : list IDType) : list IDType :=
  merge_sort String.le keys.

(** [getSortedFeatureIDs].  In multi-process mode the source appends
    [privilegedFeatures] to the sorted keys, element by element here. *)
Definition getSortedFeatureIDs (featureBuilders : Registry)
    (useMultiProcessContainer : bool) : list IDType :=
  if useMultiProcessContainer then
    sortIDs (filter (fun key => key ∉ privilegedFeatures)
               (registeredIDs featureBuilders))
    ++ privilegedFeatures
  else
    sortIDs (registeredIDs featureBuilders).

Definition shouldDisableMultiProcessContainer (reqComponents : RequiredComponents) : bool :=
  IsEnabled (Agent reqComponents) && IsPrivileged (Agent reqComponents).

(** The multi-process mode that the object requests. *)
Definition requestedMultiProcessContainer (dda : DatadogAgent) : bool :=
  match Global (Spec dda) with
  | Some g =>
      match ContainerProcessModel_ g with
      | Some m => BoolValue (UseMultiProcessContainer m)
      | None => false
      end
  | None => false
  end.

(** The variables of the loop of [BuildFeatures].  [visited] is not in the
    source: it records, for each iteration, the identifier and the flag that
    was passed to [Configure]. *)
Record LoopState := {
  output : list Feature;
  requiredComponents : RequiredComponents;
  useMultiProcessContainer : bool;
  visited : list (IDType * bool)
}.

(** One iteration of the loop.  Calling the constructor of an identifier
    that is not registered calls a nil function, which faults. *)
Definition BuildFeatures_iter (dda : DatadogAgent) (options : Options)
    (featureBuilders : Registry) (st : LoopState) (id : IDType) : option LoopState :=
  match featureBuilders !! id with
  | None => None
  | Some build =>
      let feat := build options in
      let reqComponents := Configure feat dda (useMultiProcessContainer st) in
      let multi :=
        if useMultiProcessContainer st && shouldDisableMultiProcessContainer reqComponents
        then false
        else useMultiProcessContainer st in
      let out :=
        if IsConfigured reqComponents then output st ++ [feat] else output st in
      Some {| output := out;
              requiredComponents := Merge (requiredComponents st) reqComponents;
              useMultiProcessContainer := multi;
              visited := visited st ++ [(id, useMultiProcessContainer st)] |}
  end.

Fixpoint BuildFeatures_loop (dda : DatadogAgent) (options : Options)
    (featureBuilders : Registry) (st : LoopState) (sortedKeys : list IDType)
    : option LoopState :=
  match sortedKeys with
  | [] => Some st
  | id :: rest =>
      match BuildFeatures_iter dda options featureBuilders st id with
      | None => None
      | Some st' => BuildFeatures_loop dda options featureBuilders st' rest
      end
  end.

(** [BuildFeatures] up to its [return]. *)
Definition BuildFeatures_run (dda : DatadogAgent) (options : Options)
    (featureBuilders : Registry) : option LoopState :=
  let multi := requestedMultiProcessContainer dda in
  let sortedKeys := getSortedFeatureIDs featureBuilders multi in
  BuildFeatures_loop dda options featureBuilders
    {| output := [];
       requiredComponents := emptyRequiredComponents;
       useMultiProcessContainer := multi;
       visited := [] |}
    sortedKeys.

Definition BuildFeatures (dda : DatadogAgent) (options : Options)
    (featureBuilders : Registry) : option (list Feature * RequiredComponents) :=
  match BuildFeatures_run dda options featureBuilders with
  | None => None
  | Some st => Some (output st, requiredComponents st)
  end.

End Factory.

End feature.

(** * The defaulting pass of [v1alpha1] *)

Module v1alpha1.

(** ** Default values *)

Definition defaultLogLevel : string := "INFO".
Definition defaultAgentImageTag : string := "7.28.0".
Definition defaultClusterAgentImageTag : string := "1.12.0".
Definition defaultAgentImageName : string := "agent".
Definition defaultClusterAgentImageName : string := "cluster-agent".
Definition defaultCollectEvents : bool := false.
Definition defaultLeaderElection : bool := false.
Definition defaultDockerSocketPath : string := "/var/run/docker.sock".
Definition defaultDogstatsdOriginDetection : bool := false.
Definition defaultUseDogStatsDSocketVolume : bool := false.
Definition defaultHostDogstatsdSocketName : string := "statsd.sock".
Definition defaultHostDogstatsdSocketPath : string := "/var/run/datadog".
Definition defaultAgentEnabled : bool := true.
Definition defaultClusterAgentEnabled : bool := true.
Definition defaultClusterChecksRunnerEnabled : bool := false.
Definition defaultApmEnabled : bool := false.
Definition defaultApmHostPort : Z := 8126.
Definition defaultExternalMetricsEnabled : bool := false.
Definition defaultSystemProbeEnabled : bool := false.
Definition defaultSystemProbeOOMKillEnabled : bool := false.
Definition defaultSystemProbeTCPQueueLengthEnabled : bool := false.
Definition defaultSystemProbeConntrackEnabled : bool := false.
Definition defaultSystemProbeCollectDNSStats : bool := false.
Definition defaultSystemProbeBPFDebugEnabled : bool := false.
Definition defaultSystemProbeSecCompRootPath : string := "/var/lib/kubelet/seccomp".
Definition defaultAppArmorProfileName : string := "unconfined".
Definition DefaultSeccompProfileName : string := "localhost/system-probe".
Definition defaultSecurityRuntimeEnabled : bool := false.
Definition defaultSecurityComplianceEnabled : bool := false.
Definition defaultSecuritySyscallMonitorEnabled : bool := false.
Definition defaultHostApmSocketName : string := "apm.sock".
Definition defaultHostApmSocketPath : string := "/var/run/datadog".
Definition defaultLogEnabled : bool := false.
Definition defaultLogsConfigContainerCollectAll : bool := false.
Definition defaultLogsContainerCollectUsingFiles : bool := true.
Definition defaultContainerLogsPath : string := "/var/lib/docker/containers".
Definition defaultPodLogsPath : string := "/var/log/pods".
Definition defaultContainerSymlinksPath : string := "/var/log/containers".
Definition defaultLogsTempStoragePath : string := "/var/lib/datadog-agent/logs".
Definition defaultLogsOpenFilesLimit : Z := 100.
Definition defaultProcessEnabled : bool := false.
Definition defaultProcessCollectionEnabled : bool := false.
Definition defaultOrchestratorExplorerEnabled : bool := true.
Definition defaultOrchestratorExplorerContainerScrubbingEnabled : bool := true.
Definition defaultMetricsProviderPort : Z := 8443.
Definition defaultClusterChecksEnabled : bool := false.
Definition defaultKubeStateMetricsCoreEnabled : bool := false.
Definition defaultPrometheusScrapeEnabled : bool := false.
Definition defaultPrometheusScrapeServiceEndpoints : bool := false.
Definition defaultRollingUpdateMaxUnavailable : string := "10%".
(** [appsv1.RollingUpdateDaemonSetStrategyType]. *)
Definition defaultUpdateStrategy : string := "RollingUpdate".
Definition defaultRollingUpdateMaxPodSchedulerFailure : string := "10%".
Definition defaultRollingUpdateMaxParallelPodCreation : Z := 250.
(** Durations are counted in nanoseconds, as [time.Duration] is. *)
Definition defaultRollingUpdateSlowStartIntervalDuration : Z := 60 * 1000000000.
Definition defaultRollingUpdateSlowStartAdditiveIncrease : string := "5".
Definition defaultReconcileFrequency : Z := 10 * 1000000000.
Definition defaultRbacCreate : bool := true.
Definition defaultMutateUnlabelled : bool := false.
Definition DefaultAdmissionServiceName : string := "datadog-admission-controller".
Definition defaultAdmissionControllerEnabled : bool := false.

Definition defaultLivenessProbeInitialDelaySeconds : Z := 15.
Definition defaultLivenessProbePeriodSeconds : Z := 15.
Definition defaultLivenessProbeTimeoutSeconds : Z := 5.
Definition defaultLivenessProbeSuccessThreshold : Z := 1.
Definition defaultLivenessProbeFailureThreshold : Z := 6.
Definition defaultAgentHealthPort : Z := 5555.
Definition defaultLivenessProbeHTTPPath : string := "/live".

Definition defaultReadinessProbeInitialDelaySeconds : Z := 15.
Definition defaultReadinessProbePeriodSeconds : Z := 15.
Definition defaultReadinessProbeTimeoutSeconds : Z := 5.
Definition defaultReadinessProbeSuccessThreshold : Z := 1.
Definition defaultReadinessProbeFailureThreshold : Z := 6.
Definition defaultReadinessProbeHTTPPath : string := "/ready".

(** [corev1.PullIfNotPresent]. *)
Definition defaultImagePullPolicy : string := "IfNotPresent".

(** ** The configuration tree

    The structs are declared outside the file of the defaulting pass; the
    records hold the fields that the pass reads or writes, under the names
    the pass uses, each prefixed with a short name of its struct.  A field
    that the pass compares with [nil] is a pointer, an [option] here; a
    field that it reaches through without a test is an embedded struct. *)

(** The zero value of a type, [T{}] in Go. *)
Class Zero (A : Type) := zero : A.

Inductive IntOrStringType := IntKind | StringKind.

#[global] Instance IntOrStringType_eq_dec : EqDecision IntOrStringType.
Proof. solve_decision. Defined.

(** The canary settings belong to the extended daemon set library; the
    pass stores what that library's defaulting returns and reads nothing
    inside. *)
Record ExtendedDaemonSetSpecStrategyCanary := {
  canary_Settings : list (string * string)
}.

#[global] Instance ExtendedDaemonSetSpecStrategyCanary_zero :
  Zero ExtendedDaemonSetSpecStrategyCanary := {| canary_Settings := [] |}.

#[global] Instance ExtendedDaemonSetSpecStrategyCanary_eq_dec :
  EqDecision ExtendedDaemonSetSpecStrategyCanary.
Proof. solve_decision. Defined.

(** [intstr.IntOrString]: an integer or a string, and which of the two. *)
Record IntOrString := {
  ios_Type : IntOrStringType;
  ios_IntVal : Z;
  ios_StrVal : string
}.

#[global] Instance IntOrString_zero : Zero IntOrString :=
  {| ios_Type := IntKind;
     ios_IntVal := 0%Z;
     ios_StrVal := "" |}.

#[global] Instance IntOrString_eq_dec : EqDecision IntOrString.
Proof. solve_decision. Defined.

(** [corev1.HTTPGetAction], the fields the defaults set. *)
Record HTTPGetAction := {
  http_Path : string;
  http_Port : IntOrString
}.

#[global] Instance HTTPGetAction_zero : Zero HTTPGetAction :=
  {| http_Path := "";
     http_Port := zero |}.

#[global] Instance HTTPGetAction_eq_dec : EqDecision HTTPGetAction.
Proof. solve_decision. Defined.

(** [corev1.TCPSocketAction]. *)
Record TCPSocketAction := {
  tcp_Port : IntOrString
}.

#[global] Instance TCPSocketAction_zero : Zero TCPSocketAction :=
  {| tcp_Port := zero |}.

#[global] Instance TCPSocketAction_eq_dec : EqDecision TCPSocketAction.
Proof. solve_decision. Defined.

(** [corev1.Probe], the fields the defaults set. *)
Record Probe := {
  probe_HTTPGet : option HTTPGetAction;
  probe_TCPSocket : option TCPSocketAction;
  probe_InitialDelaySeconds : Z;
  probe_TimeoutSeconds : Z;
  probe_PeriodSeconds : Z;
  probe_SuccessThreshold : Z;
  probe_FailureThreshold : Z
}.

#[global] Instance Probe_zero : Zero Probe :=
  {| probe_HTTPGet := None;
     probe_TCPSocket := None;
     probe_InitialDelaySeconds := 0%Z;
     probe_TimeoutSeconds := 0%Z;
     probe_PeriodSeconds := 0%Z;
     probe_SuccessThreshold := 0%Z;
     probe_FailureThreshold := 0%Z |}.

#[global] Instance Probe_eq_dec : EqDecision Probe.
Proof. solve_decision. Defined.

(** [corev1.ResourceRequirements]. *)
Record ResourceRequirements := {
  res_Limits : list (string * string);
  res_Requests : list (string * string)
}.

#[global] Instance ResourceRequirements_zero : Zero ResourceRequirements :=
  {| res_Limits := [];
     res_Requests := [] |}.

#[global] Instance ResourceRequirements_eq_dec : EqDecision ResourceRequirements.
Proof. solve_decision. Defined.

Record ImageConfig := {
  img_Name : string;
  img_Tag : string;
  img_PullPolicy : option string;
  img_PullSecrets : option (list string)
}.

#[global] Instance ImageConfig_zero : Zero ImageConfig :=
  {| img_Name := "";
     img_Tag := "";
     img_PullPolicy := None;
     img_PullSecrets := None |}.

#[global] Instance ImageConfig_eq_dec : EqDecision ImageConfig.
Proof. solve_decision. Defined.

Record DatadogAgentGenericContainerConfig := {
  cc_LogLevel : option string;
  cc_Resources : option ResourceRequirements;
  cc_LivenessProbe : option Probe;
  cc_ReadinessProbe : option Probe;
  cc_HealthPort : option Z
}.

#[global] Instance DatadogAgentGenericContainerConfig_zero : Zero DatadogAgentGenericContainerConfig :=
  {| cc_LogLevel := None;
     cc_Resources := None;
     cc_LivenessProbe := None;
     cc_ReadinessProbe := None;
     cc_HealthPort := None |}.

#[global] Instance DatadogAgentGenericContainerConfig_eq_dec : EqDecision DatadogAgentGenericContainerConfig.
Proof. solve_decision. Defined.

Definition set_cc_LivenessProbe (v : option Probe) (x : DatadogAgentGenericContainerConfig) : DatadogAgentGenericContainerConfig :=
  {| cc_LogLevel := cc_LogLevel x;
     cc_Resources := cc_Resources x;
     cc_LivenessProbe := v;
     cc_ReadinessProbe := cc_ReadinessProbe x;
     cc_HealthPort := cc_HealthPort x |}.

Record CRISocketConfig := {
  cri_DockerSocketPath : option string
}.

#[global] Instance CRISocketConfig_zero : Zero CRISocketConfig :=
  {| cri_DockerSocketPath := None |}.

#[global] Instance CRISocketConfig_eq_dec : EqDecision CRISocketConfig.
Proof. solve_decision. Defined.

Record DSDUnixDomainSocketSpec := {
  dsduds_Enabled : option bool;
  dsduds_HostFilepath : option string
}.

#[global] Instance DSDUnixDomainSocketSpec_zero : Zero DSDUnixDomainSocketSpec :=
  {| dsduds_Enabled := None;
     dsduds_HostFilepath := None |}.

#[global] Instance DSDUnixDomainSocketSpec_eq_dec : EqDecision DSDUnixDomainSocketSpec.
Proof. solve_decision. Defined.

Record DogstatsdConfig := {
  dsd_DogstatsdOriginDetection : option bool;
  dsd_UnixDomainSocket : option DSDUnixDomainSocketSpec
}.

#[global] Instance DogstatsdConfig_zero : Zero DogstatsdConfig :=
  {| dsd_DogstatsdOriginDetection := None;
     dsd_UnixDomainSocket := None |}.

#[global] Instance DogstatsdConfig_eq_dec : EqDecision DogstatsdConfig.
Proof. solve_decision. Defined.

Record NodeAgentSpec := {
  na_ContainerConfig : DatadogAgentGenericContainerConfig;
  na_CollectEvents : option bool;
  na_LeaderElection : option bool;
  na_CriSocket : option CRISocketConfig;
  na_Dogstatsd : option DogstatsdConfig;
  na_PodLabelsAsTags : option (list (string * string));
  na_PodAnnotationsAsTags : option (list (string * string));
  na_Tags : option (list string)
}.

#[global] Instance NodeAgentSpec_zero : Zero NodeAgentSpec :=
  {| na_ContainerConfig := zero;
     na_CollectEvents := None;
     na_LeaderElection := None;
     na_CriSocket := None;
     na_Dogstatsd := None;
     na_PodLabelsAsTags := None;
     na_PodAnnotationsAsTags := None;
     na_Tags := None |}.

#[global] Instance NodeAgentSpec_eq_dec : EqDecision NodeAgentSpec.
Proof. solve_decision. Defined.

Record RbacConfig := {
  rbac_Create : option bool
}.

#[global] Instance RbacConfig_zero : Zero RbacConfig :=
  {| rbac_Create := None |}.

#[global] Instance RbacConfig_eq_dec : EqDecision RbacConfig.
Proof. solve_decision. Defined.

Record DaemonSetRollingUpdateSpec := {
  ru_MaxUnavailable : option IntOrString;
  ru_MaxPodSchedulerFailure : option IntOrString;
  ru_MaxParallelPodCreation : option Z;
  ru_SlowStartIntervalDuration : option Z;
  ru_SlowStartAdditiveIncrease : option IntOrString
}.

#[global] Instance DaemonSetRollingUpdateSpec_zero : Zero DaemonSetRollingUpdateSpec :=
  {| ru_MaxUnavailable := None;
     ru_MaxPodSchedulerFailure := None;
     ru_MaxParallelPodCreation := None;
     ru_SlowStartIntervalDuration := None;
     ru_SlowStartAdditiveIncrease := None |}.

#[global] Instance DaemonSetRollingUpdateSpec_eq_dec : EqDecision DaemonSetRollingUpdateSpec.
Proof. solve_decision. Defined.

Record DaemonSetDeploymentStrategy := {
  ds_UpdateStrategyType : option string;
  ds_RollingUpdate : DaemonSetRollingUpdateSpec;
  ds_Canary : option ExtendedDaemonSetSpecStrategyCanary;
  ds_ReconcileFrequency : option Z
}.

#[global] Instance DaemonSetDeploymentStrategy_zero : Zero DaemonSetDeploymentStrategy :=
  {| ds_UpdateStrategyType := None;
     ds_RollingUpdate := zero;
     ds_Canary := None;
     ds_ReconcileFrequency := None |}.

#[global] Instance DaemonSetDeploymentStrategy_eq_dec : EqDecision DaemonSetDeploymentStrategy.
Proof. solve_decision. Defined.

Record APMUnixDomainSocketSpec := {
  apmuds_Enabled : option bool;
  apmuds_HostFilepath : option string
}.

#[global] Instance APMUnixDomainSocketSpec_zero : Zero APMUnixDomainSocketSpec :=
  {| apmuds_Enabled := None;
     apmuds_HostFilepath := None |}.

#[global] Instance APMUnixDomainSocketSpec_eq_dec : EqDecision APMUnixDomainSocketSpec.
Proof. solve_decision. Defined.

Record APMSpec := {
  apm_Enabled : option bool;
  apm_HostPort : option Z;
  apm_ContainerConfig : DatadogAgentGenericContainerConfig;
  apm_UnixDomainSocket : option APMUnixDomainSocketSpec
}.

#[global] Instance APMSpec_zero : Zero APMSpec :=
  {| apm_Enabled := None;
     apm_HostPort := None;
     apm_ContainerConfig := zero;
     apm_UnixDomainSocket := None |}.

#[global] Instance APMSpec_eq_dec : EqDecision APMSpec.
Proof. solve_decision. Defined.

Record SystemProbeSpec := {
  sp_Enabled : option bool;
  sp_EnableOOMKill : option bool;
  sp_EnableTCPQueueLength : option bool;
  sp_BPFDebugEnabled : option bool;
  sp_CollectDNSStats : option bool;
  sp_ConntrackEnabled : option bool;
  sp_SecCompRootPath : string;
  sp_AppArmorProfileName : string;
  sp_SecCompProfileName : string
}.

#[global] Instance SystemProbeSpec_zero : Zero SystemProbeSpec :=
  {| sp_Enabled := None;
     sp_EnableOOMKill := None;
     sp_EnableTCPQueueLength := None;
     sp_BPFDebugEnabled := None;
     sp_CollectDNSStats := None;
     sp_ConntrackEnabled := None;
     sp_SecCompRootPath := "";
     sp_AppArmorProfileName := "";
     sp_SecCompProfileName := "" |}.

#[global] Instance SystemProbeSpec_eq_dec : EqDecision SystemProbeSpec.
Proof. solve_decision. Defined.

Definition set_sp_Enabled (v : option bool) (x : SystemProbeSpec) : SystemProbeSpec :=
  {| sp_Enabled := v;
     sp_EnableOOMKill := sp_EnableOOMKill x;
     sp_EnableTCPQueueLength := sp_EnableTCPQueueLength x;
     sp_BPFDebugEnabled := sp_BPFDebugEnabled x;
     sp_CollectDNSStats := sp_CollectDNSStats x;
     sp_ConntrackEnabled := sp_ConntrackEnabled x;
     sp_SecCompRootPath := sp_SecCompRootPath x;
     sp_AppArmorProfileName := sp_AppArmorProfileName x;
     sp_SecCompProfileName := sp_SecCompProfileName x |}.

Record SyscallMonitorSpec := {
  sm_Enabled : option bool
}.

#[global] Instance SyscallMonitorSpec_zero : Zero SyscallMonitorSpec :=
  {| sm_Enabled := None |}.

#[global] Instance SyscallMonitorSpec_eq_dec : EqDecision SyscallMonitorSpec.
Proof. solve_decision. Defined.

Record ComplianceSpec := {
  comp_Enabled : option bool
}.

#[global] Instance ComplianceSpec_zero : Zero ComplianceSpec :=
  {| comp_Enabled := None |}.

#[global] Instance ComplianceSpec_eq_dec : EqDecision ComplianceSpec.
Proof. solve_decision. Defined.

Record RuntimeSecuritySpec := {
  rt_Enabled : option bool;
  rt_SyscallMonitor : option SyscallMonitorSpec
}.

#[global] Instance RuntimeSecuritySpec_zero : Zero RuntimeSecuritySpec :=
  {| rt_Enabled := None;
     rt_SyscallMonitor := None |}.

#[global] Instance RuntimeSecuritySpec_eq_dec : EqDecision RuntimeSecuritySpec.
Proof. solve_decision. Defined.

Record SecuritySpec := {
  sec_Compliance : ComplianceSpec;
  sec_Runtime : RuntimeSecuritySpec
}.

#[global] Instance SecuritySpec_zero : Zero SecuritySpec :=
  {| sec_Compliance := zero;
     sec_Runtime := zero |}.

#[global] Instance SecuritySpec_eq_dec : EqDecision SecuritySpec.
Proof. solve_decision. Defined.

Record ProcessSpec := {
  proc_Enabled : option bool;
  proc_ProcessCollectionEnabled : option bool
}.

#[global] Instance ProcessSpec_zero : Zero ProcessSpec :=
  {| proc_Enabled := None;
     proc_ProcessCollectionEnabled := None |}.

#[global] Instance ProcessSpec_eq_dec : EqDecision ProcessSpec.
Proof. solve_decision. Defined.

Definition set_proc_Enabled (v : option bool) (x : ProcessSpec) : ProcessSpec :=
  {| proc_Enabled := v;
     proc_ProcessCollectionEnabled := proc_ProcessCollectionEnabled x |}.

Record NetworkPolicySpec := {
  np_Create : option bool
}.

#[global] Instance NetworkPolicySpec_zero : Zero NetworkPolicySpec :=
  {| np_Create := None |}.

#[global] Instance NetworkPolicySpec_eq_dec : EqDecision NetworkPolicySpec.
Proof. solve_decision. Defined.

Record DatadogAgentSpecAgentSpec := {
  agent_Enabled : option bool;
  agent_UseExtendedDaemonset : option bool;
  agent_Image : option ImageConfig;
  agent_NodeAgent : option NodeAgentSpec;
  agent_Rbac : option RbacConfig;
  agent_DeploymentStrategy : option DaemonSetDeploymentStrategy;
  agent_Apm : option APMSpec;
  agent_SystemProbe : option SystemProbeSpec;
  agent_Security : option SecuritySpec;
  agent_Process : option ProcessSpec;
  agent_NetworkPolicy : option NetworkPolicySpec
}.

#[global] Instance DatadogAgentSpecAgentSpec_zero : Zero DatadogAgentSpecAgentSpec :=
  {| agent_Enabled := None;
     agent_UseExtendedDaemonset := None;
     agent_Image := None;
     agent_NodeAgent := None;
     agent_Rbac := None;
     agent_DeploymentStrategy := None;
     agent_Apm := None;
     agent_SystemProbe := None;
     agent_Security := None;
     agent_Process := None;
     agent_NetworkPolicy := None |}.

#[global] Instance DatadogAgentSpecAgentSpec_eq_dec : EqDecision DatadogAgentSpecAgentSpec.
Proof. solve_decision. Defined.

Definition set_agent_Enabled (v : option bool) (x : DatadogAgentSpecAgentSpec) : DatadogAgentSpecAgentSpec :=
  {| agent_Enabled := v;
     agent_UseExtendedDaemonset := agent_UseExtendedDaemonset x;
     agent_Image := agent_Image x;
     agent_NodeAgent := agent_NodeAgent x;
     agent_Rbac := agent_Rbac x;
     agent_DeploymentStrategy := agent_DeploymentStrategy x;
     agent_Apm := agent_Apm x;
     agent_SystemProbe := agent_SystemProbe x;
     agent_Security := agent_Security x;
     agent_Process := agent_Process x;
     agent_NetworkPolicy := agent_NetworkPolicy x |}.

Definition set_agent_SystemProbe (v : option SystemProbeSpec) (x : DatadogAgentSpecAgentSpec) : DatadogAgentSpecAgentSpec :=
  {| agent_Enabled := agent_Enabled x;
     agent_UseExtendedDaemonset := agent_UseExtendedDaemonset x;
     agent_Image := agent_Image x;
     agent_NodeAgent := agent_NodeAgent x;
     agent_Rbac := agent_Rbac x;
     agent_DeploymentStrategy := agent_DeploymentStrategy x;
     agent_Apm := agent_Apm x;
     agent_SystemProbe := v;
     agent_Security := agent_Security x;
     agent_Process := agent_Process x;
     agent_NetworkPolicy := agent_NetworkPolicy x |}.

Definition set_agent_Process (v : option ProcessSpec) (x : DatadogAgentSpecAgentSpec) : DatadogAgentSpecAgentSpec :=
  {| agent_Enabled := agent_Enabled x;
     agent_UseExtendedDaemonset := agent_UseExtendedDaemonset x;
     agent_Image := agent_Image x;
     agent_NodeAgent := agent_NodeAgent x;
     agent_Rbac := agent_Rbac x;
     agent_DeploymentStrategy := agent_DeploymentStrategy x;
     agent_Apm := agent_Apm x;
     agent_SystemProbe := agent_SystemProbe x;
     agent_Security := agent_Security x;
     agent_Process := v;
     agent_NetworkPolicy := agent_NetworkPolicy x |}.

Record ExternalMetricsConfig := {
  em_Enabled : option bool;
  em_Port : option Z
}.

#[global] Instance ExternalMetricsConfig_zero : Zero ExternalMetricsConfig :=
  {| em_Enabled := None;
     em_Port := None |}.

#[global] Instance ExternalMetricsConfig_eq_dec : EqDecision ExternalMetricsConfig.
Proof. solve_decision. Defined.

Record AdmissionControllerConfig := {
  ac_Enabled : option bool;
  ac_MutateUnlabelled : option bool;
  ac_ServiceName : option string
}.

#[global] Instance AdmissionControllerConfig_zero : Zero AdmissionControllerConfig :=
  {| ac_Enabled := None;
     ac_MutateUnlabelled := None;
     ac_ServiceName := None |}.

#[global] Instance AdmissionControllerConfig_eq_dec : EqDecision AdmissionControllerConfig.
Proof. solve_decision. Defined.

Record FeaturesConfigClusterAgent := {
  fca_ExternalMetrics : option ExternalMetricsConfig;
  fca_ClusterChecksEnabled : option bool;
  fca_CollectEvents : option bool;
  fca_AdmissionController : option AdmissionControllerConfig
}.

#[global] Instance FeaturesConfigClusterAgent_zero : Zero FeaturesConfigClusterAgent :=
  {| fca_ExternalMetrics := None;
     fca_ClusterChecksEnabled := None;
     fca_CollectEvents := None;
     fca_AdmissionController := None |}.

#[global] Instance FeaturesConfigClusterAgent_eq_dec : EqDecision FeaturesConfigClusterAgent.
Proof. solve_decision. Defined.

Record ClusterAgentConfig := {
  cac_ContainerConfig : DatadogAgentGenericContainerConfig;
  cac_Features : FeaturesConfigClusterAgent
}.

#[global] Instance ClusterAgentConfig_zero : Zero ClusterAgentConfig :=
  {| cac_ContainerConfig := zero;
     cac_Features := zero |}.

#[global] Instance ClusterAgentConfig_eq_dec : EqDecision ClusterAgentConfig.
Proof. solve_decision. Defined.

Record CustomConfigSpec := {
  custom_ConfigData : option string
}.

#[global] Instance CustomConfigSpec_zero : Zero CustomConfigSpec :=
  {| custom_ConfigData := None |}.

#[global] Instance CustomConfigSpec_eq_dec : EqDecision CustomConfigSpec.
Proof. solve_decision. Defined.

Record DatadogAgentSpecClusterAgentSpec := {
  dca_Enabled : option bool;
  dca_Image : option ImageConfig;
  dca_Config : option ClusterAgentConfig;
  dca_CustomConfig : option CustomConfigSpec;
  dca_Rbac : option RbacConfig;
  dca_NetworkPolicy : option NetworkPolicySpec
}.

#[global] Instance DatadogAgentSpecClusterAgentSpec_zero : Zero DatadogAgentSpecClusterAgentSpec :=
  {| dca_Enabled := None;
     dca_Image := None;
     dca_Config := None;
     dca_CustomConfig := None;
     dca_Rbac := None;
     dca_NetworkPolicy := None |}.

#[global] Instance DatadogAgentSpecClusterAgentSpec_eq_dec : EqDecision DatadogAgentSpecClusterAgentSpec.
Proof. solve_decision. Defined.

Definition set_dca_Enabled (v : option bool) (x : DatadogAgentSpecClusterAgentSpec) : DatadogAgentSpecClusterAgentSpec :=
  {| dca_Enabled := v;
     dca_Image := dca_Image x;
     dca_Config := dca_Config x;
     dca_CustomConfig := dca_CustomConfig x;
     dca_Rbac := dca_Rbac x;
     dca_NetworkPolicy := dca_NetworkPolicy x |}.

Record DatadogAgentSpecClusterChecksRunnerSpec := {
  clc_Enabled : option bool;
  clc_Image : option ImageConfig;
  clc_ContainerConfig : option DatadogAgentGenericContainerConfig;
  clc_Rbac : option RbacConfig;
  clc_NetworkPolicy : option NetworkPolicySpec
}.

#[global] Instance DatadogAgentSpecClusterChecksRunnerSpec_zero : Zero DatadogAgentSpecClusterChecksRunnerSpec :=
  {| clc_Enabled := None;
     clc_Image := None;
     clc_ContainerConfig := None;
     clc_Rbac := None;
     clc_NetworkPolicy := None |}.

#[global] Instance DatadogAgentSpecClusterChecksRunnerSpec_eq_dec : EqDecision DatadogAgentSpecClusterChecksRunnerSpec.
Proof. solve_decision. Defined.

Definition set_clc_Enabled (v : option bool) (x : DatadogAgentSpecClusterChecksRunnerSpec) : DatadogAgentSpecClusterChecksRunnerSpec :=
  {| clc_Enabled := v;
     clc_Image := clc_Image x;
     clc_ContainerConfig := clc_ContainerConfig x;
     clc_Rbac := clc_Rbac x;
     clc_NetworkPolicy := clc_NetworkPolicy x |}.

Record Scrubbing := {
  scrub_Containers : option bool
}.

#[global] Instance Scrubbing_zero : Zero Scrubbing :=
  {| scrub_Containers := None |}.

#[global] Instance Scrubbing_eq_dec : EqDecision Scrubbing.
Proof. solve_decision. Defined.

Record OrchestratorExplorerConfig := {
  oe_Enabled : option bool;
  oe_ClusterCheck : option bool;
  oe_Scrubbing : option Scrubbing
}.

#[global] Instance OrchestratorExplorerConfig_zero : Zero OrchestratorExplorerConfig :=
  {| oe_Enabled := None;
     oe_ClusterCheck := None;
     oe_Scrubbing := None |}.

#[global] Instance OrchestratorExplorerConfig_eq_dec : EqDecision OrchestratorExplorerConfig.
Proof. solve_decision. Defined.

Record KubeStateMetricsCore := {
  ksm_Enabled : option bool;
  ksm_ClusterCheck : option bool
}.

#[global] Instance KubeStateMetricsCore_zero : Zero KubeStateMetricsCore :=
  {| ksm_Enabled := None;
     ksm_ClusterCheck := None |}.

#[global] Instance KubeStateMetricsCore_eq_dec : EqDecision KubeStateMetricsCore.
Proof. solve_decision. Defined.

Record PrometheusScrapeConfig := {
  prom_Enabled : option bool;
  prom_ServiceEndpoints : option bool
}.

#[global] Instance PrometheusScrapeConfig_zero : Zero PrometheusScrapeConfig :=
  {| prom_Enabled := None;
     prom_ServiceEndpoints := None |}.

#[global] Instance PrometheusScrapeConfig_eq_dec : EqDecision PrometheusScrapeConfig.
Proof. solve_decision. Defined.

Record LogCollectionConfig := {
  log_Enabled : option bool;
  log_LogsConfigContainerCollectAll : option bool;
  log_ContainerCollectUsingFiles : option bool;
  log_ContainerLogsPath : option string;
  log_PodLogsPath : option string;
  log_ContainerSymlinksPath : option string;
  log_TempStoragePath : option string;
  log_OpenFilesLimit : option Z
}.

#[global] Instance LogCollectionConfig_zero : Zero LogCollectionConfig :=
  {| log_Enabled := None;
     log_LogsConfigContainerCollectAll := None;
     log_ContainerCollectUsingFiles := None;
     log_ContainerLogsPath := None;
     log_PodLogsPath := None;
     log_ContainerSymlinksPath := None;
     log_TempStoragePath := None;
     log_OpenFilesLimit := None |}.

#[global] Instance LogCollectionConfig_eq_dec : EqDecision LogCollectionConfig.
Proof. solve_decision. Defined.

Record NetworkMonitoringConfig := {
  nm_Enabled : option bool
}.

#[global] Instance NetworkMonitoringConfig_zero : Zero NetworkMonitoringConfig :=
  {| nm_Enabled := None |}.

#[global] Instance NetworkMonitoringConfig_eq_dec : EqDecision NetworkMonitoringConfig.
Proof. solve_decision. Defined.

Record DatadogFeatures := {
  ft_OrchestratorExplorer : option OrchestratorExplorerConfig;
  ft_KubeStateMetricsCore : option KubeStateMetricsCore;
  ft_PrometheusScrape : option PrometheusScrapeConfig;
  ft_LogCollection : option LogCollectionConfig;
  ft_NetworkMonitoring : option NetworkMonitoringConfig
}.

#[global] Instance DatadogFeatures_zero : Zero DatadogFeatures :=
  {| ft_OrchestratorExplorer := None;
     ft_KubeStateMetricsCore := None;
     ft_PrometheusScrape := None;
     ft_LogCollection := None;
     ft_NetworkMonitoring := None |}.

#[global] Instance DatadogFeatures_eq_dec : EqDecision DatadogFeatures.
Proof. solve_decision. Defined.

Record AgentCredentials := {
  cred_UseSecretBackend : option bool
}.

#[global] Instance AgentCredentials_zero : Zero AgentCredentials :=
  {| cred_UseSecretBackend := None |}.

#[global] Instance AgentCredentials_eq_dec : EqDecision AgentCredentials.
Proof. solve_decision. Defined.

Record DatadogAgentSpec := {
  spec_Credentials : option AgentCredentials;
  spec_Features : DatadogFeatures;
  spec_Agent : DatadogAgentSpecAgentSpec;
  spec_ClusterAgent : DatadogAgentSpecClusterAgentSpec;
  spec_ClusterChecksRunner : DatadogAgentSpecClusterChecksRunnerSpec
}.

#[global] Instance DatadogAgentSpec_zero : Zero DatadogAgentSpec :=
  {| spec_Credentials := None;
     spec_Features := zero;
     spec_Agent := zero;
     spec_ClusterAgent := zero;
     spec_ClusterChecksRunner := zero |}.

#[global] Instance DatadogAgentSpec_eq_dec : EqDecision DatadogAgentSpec.
Proof. solve_decision. Defined.

Definition set_spec_Credentials (v : option AgentCredentials) (x : DatadogAgentSpec) : DatadogAgentSpec :=
  {| spec_Credentials := v;
     spec_Features := spec_Features x;
     spec_Agent := spec_Agent x;
     spec_ClusterAgent := spec_ClusterAgent x;
     spec_ClusterChecksRunner := spec_ClusterChecksRunner x |}.

Definition set_spec_Features (v : DatadogFeatures) (x : DatadogAgentSpec) : DatadogAgentSpec :=
  {| spec_Credentials := spec_Credentials x;
     spec_Features := v;
     spec_Agent := spec_Agent x;
     spec_ClusterAgent := spec_ClusterAgent x;
     spec_ClusterChecksRunner := spec_ClusterChecksRunner x |}.

Definition set_spec_Agent (v : DatadogAgentSpecAgentSpec) (x : DatadogAgentSpec) : DatadogAgentSpec :=
  {| spec_Credentials := spec_Credentials x;
     spec_Features := spec_Features x;
     spec_Agent := v;
     spec_ClusterAgent := spec_ClusterAgent x;
     spec_ClusterChecksRunner := spec_ClusterChecksRunner x |}.

Definition set_spec_ClusterAgent (v : DatadogAgentSpecClusterAgentSpec) (x : DatadogAgentSpec) : DatadogAgentSpec :=
  {| spec_Credentials := spec_Credentials x;
     spec_Features := spec_Features x;
     spec_Agent := spec_Agent x;
     spec_ClusterAgent := v;
     spec_ClusterChecksRunner := spec_ClusterChecksRunner x |}.

Definition set_spec_ClusterChecksRunner (v : DatadogAgentSpecClusterChecksRunnerSpec) (x : DatadogAgentSpec) : DatadogAgentSpec :=
  {| spec_Credentials := spec_Credentials x;
     spec_Features := spec_Features x;
     spec_Agent := spec_Agent x;
     spec_ClusterAgent := spec_ClusterAgent x;
     spec_ClusterChecksRunner := v |}.

Record DatadogAgent := {
  Spec : DatadogAgentSpec
}.

Record DatadogAgentStatus := {
  DefaultOverride : option DatadogAgentSpec
}.

(** ** Helpers *)

(** Modelled from the spec: [IsEqualStruct] is declared outside the file of
    the defaulting pass.  It tells whether two values of a struct are equal;
    every call compares a value with the zero value of its type, which asks
    whether a subtree is entirely empty (all fields at zero value). *)
Definition IsEqualStruct {A} `{EqDecision A} (x cmp : A) : bool :=
  bool_decide (x = cmp).

(** The idiom
    [if p == nil { p = New...Pointer(d); override.p = p }]:
    the pointer afterwards, and what the override receives. *)
Definition orDefault {A} (p : option A) (d : A) : option A * option A :=
  match p with
  | None => (Some d, Some d)
  | Some _ => (p, None)
  end.

(** The same idiom for a string field, which is unset when it is empty. *)
Definition orDefaultString (s d : string) : string * string :=
  if String.eqb s "" then (d, d) else (s, "").

(** The idiom [if p == nil { p = &T{} }], which leaves no trace in the
    override. *)
Definition orEmpty {A} (p : option A) (e : A) : option A :=
  match p with
  | None => Some e
  | Some _ => p
  end.

(** [override.f = x] after [!IsEqualStruct(x, T{})]. *)
Definition unlessEmpty {A} `{EqDecision A} `{Zero A} (x : A) : option A :=
  if IsEqualStruct x zero then None else Some x.

(** [path.Join] of a directory and a file name, both clean. *)
Definition pathJoin (dir name : string) : string := dir +:+ "/" +:+ name.

(** [strings.TrimSuffix]. *)
Definition TrimSuffix (s suffix : string) : string :=
  let n := String.length s in
  let m := String.length suffix in
  if (m <=? n)%nat && String.eqb (substring (n - m) m s) suffix
  then substring 0 (n - m) s
  else s.

(** ** The defaulting functions

    A Go function that receives a pointer to a struct and reads and writes
    one field of it takes the value of that field here, and returns the
    value of the field after the call together with the override it
    returns in Go; the caller stores the former.  A function that can
    dereference [nil] returns an [option]. *)

(** The three functions [DefaultDatadogAgentSpecAgentImage],
    [DefaultDatadogClusterAgentImage] and
    [DefaultDatadogAgentSpecClusterChecksRunnerImage] have the same body. *)
Definition DefaultDatadogAgentSpecAgentImage (image : option ImageConfig)
    (name tag : string) : ImageConfig * ImageConfig :=
  let img := default zero image in
  let n := orDefaultString (img_Name img) name in
  let t := orDefaultString (img_Tag img) tag in
  let pp := orDefault (img_PullPolicy img) defaultImagePullPolicy in
  ({| img_Name := n.1;
      img_Tag := t.1;
      img_PullPolicy := pp.1;
      img_PullSecrets := orEmpty (img_PullSecrets img) [] |},
   {| img_Name := n.2;
      img_Tag := t.2;
      img_PullPolicy := pp.2;
      img_PullSecrets := None |}).

Definition DefaultDatadogClusterAgentImage := DefaultDatadogAgentSpecAgentImage.

Definition DefaultDatadogAgentSpecClusterChecksRunnerImage :=
  DefaultDatadogAgentSpecAgentImage.

Definition GetDefaultLivenessProbe : Probe :=
  {| probe_HTTPGet :=
       Some {| http_Path := defaultLivenessProbeHTTPPath;
               http_Port := {| ios_Type := IntKind;
                               ios_IntVal := defaultAgentHealthPort;
                               ios_StrVal := "" |} |};
     probe_TCPSocket := None;
     probe_InitialDelaySeconds := defaultLivenessProbeInitialDelaySeconds;
     probe_TimeoutSeconds := defaultLivenessProbeTimeoutSeconds;
     probe_PeriodSeconds := defaultLivenessProbePeriodSeconds;
     probe_SuccessThreshold := defaultLivenessProbeSuccessThreshold;
     probe_FailureThreshold := defaultLivenessProbeFailureThreshold |}.

Definition GetDefaultReadinessProbe : Probe :=
  {| probe_HTTPGet :=
       Some {| http_Path := defaultReadinessProbeHTTPPath;
               http_Port := {| ios_Type := IntKind;
                               ios_IntVal := defaultAgentHealthPort;
                               ios_StrVal := "" |} |};
     probe_TCPSocket := None;
     probe_InitialDelaySeconds := defaultReadinessProbeInitialDelaySeconds;
     probe_TimeoutSeconds := defaultReadinessProbeTimeoutSeconds;
     probe_PeriodSeconds := defaultReadinessProbePeriodSeconds;
     probe_SuccessThreshold := defaultReadinessProbeSuccessThreshold;
     probe_FailureThreshold := defaultReadinessProbeFailureThreshold |}.

Definition getDefaultAPMAgentLivenessProbe : Probe :=
  {| probe_HTTPGet := None;
     probe_TCPSocket :=
       Some {| tcp_Port := {| ios_Type := IntKind;
                              ios_IntVal := defaultApmHostPort;
                              ios_StrVal := "" |} |};
     probe_InitialDelaySeconds := defaultLivenessProbeInitialDelaySeconds;
     probe_TimeoutSeconds := defaultLivenessProbeTimeoutSeconds;
     probe_PeriodSeconds := defaultLivenessProbePeriodSeconds;
     probe_SuccessThreshold := 0;
     probe_FailureThreshold := 0 |}.

(** [DefaultContainerSocket] reads and writes [config.CriSocket].  When the
    socket configuration is absent the new one is returned itself. *)
Definition DefaultContainerSocket (criSocket : option CRISocketConfig)
    : CRISocketConfig * CRISocketConfig :=
  match criSocket with
  | None =>
      let socket :=
        {| cri_DockerSocketPath := NewStringPointer defaultDockerSocketPath |} in
      (socket, socket)
  | Some socket =>
      let path := orDefault (cri_DockerSocketPath socket) defaultDockerSocketPath in
      ({| cri_DockerSocketPath := path.1 |}, {| cri_DockerSocketPath := path.2 |})
  end.

(** [DefaultConfigDogstatsdUDS] reads and writes [dsd.UnixDomainSocket]. *)
Definition DefaultConfigDogstatsdUDS (uds : option DSDUnixDomainSocketSpec)
    : DSDUnixDomainSocketSpec * DSDUnixDomainSocketSpec :=
  let socket := default zero uds in
  let enabled := orDefault (dsduds_Enabled socket) defaultUseDogStatsDSocketVolume in
  let filepath :=
    orDefault (dsduds_HostFilepath socket)
      (pathJoin defaultHostDogstatsdSocketPath defaultHostDogstatsdSocketName) in
  ({| dsduds_Enabled := enabled.1; dsduds_HostFilepath := filepath.1 |},
   {| dsduds_Enabled := enabled.2; dsduds_HostFilepath := filepath.2 |}).

(** [DefaultConfigDogstatsd] reads and writes [config.Dogstatsd]. *)
Definition DefaultConfigDogstatsd (dogstatsd : option DogstatsdConfig)
    : DogstatsdConfig * DogstatsdConfig :=
  let dsd := default zero dogstatsd in
  let origin :=
    orDefault (dsd_DogstatsdOriginDetection dsd) defaultDogstatsdOriginDetection in
  let uds := DefaultConfigDogstatsdUDS (dsd_UnixDomainSocket dsd) in
  ({| dsd_DogstatsdOriginDetection := origin.1;
      dsd_UnixDomainSocket := Some uds.1 |},
   {| dsd_DogstatsdOriginDetection := origin.2;
      dsd_UnixDomainSocket := unlessEmpty uds.2 |}).

(** [DefaultRbacConfig]: a [nil] argument is replaced by a struct that the
    caller never sees. *)
Definition DefaultRbacConfig (rbac : option RbacConfig)
    : option RbacConfig * RbacConfig :=
  let create := orDefault (rbac_Create (default zero rbac)) defaultRbacCreate in
  (match rbac with
   | None => None
   | Some _ => Some {| rbac_Create := create.1 |}
   end,
   {| rbac_Create := create.2 |}).

(** [DefaultDatadogAgentSpecRbacConfig],
    [DefaultDatadogClusterAgentSpecRbacConfig] and
    [DefaultDatadogClusterCheckRunnerSpecRbacConfig] read and write the
    [Rbac] field of their argument, and have the same body. *)
Definition DefaultDatadogAgentSpecRbacConfig (rbac : option RbacConfig)
    : option RbacConfig * RbacConfig :=
  DefaultRbacConfig (orEmpty rbac zero).

Definition DefaultDatadogClusterAgentSpecRbacConfig :=
  DefaultDatadogAgentSpecRbacConfig.

Definition DefaultDatadogClusterCheckRunnerSpecRbacConfig :=
  DefaultDatadogAgentSpecRbacConfig.

(** [DefaultNetworkPolicy], like [DefaultRbacConfig]. *)
Definition DefaultNetworkPolicy (policy : option NetworkPolicySpec)
    : option NetworkPolicySpec * NetworkPolicySpec :=
  let create := orDefault (np_Create (default zero policy)) false in
  (match policy with
   | None => None
   | Some _ => Some {| np_Create := create.1 |}
   end,
   {| np_Create := create.2 |}).

(** [DefaultAgentNetworkPolicy], [DefaultClusterAgentNetworkPolicy] and
    [DefaultClusterCheckRunnerNetworkPolicy] read and write the
    [NetworkPolicy] field of their argument, and have the same body. *)
Definition DefaultAgentNetworkPolicy (policy : option NetworkPolicySpec)
    : option NetworkPolicySpec * NetworkPolicySpec :=
  DefaultNetworkPolicy (orEmpty policy zero).

Definition DefaultClusterAgentNetworkPolicy := DefaultAgentNetworkPolicy.

Definition DefaultClusterCheckRunnerNetworkPolicy := DefaultAgentNetworkPolicy.

(** [DefaultDatadogAgentSpecAgentApmUDS] reads and writes
    [apm.UnixDomainSocket]. *)
Definition DefaultDatadogAgentSpecAgentApmUDS (uds : option APMUnixDomainSocketSpec)
    : APMUnixDomainSocketSpec * APMUnixDomainSocketSpec :=
  match uds with
  | None =>
      let socket :=
        {| apmuds_Enabled := NewBoolPointer false; apmuds_HostFilepath := None |} in
      (socket, socket)
  | Some socket =>
      let enabled := orDefault (apmuds_Enabled socket) false in
      if negb (BoolValue enabled.1) then
        ({| apmuds_Enabled := enabled.1;
            apmuds_HostFilepath := apmuds_HostFilepath socket |},
         {| apmuds_Enabled := enabled.2; apmuds_HostFilepath := None |})
      else
        let filepath :=
          orDefault (apmuds_HostFilepath socket)
            (pathJoin defaultHostApmSocketPath defaultHostApmSocketName) in
        ({| apmuds_Enabled := enabled.1; apmuds_HostFilepath := filepath.1 |},
         {| apmuds_Enabled := enabled.2; apmuds_HostFilepath := filepath.2 |})
  end.

(** [DefaultDatadogAgentSpecAgentApm] reads and writes [agents.Apm]. *)
Definition DefaultDatadogAgentSpecAgentApm (apm : option APMSpec)
    : APMSpec * APMSpec :=
  match apm with
  | None =>
      let a :=
        {| apm_Enabled := NewBoolPointer defaultApmEnabled;
           apm_HostPort := None;
           apm_ContainerConfig := zero;
           apm_UnixDomainSocket := None |} in
      (a, a)
  | Some a =>
      let enabled := orDefault (apm_Enabled a) defaultApmEnabled in
      if negb (BoolValue enabled.1) then
        ({| apm_Enabled := enabled.1;
            apm_HostPort := apm_HostPort a;
            apm_ContainerConfig := apm_ContainerConfig a;
            apm_UnixDomainSocket := apm_UnixDomainSocket a |},
         {| apm_Enabled := enabled.2;
            apm_HostPort := None;
            apm_ContainerConfig := zero;
            apm_UnixDomainSocket := None |})
      else
        let port := orDefault (apm_HostPort a) defaultApmHostPort in
        let probe :=
          orDefault (cc_LivenessProbe (apm_ContainerConfig a))
            getDefaultAPMAgentLivenessProbe in
        let uds := DefaultDatadogAgentSpecAgentApmUDS (apm_UnixDomainSocket a) in
        ({| apm_Enabled := enabled.1;
            apm_HostPort := port.1;
            apm_ContainerConfig :=
              set_cc_LivenessProbe probe.1 (apm_ContainerConfig a);
            apm_UnixDomainSocket := Some uds.1 |},
         {| apm_Enabled := enabled.2;
            apm_HostPort := port.2;
            apm_ContainerConfig := set_cc_LivenessProbe probe.2 zero;
            apm_UnixDomainSocket := unlessEmpty uds.2 |})
  end.

(** [DefaultDatadogAgentSpecAgentSystemProbe] reads and writes
    [agents.SystemProbe]. *)
Definition DefaultDatadogAgentSpecAgentSystemProbe (systemProbe : option SystemProbeSpec)
    : SystemProbeSpec * SystemProbeSpec :=
  match systemProbe with
  | None =>
      let sp := set_sp_Enabled (NewBoolPointer defaultSystemProbeEnabled) zero in
      (sp, sp)
  | Some sp =>
      let enabled := orDefault (sp_Enabled sp) defaultSystemProbeEnabled in
      if negb (BoolValue enabled.1) then
        (set_sp_Enabled enabled.1 sp, set_sp_Enabled enabled.2 zero)
      else
        let oom := orDefault (sp_EnableOOMKill sp) defaultSystemProbeOOMKillEnabled in
        let tcp :=
          orDefault (sp_EnableTCPQueueLength sp)
            defaultSystemProbeTCPQueueLengthEnabled in
        let bpf := orDefault (sp_BPFDebugEnabled sp) defaultSystemProbeBPFDebugEnabled in
        let dns := orDefault (sp_CollectDNSStats sp) defaultSystemProbeCollectDNSStats in
        let conntrack :=
          orDefault (sp_ConntrackEnabled sp) defaultSystemProbeConntrackEnabled in
        let root :=
          orDefaultString (sp_SecCompRootPath sp) defaultSystemProbeSecCompRootPath in
        let armor :=
          orDefaultString (sp_AppArmorProfileName sp) defaultAppArmorProfileName in
        let seccomp :=
          orDefaultString (sp_SecCompProfileName sp) DefaultSeccompProfileName in
        ({| sp_Enabled := enabled.1;
            sp_EnableOOMKill := oom.1;
            sp_EnableTCPQueueLength := tcp.1;
            sp_BPFDebugEnabled := bpf.1;
            sp_CollectDNSStats := dns.1;
            sp_ConntrackEnabled := conntrack.1;
            sp_SecCompRootPath := root.1;
            sp_AppArmorProfileName := armor.1;
            sp_SecCompProfileName := seccomp.1 |},
         {| sp_Enabled := enabled.2;
            sp_EnableOOMKill := oom.2;
            sp_EnableTCPQueueLength := tcp.2;
            sp_BPFDebugEnabled := bpf.2;
            sp_CollectDNSStats := dns.2;
            sp_ConntrackEnabled := conntrack.2;
            sp_SecCompRootPath := root.2;
            sp_AppArmorProfileName := armor.2;
            sp_SecCompProfileName := seccomp.2 |})
  end.

(** [DefaultDatadogAgentSpecAgentSecurity] reads and writes
    [agents.Security].  A syscall monitor that is absent is created and
    shared with the override, so that its [Enabled] shows in both; one that
    is present without [Enabled] has no counterpart in the override, and
    writing the override's field dereferences [nil]. *)
Definition DefaultDatadogAgentSpecAgentSecurity (security : option SecuritySpec)
    : option (SecuritySpec * SecuritySpec) :=
  let sec := default zero security in
  let compliance :=
    orDefault (comp_Enabled (sec_Compliance sec)) defaultSecurityComplianceEnabled in
  let runtime :=
    orDefault (rt_Enabled (sec_Runtime sec)) defaultSecurityRuntimeEnabled in
  let result (monitor monitorOverride : option SyscallMonitorSpec) :=
    ({| sec_Compliance := {| comp_Enabled := compliance.1 |};
        sec_Runtime := {| rt_Enabled := runtime.1; rt_SyscallMonitor := monitor |} |},
     {| sec_Compliance := {| comp_Enabled := compliance.2 |};
        sec_Runtime :=
          {| rt_Enabled := runtime.2; rt_SyscallMonitor := monitorOverride |} |}) in
  match rt_SyscallMonitor (sec_Runtime sec) with
  | None =>
      let monitor :=
        {| sm_Enabled := NewBoolPointer defaultSecuritySyscallMonitorEnabled |} in
      Some (result (Some monitor) (Some monitor))
  | Some monitor =>
      match sm_Enabled monitor with
      | None => None
      | Some _ => Some (result (Some monitor) None)
      end
  end.

(** [DefaultDatadogAgentSpecAgentProcess] reads and writes
    [agents.Process]. *)
Definition DefaultDatadogAgentSpecAgentProcess (process : option ProcessSpec)
    : ProcessSpec * ProcessSpec :=
  match process with
  | None =>
      let p :=
        {| proc_Enabled := NewBoolPointer defaultProcessEnabled;
           proc_ProcessCollectionEnabled := None |} in
      (p, p)
  | Some p =>
      let enabled := orDefault (proc_Enabled p) defaultProcessEnabled in
      if negb (BoolValue enabled.1) then
        ({| proc_Enabled := enabled.1;
            proc_ProcessCollectionEnabled := proc_ProcessCollectionEnabled p |},
         {| proc_Enabled := enabled.2; proc_ProcessCollectionEnabled := None |})
      else
        let collection :=
          orDefault (proc_ProcessCollectionEnabled p)
            defaultProcessCollectionEnabled in
        ({| proc_Enabled := enabled.1;
            proc_ProcessCollectionEnabled := collection.1 |},
         {| proc_Enabled := enabled.2;
            proc_ProcessCollectionEnabled := collection.2 |})
  end.

Section Defaulting.

(** ** Collaborators outside the package *)

(** [edsdatadoghqv1alpha1.DefaultExtendedDaemonSetSpecStrategyCanary], of
    the extended daemon set library. *)
Variable DefaultExtendedDaemonSetSpecStrategyCanary :
  ExtendedDaemonSetSpecStrategyCanary -> ExtendedDaemonSetSpecStrategyCanary.

(** [utils.GetTagFromImageName], of [pkg/utils]. *)
Variable GetTagFromImageName : string -> string.

(** The versions that [pkg/utils] compares, the parser of a version, which
    fails on a string that is not one, and the order of the versions. *)
Variable Version : Type.
Variable NewVersion : string -> option Version.
Variable versionLeb : Version -> Version -> bool.

(** Modelled from the spec: [utils.IsAboveMinVersion] is declared in
    [pkg/utils].  It tells whether [version] is at or above [minVersion];
    a version-comparison failure (unparsable tag) is treated as below the
    minimum version. *)
Definition IsAboveMinVersion (version minVersion : string) : bool :=
  match NewVersion version, NewVersion minVersion with
  | Some v, Some m => versionLeb m v
  | _, _ => false
  end.

(** [DefaultDatadogAgentSpecDatadogAgentStrategy] reads and writes
    [agents.DeploymentStrategy]. *)
Definition DefaultDatadogAgentSpecDatadogAgentStrategy
    (deploymentStrategy : option DaemonSetDeploymentStrategy)
    : DaemonSetDeploymentStrategy * DaemonSetDeploymentStrategy :=
  let strategy := default zero deploymentStrategy in
  let rolling := ds_RollingUpdate strategy in
  let str (s : string) :=
    {| ios_Type := StringKind; ios_IntVal := 0; ios_StrVal := s |} in
  let updateStrategy :=
    orDefault (ds_UpdateStrategyType strategy) defaultUpdateStrategy in
  let maxUnavailable :=
    orDefault (ru_MaxUnavailable rolling)
      (str defaultRollingUpdateMaxUnavailable) in
  let maxPodSchedulerFailure :=
    orDefault (ru_MaxPodSchedulerFailure rolling)
      (str defaultRollingUpdateMaxPodSchedulerFailure) in
  let maxParallelPodCreation :=
    orDefault (ru_MaxParallelPodCreation rolling)
      defaultRollingUpdateMaxParallelPodCreation in
  let slowStartIntervalDuration :=
    orDefault (ru_SlowStartIntervalDuration rolling)
      defaultRollingUpdateSlowStartIntervalDuration in
  let slowStartAdditiveIncrease :=
    orDefault (ru_SlowStartAdditiveIncrease rolling)
      (str defaultRollingUpdateSlowStartAdditiveIncrease) in
  let canary :=
    orDefault (ds_Canary strategy)
      (DefaultExtendedDaemonSetSpecStrategyCanary zero) in
  let reconcileFrequency :=
    orDefault (ds_ReconcileFrequency strategy) defaultReconcileFrequency in
  ({| ds_UpdateStrategyType := updateStrategy.1;
      ds_RollingUpdate :=
        {| ru_MaxUnavailable := maxUnavailable.1;
           ru_MaxPodSchedulerFailure := maxPodSchedulerFailure.1;
           ru_MaxParallelPodCreation := maxParallelPodCreation.1;
           ru_SlowStartIntervalDuration := slowStartIntervalDuration.1;
           ru_SlowStartAdditiveIncrease := slowStartAdditiveIncrease.1 |};
      ds_Canary := canary.1;
      ds_ReconcileFrequency := reconcileFrequency.1 |},
   {| ds_UpdateStrategyType := updateStrategy.2;
      ds_RollingUpdate :=
        {| ru_MaxUnavailable := maxUnavailable.2;
           ru_MaxPodSchedulerFailure := maxPodSchedulerFailure.2;
           ru_MaxParallelPodCreation := maxParallelPodCreation.2;
           ru_SlowStartIntervalDuration := slowStartIntervalDuration.2;
           ru_SlowStartAdditiveIncrease := slowStartAdditiveIncrease.2 |};
      ds_Canary := canary.2;
      ds_ReconcileFrequency := reconcileFrequency.2 |}).

(** The tag that decides about the socket default: the one
    [GetTagFromImageName] finds in the name of the image, without a
    [-jmx] suffix. *)
Definition agentTagOf (image : ImageConfig) : string :=
  TrimSuffix (GetTagFromImageName (img_Name image)) "-jmx".

(** The condition under which the socket default is left to the agent. *)
Definition socketDefaultSkipped (agentTag : string) : bool :=
  String.eqb agentTag "latest"
  || IsAboveMinVersion agentTag "7.27.0-0"
  || IsAboveMinVersion agentTag "6.27.0-0".

(** [DefaultDatadogAgentSpecAgentConfig] reads [agents.Image], which it
    dereferences, and reads and writes [agents.NodeAgent].  The log level is
    assigned to itself, not to the override. *)
Definition DefaultDatadogAgentSpecAgentConfig (image : option ImageConfig)
    (nodeAgent : option NodeAgentSpec) : option (NodeAgentSpec * NodeAgentSpec) :=
  match image with
  | None => None
  | Some img =>
      let config := default zero nodeAgent in
      let container := na_ContainerConfig config in
      let logLevel := orDefault (cc_LogLevel container) defaultLogLevel in
      let collectEvents := orDefault (na_CollectEvents config) defaultCollectEvents in
      let leaderElection :=
        orDefault (na_LeaderElection config) defaultLeaderElection in
      let socket :=
        if negb (socketDefaultSkipped (agentTagOf img)) then
          let s := DefaultContainerSocket (na_CriSocket config) in
          (Some s.1, unlessEmpty s.2)
        else (na_CriSocket config, None) in
      let dsd := DefaultConfigDogstatsd (na_Dogstatsd config) in
      let liveness :=
        orDefault (cc_LivenessProbe container) GetDefaultLivenessProbe in
      let readiness :=
        orDefault (cc_ReadinessProbe container) GetDefaultReadinessProbe in
      let healthPort := orDefault (cc_HealthPort container) defaultAgentHealthPort in
      Some
        ({| na_ContainerConfig :=
              {| cc_LogLevel := logLevel.1;
                 cc_Resources := orEmpty (cc_Resources container) zero;
                 cc_LivenessProbe := liveness.1;
                 cc_ReadinessProbe := readiness.1;
                 cc_HealthPort := healthPort.1 |};
            na_CollectEvents := collectEvents.1;
            na_LeaderElection := leaderElection.1;
            na_CriSocket := socket.1;
            na_Dogstatsd := Some dsd.1;
            na_PodLabelsAsTags := orEmpty (na_PodLabelsAsTags config) [];
            na_PodAnnotationsAsTags := orEmpty (na_PodAnnotationsAsTags config) [];
            na_Tags := orEmpty (na_Tags config) [] |},
         {| na_ContainerConfig :=
              {| cc_LogLevel := None;
                 cc_Resources := None;
                 cc_LivenessProbe := liveness.2;
                 cc_ReadinessProbe := readiness.2;
                 cc_HealthPort := healthPort.2 |};
            na_CollectEvents := collectEvents.2;
            na_LeaderElection := leaderElection.2;
            na_CriSocket := socket.2;
            na_Dogstatsd := unlessEmpty dsd.2;
            na_PodLabelsAsTags := None;
            na_PodAnnotationsAsTags := None;
            na_Tags := None |})
  end.

(** [DefaultDatadogAgentSpecAgent]: the agent after the call and the
    override.  An agent that is entirely empty is enabled without a trace in
    the override. *)
Definition DefaultDatadogAgentSpecAgent (daemonsetAgents : DatadogAgentSpecAgentSpec)
    : option (DatadogAgentSpecAgentSpec * DatadogAgentSpecAgentSpec) :=
  let agents :=
    if IsEqualStruct daemonsetAgents zero
    then set_agent_Enabled (NewBoolPointer defaultAgentEnabled) daemonsetAgents
    else daemonsetAgents in
  if IsEqualStruct daemonsetAgents zero && negb (BoolValue (agent_Enabled agents))
  then Some (agents, agents)
  else
    let enabled := orDefault (agent_Enabled agents) defaultAgentEnabled in
    if negb (BoolValue enabled.1) then
      Some (set_agent_Enabled enabled.1 agents, set_agent_Enabled enabled.2 zero)
    else
      let useEDS := orDefault (agent_UseExtendedDaemonset agents) false in
      let img :=
        DefaultDatadogAgentSpecAgentImage (agent_Image agents)
          defaultAgentImageName defaultAgentImageTag in
      match DefaultDatadogAgentSpecAgentConfig (Some img.1) (agent_NodeAgent agents),
            DefaultDatadogAgentSpecAgentSecurity (agent_Security agents) with
      | Some cfg, Some sec =>
          let rbac := DefaultDatadogAgentSpecRbacConfig (agent_Rbac agents) in
          let deployStrat :=
            DefaultDatadogAgentSpecDatadogAgentStrategy
              (agent_DeploymentStrategy agents) in
          let apm := DefaultDatadogAgentSpecAgentApm (agent_Apm agents) in
          let sysProb :=
            DefaultDatadogAgentSpecAgentSystemProbe (agent_SystemProbe agents) in
          let proc := DefaultDatadogAgentSpecAgentProcess (agent_Process agents) in
          let net := DefaultAgentNetworkPolicy (agent_NetworkPolicy agents) in
          Some
            ({| agent_Enabled := enabled.1;
                agent_UseExtendedDaemonset := useEDS.1;
                agent_Image := Some img.1;
                agent_NodeAgent := Some cfg.1;
                agent_Rbac := rbac.1;
                agent_DeploymentStrategy := Some deployStrat.1;
                agent_Apm := Some apm.1;
                agent_SystemProbe := Some sysProb.1;
                agent_Security := Some sec.1;
                agent_Process := Some proc.1;
                agent_NetworkPolicy := net.1 |},
             {| agent_Enabled := enabled.2;
                agent_UseExtendedDaemonset := useEDS.2;
                agent_Image := unlessEmpty img.2;
                agent_NodeAgent := unlessEmpty cfg.2;
                agent_Rbac := unlessEmpty rbac.2;
                agent_DeploymentStrategy := unlessEmpty deployStrat.2;
                agent_Apm := unlessEmpty apm.2;
                agent_SystemProbe := unlessEmpty sysProb.2;
                agent_Security := unlessEmpty sec.2;
                agent_Process := unlessEmpty proc.2;
                agent_NetworkPolicy := unlessEmpty net.2 |})
      | _, _ => None
      end.

(** [DefaultDatadogFeatureLogCollection] reads and writes
    [ft.LogCollection].  The override always carries [Enabled]. *)
Definition DefaultDatadogFeatureLogCollection (logCollection : option LogCollectionConfig)
    : LogCollectionConfig * LogCollectionConfig :=
  match logCollection with
  | None =>
      let l :=
        {| log_Enabled := NewBoolPointer defaultLogEnabled;
           log_LogsConfigContainerCollectAll := None;
           log_ContainerCollectUsingFiles := None;
           log_ContainerLogsPath := None;
           log_PodLogsPath := None;
           log_ContainerSymlinksPath := None;
           log_TempStoragePath := None;
           log_OpenFilesLimit := None |} in
      (l, l)
  | Some l =>
      let enabled := orEmpty (log_Enabled l) defaultLogEnabled in
      if negb (BoolValue enabled) then
        ({| log_Enabled := enabled;
            log_LogsConfigContainerCollectAll := log_LogsConfigContainerCollectAll l;
            log_ContainerCollectUsingFiles := log_ContainerCollectUsingFiles l;
            log_ContainerLogsPath := log_ContainerLogsPath l;
            log_PodLogsPath := log_PodLogsPath l;
            log_ContainerSymlinksPath := log_ContainerSymlinksPath l;
            log_TempStoragePath := log_TempStoragePath l;
            log_OpenFilesLimit := log_OpenFilesLimit l |},
         {| log_Enabled := enabled;
            log_LogsConfigContainerCollectAll := None;
            log_ContainerCollectUsingFiles := None;
            log_ContainerLogsPath := None;
            log_PodLogsPath := None;
            log_ContainerSymlinksPath := None;
            log_TempStoragePath := None;
            log_OpenFilesLimit := None |})
      else
        let collectAll :=
          orDefault (log_LogsConfigContainerCollectAll l)
            defaultLogsConfigContainerCollectAll in
        let usingFiles :=
          orDefault (log_ContainerCollectUsingFiles l)
            defaultLogsContainerCollectUsingFiles in
        let containerLogs :=
          orDefault (log_ContainerLogsPath l) defaultContainerLogsPath in
        let podLogs := orDefault (log_PodLogsPath l) defaultPodLogsPath in
        let symlinks :=
          orDefault (log_ContainerSymlinksPath l) defaultContainerSymlinksPath in
        let temp := orDefault (log_TempStoragePath l) defaultLogsTempStoragePath in
        let openFiles := orDefault (log_OpenFilesLimit l) defaultLogsOpenFilesLimit in
        ({| log_Enabled := enabled;
            log_LogsConfigContainerCollectAll := collectAll.1;
            log_ContainerCollectUsingFiles := usingFiles.1;
            log_ContainerLogsPath := containerLogs.1;
            log_PodLogsPath := podLogs.1;
            log_ContainerSymlinksPath := symlinks.1;
            log_TempStoragePath := temp.1;
            log_OpenFilesLimit := openFiles.1 |},
         {| log_Enabled := enabled;
            log_LogsConfigContainerCollectAll := collectAll.2;
            log_ContainerCollectUsingFiles := usingFiles.2;
            log_ContainerLogsPath := containerLogs.2;
            log_PodLogsPath := podLogs.2;
            log_ContainerSymlinksPath := symlinks.2;
            log_TempStoragePath := temp.2;
            log_OpenFilesLimit := openFiles.2 |})
  end.

(** [defaultEnabledDatadogFeatureOrchestratorExplorer].  A scrubbing
    configuration that is absent is created and shared with the override;
    one that is present without [Containers] has no counterpart in the
    override, and writing the override's field dereferences [nil]. *)
Definition defaultEnabledDatadogFeatureOrchestratorExplorer
    (config : OrchestratorExplorerConfig) (withClusterChecksRunner : bool)
    : option (OrchestratorExplorerConfig * OrchestratorExplorerConfig) :=
  let enabled := orDefault (oe_Enabled config) defaultOrchestratorExplorerEnabled in
  if BoolValue enabled.1 then
    let clusterCheck := orDefault (oe_ClusterCheck config) withClusterChecksRunner in
    let result (scrubbing scrubbingOverride : option Scrubbing) :=
      ({| oe_Enabled := enabled.1;
          oe_ClusterCheck := clusterCheck.1;
          oe_Scrubbing := scrubbing |},
       {| oe_Enabled := enabled.2;
          oe_ClusterCheck := clusterCheck.2;
          oe_Scrubbing := scrubbingOverride |}) in
    match oe_Scrubbing config with
    | None =>
        let scrubbing :=
          {| scrub_Containers :=
               NewBoolPointer defaultOrchestratorExplorerContainerScrubbingEnabled |} in
        Some (result (Some scrubbing) (Some scrubbing))
    | Some scrubbing =>
        match scrub_Containers scrubbing with
        | None => None
        | Some _ => Some (result (Some scrubbing) None)
        end
    end
  else
    Some ({| oe_Enabled := enabled.1;
             oe_ClusterCheck := oe_ClusterCheck config;
             oe_Scrubbing := oe_Scrubbing config |},
          {| oe_Enabled := NewBoolPointer false;
             oe_ClusterCheck := None;
             oe_Scrubbing := None |}).

(** [DefaultDatadogFeatureOrchestratorExplorer] reads and writes
    [ft.OrchestratorExplorer]. *)
Definition DefaultDatadogFeatureOrchestratorExplorer
    (orchestratorExplorer : option OrchestratorExplorerConfig)
    (withClusterChecksRunner : bool)
    : option (OrchestratorExplorerConfig * OrchestratorExplorerConfig) :=
  defaultEnabledDatadogFeatureOrchestratorExplorer
    (default zero orchestratorExplorer) withClusterChecksRunner.

(** [DefaultDatadogFeatureKubeStateMetricsCore] reads and writes
    [ft.KubeStateMetricsCore].  The override always carries both fields. *)
Definition DefaultDatadogFeatureKubeStateMetricsCore
    (kubeStateMetricsCore : option KubeStateMetricsCore)
    (withClusterChecksRunner : bool) : KubeStateMetricsCore * KubeStateMetricsCore :=
  match kubeStateMetricsCore with
  | None =>
      let ksm :=
        {| ksm_Enabled := NewBoolPointer defaultKubeStateMetricsCoreEnabled;
           ksm_ClusterCheck := NewBoolPointer withClusterChecksRunner |} in
      (ksm, ksm)
  | Some ksm =>
      let ksmCoreOverride :=
        {| ksm_Enabled := orEmpty (ksm_Enabled ksm) defaultKubeStateMetricsCoreEnabled;
           ksm_ClusterCheck := orEmpty (ksm_ClusterCheck ksm) withClusterChecksRunner |} in
      (ksmCoreOverride, ksmCoreOverride)
  end.

(** [DefaultDatadogFeaturePrometheusScrape] reads and writes
    [ft.PrometheusScrape].  The override always carries [Enabled]. *)
Definition DefaultDatadogFeaturePrometheusScrape
    (prometheusScrape : option PrometheusScrapeConfig)
    : PrometheusScrapeConfig * PrometheusScrapeConfig :=
  let prom :=
    default {| prom_Enabled := NewBoolPointer defaultPrometheusScrapeEnabled;
               prom_ServiceEndpoints := None |}
      prometheusScrape in
  let enabled := orEmpty (prom_Enabled prom) defaultPrometheusScrapeEnabled in
  if negb (BoolValue enabled) then
    ({| prom_Enabled := enabled;
        prom_ServiceEndpoints := prom_ServiceEndpoints prom |},
     {| prom_Enabled := enabled; prom_ServiceEndpoints := None |})
  else
    let endpoints :=
      orDefault (prom_ServiceEndpoints prom) defaultPrometheusScrapeServiceEndpoints in
    ({| prom_Enabled := enabled; prom_ServiceEndpoints := endpoints.1 |},
     {| prom_Enabled := enabled; prom_ServiceEndpoints := endpoints.2 |}).

(** [DefaultDatadogFeatureNetworkMonitoring] reads and writes
    [ft.NetworkMonitoring].  The override always carries [Enabled]. *)
Definition DefaultDatadogFeatureNetworkMonitoring
    (networkMonitoring : option NetworkMonitoringConfig)
    : NetworkMonitoringConfig * NetworkMonitoringConfig :=
  match networkMonitoring with
  | None =>
      let net := {| nm_Enabled := NewBoolPointer false |} in
      (net, net)
  | Some net =>
      let netOverride := {| nm_Enabled := orEmpty (nm_Enabled net) false |} in
      (netOverride, netOverride)
  end.

Definition clusterChecksRunnerEnabled (dda : DatadogAgent) : bool :=
  match clc_Enabled (spec_ClusterChecksRunner (Spec dda)) with
  | Some enabled => enabled
  | None => false
  end.

(** [DefaultFeatures]: the object after the call and the override. *)
Definition DefaultFeatures (dda : DatadogAgent)
    : option (DatadogAgent * DatadogFeatures) :=
  let ft := spec_Features (Spec dda) in
  let clusterCheckEnabled := clusterChecksRunnerEnabled dda in
  match DefaultDatadogFeatureOrchestratorExplorer
          (ft_OrchestratorExplorer ft) clusterCheckEnabled with
  | None => None
  | Some orch =>
      let ksm :=
        DefaultDatadogFeatureKubeStateMetricsCore
          (ft_KubeStateMetricsCore ft) clusterCheckEnabled in
      let promScrape := DefaultDatadogFeaturePrometheusScrape (ft_PrometheusScrape ft) in
      let logColl := DefaultDatadogFeatureLogCollection (ft_LogCollection ft) in
      let net := DefaultDatadogFeatureNetworkMonitoring (ft_NetworkMonitoring ft) in
      Some
        ({| Spec :=
              set_spec_Features
                {| ft_OrchestratorExplorer := Some orch.1;
                   ft_KubeStateMetricsCore := Some ksm.1;
                   ft_PrometheusScrape := Some promScrape.1;
                   ft_LogCollection := Some logColl.1;
                   ft_NetworkMonitoring := Some net.1 |}
                (Spec dda) |},
         {| ft_OrchestratorExplorer := unlessEmpty orch.2;
            ft_KubeStateMetricsCore := unlessEmpty ksm.2;
            ft_PrometheusScrape := unlessEmpty promScrape.2;
            ft_LogCollection := unlessEmpty logColl.2;
            ft_NetworkMonitoring := unlessEmpty net.2 |})
  end.

(** [DefaultExternalMetrics] reads and writes [conf.ExternalMetrics]. *)
Definition DefaultExternalMetrics (externalMetrics : option ExternalMetricsConfig)
    : ExternalMetricsConfig * ExternalMetricsConfig :=
  match externalMetrics with
  | None =>
      let em :=
        {| em_Enabled := NewBoolPointer defaultExternalMetricsEnabled;
           em_Port := None |} in
      (em, em)
  | Some em =>
      let enabled := orDefault (em_Enabled em) true in
      let port :=
        match em_Port em with
        | None =>
            if BoolValue enabled.1
            then (NewInt32Pointer defaultMetricsProviderPort,
                  NewInt32Pointer defaultMetricsProviderPort)
            else (None, None)
        | Some _ => (em_Port em, None)
        end in
      ({| em_Enabled := enabled.1; em_Port := port.1 |},
       {| em_Enabled := enabled.2; em_Port := port.2 |})
  end.

(** [DefaultAdmissionController] reads and writes
    [conf.AdmissionController]. *)
Definition DefaultAdmissionController
    (admissionController : option AdmissionControllerConfig)
    : AdmissionControllerConfig * AdmissionControllerConfig :=
  match admissionController with
  | None =>
      let ac :=
        {| ac_Enabled := NewBoolPointer defaultAdmissionControllerEnabled;
           ac_MutateUnlabelled := None;
           ac_ServiceName := None |} in
      (ac, ac)
  | Some ac =>
      let enabled := orDefault (ac_Enabled ac) defaultAdmissionControllerEnabled in
      let mutate := orDefault (ac_MutateUnlabelled ac) defaultMutateUnlabelled in
      let service := orDefault (ac_ServiceName ac) DefaultAdmissionServiceName in
      ({| ac_Enabled := enabled.1;
          ac_MutateUnlabelled := mutate.1;
          ac_ServiceName := service.1 |},
       {| ac_Enabled := enabled.2;
          ac_MutateUnlabelled := mutate.2;
          ac_ServiceName := service.2 |})
  end.

(** [DefaultDatadogAgentSpecClusterAgentConfig] reads [dca.CustomConfig] and
    reads and writes [dca.Config]: the configuration is replaced by an empty
    one when there is no custom configuration, and dereferenced as it is
    otherwise.  [Features] is an embedded struct whose address the source
    hands to [DefaultExternalMetrics] and [DefaultAdmissionController]. *)
Definition DefaultDatadogAgentSpecClusterAgentConfig
    (config : option ClusterAgentConfig) (customConfig : option CustomConfigSpec)
    : option (ClusterAgentConfig * ClusterAgentConfig) :=
  let config :=
    match customConfig with
    | None => Some zero
    | Some _ => config
    end in
  match config with
  | None => None
  | Some cfg =>
      let container := cac_ContainerConfig cfg in
      let features := cac_Features cfg in
      let logLevel := orDefault (cc_LogLevel container) defaultLogLevel in
      let extMetrics := DefaultExternalMetrics (fca_ExternalMetrics features) in
      let clusterChecks :=
        orDefault (fca_ClusterChecksEnabled features) defaultClusterChecksEnabled in
      let collectEvents :=
        orDefault (fca_CollectEvents features) defaultCollectEvents in
      let admCtrl := DefaultAdmissionController (fca_AdmissionController features) in
      let healthPort := orDefault (cc_HealthPort container) defaultAgentHealthPort in
      Some
        ({| cac_ContainerConfig :=
              {| cc_LogLevel := logLevel.1;
                 cc_Resources := orEmpty (cc_Resources container) zero;
                 cc_LivenessProbe := cc_LivenessProbe container;
                 cc_ReadinessProbe := cc_ReadinessProbe container;
                 cc_HealthPort := healthPort.1 |};
            cac_Features :=
              {| fca_ExternalMetrics := Some extMetrics.1;
                 fca_ClusterChecksEnabled := clusterChecks.1;
                 fca_CollectEvents := collectEvents.1;
                 fca_AdmissionController := Some admCtrl.1 |} |},
         {| cac_ContainerConfig :=
              {| cc_LogLevel := logLevel.2;
                 cc_Resources := None;
                 cc_LivenessProbe := None;
                 cc_ReadinessProbe := None;
                 cc_HealthPort := healthPort.2 |};
            cac_Features :=
              {| fca_ExternalMetrics := unlessEmpty extMetrics.2;
                 fca_ClusterChecksEnabled := clusterChecks.2;
                 fca_CollectEvents := collectEvents.2;
                 fca_AdmissionController := unlessEmpty admCtrl.2 |} |})
  end.

(** [DefaultDatadogAgentSpecClusterAgent]: the cluster agent after the call
    and the override. *)
Definition DefaultDatadogAgentSpecClusterAgent
    (clusterAgent : DatadogAgentSpecClusterAgentSpec)
    : option (DatadogAgentSpecClusterAgentSpec * DatadogAgentSpecClusterAgentSpec) :=
  let dca :=
    if IsEqualStruct clusterAgent zero
    then set_dca_Enabled (NewBoolPointer defaultClusterAgentEnabled) clusterAgent
    else clusterAgent in
  if IsEqualStruct clusterAgent zero && negb (BoolValue (dca_Enabled dca))
  then Some (dca, dca)
  else
    let enabled := orDefault (dca_Enabled dca) defaultClusterAgentEnabled in
    if negb (BoolValue enabled.1) then
      Some (set_dca_Enabled enabled.1 dca, set_dca_Enabled enabled.2 zero)
    else
      let img :=
        DefaultDatadogClusterAgentImage (orEmpty (dca_Image dca) zero)
          defaultClusterAgentImageName defaultClusterAgentImageTag in
      match DefaultDatadogAgentSpecClusterAgentConfig
              (dca_Config dca) (dca_CustomConfig dca) with
      | None => None
      | Some cfg =>
          let rbac := DefaultDatadogClusterAgentSpecRbacConfig (dca_Rbac dca) in
          let net := DefaultClusterAgentNetworkPolicy (dca_NetworkPolicy dca) in
          Some
            ({| dca_Enabled := enabled.1;
                dca_Image := Some img.1;
                dca_Config := Some cfg.1;
                dca_CustomConfig := dca_CustomConfig dca;
                dca_Rbac := rbac.1;
                dca_NetworkPolicy := net.1 |},
             {| dca_Enabled := enabled.2;
                dca_Image := unlessEmpty img.2;
                dca_Config := unlessEmpty cfg.2;
                dca_CustomConfig := None;
                dca_Rbac := unlessEmpty rbac.2;
                dca_NetworkPolicy := unlessEmpty net.2 |})
      end.

(** [DefaultDatadogAgentSpecClusterChecksRunnerConfig] reads and writes
    [clc.ContainerConfig]. *)
Definition DefaultDatadogAgentSpecClusterChecksRunnerConfig
    (containerConfig : option DatadogAgentGenericContainerConfig)
    : DatadogAgentGenericContainerConfig * DatadogAgentGenericContainerConfig :=
  let container := default zero containerConfig in
  let logLevel := orDefault (cc_LogLevel container) defaultLogLevel in
  let liveness := orDefault (cc_LivenessProbe container) GetDefaultLivenessProbe in
  let readiness := orDefault (cc_ReadinessProbe container) GetDefaultReadinessProbe in
  let healthPort := orDefault (cc_HealthPort container) defaultAgentHealthPort in
  ({| cc_LogLevel := logLevel.1;
      cc_Resources := orEmpty (cc_Resources container) zero;
      cc_LivenessProbe := liveness.1;
      cc_ReadinessProbe := readiness.1;
      cc_HealthPort := healthPort.1 |},
   {| cc_LogLevel := logLevel.2;
      cc_Resources := None;
      cc_LivenessProbe := liveness.2;
      cc_ReadinessProbe := readiness.2;
      cc_HealthPort := healthPort.2 |}).

(** [DefaultDatadogAgentSpecClusterChecksRunner]: the runner after the call
    and the override.  A runner that is entirely empty is disabled and
    returned itself; any other runner is defaulted in full, whether it is
    enabled or not. *)
Definition DefaultDatadogAgentSpecClusterChecksRunner
    (clusterChecksRunner : DatadogAgentSpecClusterChecksRunnerSpec)
    : DatadogAgentSpecClusterChecksRunnerSpec * DatadogAgentSpecClusterChecksRunnerSpec :=
  let clc :=
    if IsEqualStruct clusterChecksRunner zero
    then set_clc_Enabled (NewBoolPointer defaultClusterChecksRunnerEnabled)
           clusterChecksRunner
    else clusterChecksRunner in
  if IsEqualStruct clusterChecksRunner zero && negb (BoolValue (clc_Enabled clc))
  then (clc, clc)
  else
    let enabled := orDefault (clc_Enabled clc) true in
    let img :=
      DefaultDatadogAgentSpecClusterChecksRunnerImage (clc_Image clc)
        defaultAgentImageName defaultAgentImageTag in
    let cfg :=
      DefaultDatadogAgentSpecClusterChecksRunnerConfig (clc_ContainerConfig clc) in
    let rbac := DefaultDatadogClusterCheckRunnerSpecRbacConfig (clc_Rbac clc) in
    let net := DefaultClusterCheckRunnerNetworkPolicy (clc_NetworkPolicy clc) in
    ({| clc_Enabled := enabled.1;
        clc_Image := Some img.1;
        clc_ContainerConfig := Some cfg.1;
        clc_Rbac := rbac.1;
        clc_NetworkPolicy := net.1 |},
     {| clc_Enabled := enabled.2;
        clc_Image := unlessEmpty img.2;
        clc_ContainerConfig := unlessEmpty cfg.2;
        clc_Rbac := unlessEmpty rbac.2;
        clc_NetworkPolicy := unlessEmpty net.2 |}).

(** Whether a feature is present and enabled. *)
Definition networkMonitoringEnabled (ft : DatadogFeatures) : bool :=
  match ft_NetworkMonitoring ft with
  | Some net => BoolValue (nm_Enabled net)
  | None => false
  end.

Definition orchestratorExplorerEnabled (ft : DatadogFeatures) : bool :=
  match ft_OrchestratorExplorer ft with
  | Some orch => BoolValue (oe_Enabled orch)
  | None => false
  end.

Definition isSome {A} (p : option A) : bool :=
  match p with
  | Some _ => true
  | None => false
  end.

(** [FeatureOverride]: the spec and the override after the call.  The first
    statement of each block writes through [dda.Agent.SystemProbe], or
    [dda.Agent.Process], which faults when the pointer is [nil]. *)
Definition FeatureOverride (dda dso : DatadogAgentSpec)
    : option (DatadogAgentSpec * DatadogAgentSpec) :=
  '(dda, dso) ←
    (if networkMonitoringEnabled (spec_Features dda)
        && (negb (BoolValue (agent_Enabled (spec_Agent dda)))
            || isSome (agent_SystemProbe (spec_Agent dda)))
     then
       match agent_SystemProbe (spec_Agent dda) with
       | None => None
       | Some systemProbe =>
           let sysProb :=
             DefaultDatadogAgentSpecAgentSystemProbe
               (Some (set_sp_Enabled (NewBoolPointer true) systemProbe)) in
           Some
             (set_spec_Agent
                (set_agent_SystemProbe (Some sysProb.1) (spec_Agent dda)) dda,
              set_spec_Agent
                (set_agent_SystemProbe
                   (Some (set_sp_Enabled (NewBoolPointer true) sysProb.2))
                   (spec_Agent dso)) dso)
       end
     else Some (dda, dso));
  if orchestratorExplorerEnabled (spec_Features dda)
     && (negb (BoolValue (agent_Enabled (spec_Agent dda)))
         || isSome (agent_Process (spec_Agent dda)))
  then
    match agent_Process (spec_Agent dda) with
    | None => None
    | Some process =>
        let proc :=
          DefaultDatadogAgentSpecAgentProcess
            (Some (set_proc_Enabled (NewBoolPointer true) process)) in
        Some
          (set_spec_Agent (set_agent_Process (Some proc.1) (spec_Agent dda)) dda,
           set_spec_Agent
             (set_agent_Process
                (Some (set_proc_Enabled (NewBoolPointer true) proc.2))
                (spec_Agent dso)) dso)
    end
  else Some (dda, dso).

(** [DefaultDatadogAgent]: the object after the call and the status that
    the call returns. *)
Definition DefaultDatadogAgent (dda : DatadogAgent)
    : option (DatadogAgent * DatadogAgentStatus) :=
  '(spec, dso) ← FeatureOverride (Spec dda) zero;
  '(dda, features) ← DefaultFeatures {| Spec := spec |};
  let dso := set_spec_Features features dso in
  '(clusterAgent, clusterAgentOverride) ←
    DefaultDatadogAgentSpecClusterAgent (spec_ClusterAgent (Spec dda));
  let dso := set_spec_ClusterAgent clusterAgentOverride dso in
  '(agent, agentOverride) ← DefaultDatadogAgentSpecAgent (spec_Agent (Spec dda));
  let dso := set_spec_Agent agentOverride dso in
  let clc :=
    DefaultDatadogAgentSpecClusterChecksRunner (spec_ClusterChecksRunner (Spec dda)) in
  let dso := set_spec_ClusterChecksRunner clc.2 dso in
  let credentials := default zero (spec_Credentials (Spec dda)) in
  let useSecretBackend := orDefault (cred_UseSecretBackend credentials) false in
  Some
    ({| Spec :=
          {| spec_Credentials :=
               Some {| cred_UseSecretBackend := useSecretBackend.1 |};
             spec_Features := spec_Features (Spec dda);
             spec_Agent := agent;
             spec_ClusterAgent := clusterAgent;
             spec_ClusterChecksRunner := clc.1 |} |},
     {| DefaultOverride :=
          Some
            (match useSecretBackend.2 with
             | Some _ =>
                 set_spec_Credentials
                   (Some {| cred_UseSecretBackend := useSecretBackend.1 |}) dso
             | None => dso
             end) |}).

End Defaulting.

End v1alpha1.

(** * The feature factory on a [v1alpha1] object *)

Module featureV1.
Import feature.

Section FactoryV1.

Variable Options : Type.

(** The method [ConfigureV1] of the interface [Feature], which the record
    [Feature] does not carry: [BuildFeatures] has no use for it. *)
Variable ConfigureV1 : Feature -> v1alpha1.DatadogAgent -> RequiredComponents.

(** [RequiredComponents.IsEnabled], declared outside [factory.go]. *)
Variable requirementsEnabled : RequiredComponents -> bool.

(** One iteration of the loop of [BuildFeaturesV1], on the pair of [output]
    and [requiredComponents]. *)
Definition BuildFeaturesV1_iter (dda : v1alpha1.DatadogAgent) (options : Options)
    (featureBuilders : gmap string (BuildFunc Options))
    (st : list Feature * RequiredComponents) (id : IDType)
    : option (list Feature * RequiredComponents) :=
  match featureBuilders !! id with
  | None => None
  | Some build =>
      let feat := build options in
      let config := ConfigureV1 feat dda in
      Some (if requirementsEnabled config then st.1 ++ [feat] else st.1,
            Merge st.2 config)
  end.

Fixpoint BuildFeaturesV1_loop (dda : v1alpha1.DatadogAgent) (options : Options)
    (featureBuilders : gmap string (BuildFunc Options))
    (st : list Feature * RequiredComponents) (sortedkeys : list IDType)
    : option (list Feature * RequiredComponents) :=
  match sortedkeys with
  | [] => Some st
  | id :: rest =>
      match BuildFeaturesV1_iter dda options featureBuilders st id with
      | None => None
      | Some st' => BuildFeaturesV1_loop dda options featureBuilders st' rest
      end
  end.

(** [BuildFeaturesV1] sorts the keys of the registry itself. *)
Definition BuildFeaturesV1 (dda : v1alpha1.DatadogAgent) (options : Options)
    (featureBuilders : gmap string (BuildFunc Options))
    : option (list Feature * RequiredComponents) :=
  let sortedkeys := sortIDs (registeredIDs Options featureBuilders) in
  BuildFeaturesV1_loop dda options featureBuilders
    ([], emptyRequiredComponents) sortedkeys.

End FactoryV1.

End featureV1.

(** * Properties of the feature factory *)

Module feature_facts.
Import feature.

(** Modelled from the spec: the kinds of component. *)
Inductive ComponentKind := NodeAgent | ClusterAgentKind | ClusterCheckRunner.

Definition component (k : ComponentKind) (rc : RequiredComponents) : RequiredComponent :=
  match k with
  | NodeAgent => Agent rc
  | ClusterAgentKind => ClusterAgent rc
  | ClusterCheckRunner => ClusterChecksRunner rc
  end.

(** ** Concrete registries *)

(** A feature that has nothing to contribute. *)
Definition someFeature (name : string) : BuildFunc unit :=
  fun _ => {| FeatureName := name;
              Configure := fun _ _ => emptyRequiredComponents |}.

(** A feature that requires the node agent [agent] and nothing else. *)
Definition agentFeature (name : string) (agent : RequiredComponent) : BuildFunc unit :=
  fun _ => {| FeatureName := name;
              Configure := fun _ _ =>
                {| Agent := agent;
                   ClusterAgent := noRequirement;
                   ClusterChecksRunner := noRequirement |} |}.

(** The six privileged features under the names the operator gives them,
    CWS requiring a privileged node agent, and one feature that is not
    privileged. *)
Definition sevenBuilders : gmap string (BuildFunc unit) :=
  <["cws" := agentFeature "cws" {| IsRequired := Some true; Privileged := true |}]>
    (list_to_map
       (map (fun id => (id, someFeature id))
          ["apm"; "cspm"; "ebpf_check"; "oom_kill"; "tcp_queue_length"; "usm"])).

(** Two more features: one enables the node agent, the other only marks it
    privileged. *)
Definition nineBuilders : gmap string (BuildFunc unit) :=
  <["dogstatsd" := agentFeature "dogstatsd" {| IsRequired := Some true; Privileged := false |}]>
    (<["live_container" := agentFeature "live_container" {| IsRequired := None; Privileged := true |}]>
       (<["cws" := someFeature "cws"]> sevenBuilders)).

(** An object that requests multi-process mode. *)
Definition multiProcessAgent : DatadogAgent :=
  {| Spec := {| Global := Some {| ContainerProcessModel_ :=
       Some {| UseMultiProcessContainer := Some true |} |} |} |}.

Abbreviation exampleRun :=
  (BuildFeatures_run unit
    "ebpf_check" "cws" "cspm" "oom_kill" "tcp_queue_length" "usm"
    multiProcessAgent tt).

(** ** The registry *)

Section Registry.

Variable Options : Type.

Abbreviation Registry := (gmap string (BuildFunc Options)).

Lemma Register_found id buildFunc (featureBuilders : Registry) :
  is_Some (featureBuilders !! id) ->
  Register Options id buildFunc featureBuilders
  = (featureBuilders, Some (alreadyRegistered id)).
Proof. intros [b Hb]. unfold Register. by rewrite Hb. Qed.

Lemma Register_fresh id buildFunc (featureBuilders : Registry) :
  featureBuilders !! id = None ->
  Register Options id buildFunc featureBuilders
  = (<[id := buildFunc]> featureBuilders, None).
Proof. intros Hb. unfold Register. by rewrite Hb. Qed.

(** C9: [Register id buildFunc] on a registry that already holds [id]
    returns the duplicate-identifier error and the registry as it was; on a
    registry that does not hold [id] it returns no error and a registry that
    maps [id] to [buildFunc] and every other identifier to what it was mapped
    to before. *)
Theorem Register_duplicate_or_store id buildFunc (featureBuilders : Registry) :
  (is_Some (featureBuilders !! id) ->
   Register Options id buildFunc featureBuilders
   = (featureBuilders, Some (alreadyRegistered id)))
  /\ (featureBuilders !! id = None ->
      exists featureBuilders' : Registry,
        Register Options id buildFunc featureBuilders = (featureBuilders', None)
        /\ featureBuilders' !! id = Some buildFunc
        /\ forall id', id' <> id -> featureBuilders' !! id' = featureBuilders !! id').
Proof.
  split.
  - apply Register_found.
  - intros Hnone. exists (<[id := buildFunc]> featureBuilders).
    split; [by apply Register_fresh|]. split.
    + apply lookup_insert_eq.
    + intros id' Hne. by apply lookup_insert_ne.
Qed.

End Registry.

(** ** The merge of requirements *)

Lemma mergeEnabled_comm a b : mergeEnabled a b = mergeEnabled b a.
Proof. by destruct a as [[]|], b as [[]|]. Qed.

Lemma mergeEnabled_assoc a b c :
  mergeEnabled (mergeEnabled a b) c = mergeEnabled a (mergeEnabled b c).
Proof. by destruct a as [[]|], b as [[]|], c as [[]|]. Qed.

Lemma mergeComponent_comm a b : mergeComponent a b = mergeComponent b a.
Proof.
  unfold mergeComponent. by rewrite mergeEnabled_comm, orb_comm.
Qed.

Lemma mergeComponent_assoc a b c :
  mergeComponent (mergeComponent a b) c = mergeComponent a (mergeComponent b c).
Proof.
  unfold mergeComponent; simpl. by rewrite mergeEnabled_assoc, orb_assoc.
Qed.

Lemma component_Merge k A B :
  component k (Merge A B) = mergeComponent (component k A) (component k B).
Proof. by destruct k. Qed.

Lemma Merge_comm A B : Merge A B = Merge B A.
Proof.
  unfold Merge. f_equal; apply mergeComponent_comm.
Qed.

Lemma Merge_assoc A B C : Merge (Merge A B) C = Merge A (Merge B C).
Proof.
  unfold Merge; simpl. f_equal; apply mergeComponent_assoc.
Qed.

Lemma mergeEnabled_true a b :
  mergeEnabled a b = Some true <-> a = Some true \/ b = Some true.
Proof. destruct a as [[]|], b as [[]|]; simpl; intuition congruence. Qed.

Lemma mergeEnabled_false a b :
  mergeEnabled a b = Some false
  <-> (a = Some false \/ b = Some false) /\ a <> Some true /\ b <> Some true.
Proof. destruct a as [[]|], b as [[]|]; simpl; intuition congruence. Qed.

Lemma mergeEnabled_unspecified a b :
  mergeEnabled a b = None <-> a = None /\ b = None.
Proof. destruct a as [[]|], b as [[]|]; simpl; intuition congruence. Qed.

(** A mark (enabled, or privileged) survives every later merge. *)
Lemma Merge_keeps_marks k acc (later : list RequiredComponents) :
  (IsEnabled (component k acc) = true ->
   IsEnabled (component k (foldl Merge acc later)) = true)
  /\ (IsPrivileged (component k acc) = true ->
      IsPrivileged (component k (foldl Merge acc later)) = true).
Proof.
  revert acc. induction later as [|inc later IH]; intros acc; [done|].
  simpl. destruct (IH (Merge acc inc)) as [IHe IHp]. split; intros H.
  - apply IHe. rewrite component_Merge. unfold IsEnabled in *. simpl.
    by destruct (IsRequired (component k acc)) as [[]|].
  - apply IHp. rewrite component_Merge. unfold IsPrivileged in *. simpl.
    by rewrite H.
Qed.

(** C6: [Merge] is associative and commutative; for each kind of component
    the merged tri-state is true exactly when a side is true, false exactly
    when a side is false and none is true, unspecified exactly when both
    sides are, and the merged privileged flag is set exactly when it is on a
    side; a component that is enabled, or privileged, in the accumulator
    stays so through every sequence of later merges. *)
Theorem Merge_assoc_comm_marks (A B C : RequiredComponents) (k : ComponentKind)
    (later : list RequiredComponents) :
  Merge (Merge A B) C = Merge A (Merge B C)
  /\ Merge A B = Merge B A
  /\ (IsRequired (component k (Merge A B)) = Some true
      <-> IsRequired (component k A) = Some true
          \/ IsRequired (component k B) = Some true)
  /\ (IsRequired (component k (Merge A B)) = Some false
      <-> (IsRequired (component k A) = Some false
           \/ IsRequired (component k B) = Some false)
          /\ IsRequired (component k A) <> Some true
          /\ IsRequired (component k B) <> Some true)
  /\ (IsRequired (component k (Merge A B)) = None
      <-> IsRequired (component k A) = None /\ IsRequired (component k B) = None)
  /\ (Privileged (component k (Merge A B)) = true
      <-> Privileged (component k A) = true \/ Privileged (component k B) = true)
  /\ (IsEnabled (component k A) = true ->
      IsEnabled (component k (foldl Merge A later)) = true)
  /\ (IsPrivileged (component k A) = true ->
      IsPrivileged (component k (foldl Merge A later)) = true).
Proof.
  split; [apply Merge_assoc|]. split; [apply Merge_comm|].
  rewrite component_Merge. simpl.
  split; [apply mergeEnabled_true|].
  split; [apply mergeEnabled_false|].
  split; [apply mergeEnabled_unspecified|].
  split; [apply orb_true_iff|].
  apply Merge_keeps_marks.
Qed.

(** ** The iteration order *)

Section Order.

Variable Options : Type.
Variables EBPFCheckIDType CWSIDType CSPMIDType : IDType.
Variables OOMKillIDType TCPQueueLengthIDType USMIDType : IDType.

Abbreviation Registry := (gmap string (BuildFunc Options)).
Abbreviation privileged :=
  (privilegedFeatures EBPFCheckIDType CWSIDType CSPMIDType
     OOMKillIDType TCPQueueLengthIDType USMIDType).
Abbreviation sortedFeatureIDs :=
  (getSortedFeatureIDs Options EBPFCheckIDType CWSIDType CSPMIDType
     OOMKillIDType TCPQueueLengthIDType USMIDType).

(** The order as the specification words it: both subsets of the registered
    identifiers sorted, the privileged one last. *)
Definition specSortedFeatureIDs (featureBuilders : Registry)
    (useMultiProcessContainer : bool) : list IDType :=
  if useMultiProcessContainer then
    sortIDs (filter (fun key => key ∉ privileged)
               (registeredIDs Options featureBuilders))
    ++ sortIDs (filter (fun key => key ∈ privileged)
                  (registeredIDs Options featureBuilders))
  else
    sortIDs (registeredIDs Options featureBuilders).

Lemma sortIDs_Sorted keys : Sorted String.le (sortIDs keys).
Proof. apply (Sorted_merge_sort String.le). Qed.

Lemma sortIDs_Permutation keys : sortIDs keys ≡ₚ keys.
Proof. apply (merge_sort_Permutation String.le). Qed.

Lemma sortIDs_NoDup keys : NoDup keys -> NoDup (sortIDs keys).
Proof. intros H. by rewrite sortIDs_Permutation. Qed.

Lemma sortIDs_elem_of id keys : id ∈ sortIDs keys <-> id ∈ keys.
Proof. by rewrite sortIDs_Permutation. Qed.

(** The order in which Go happens to visit the keys of the map does not
    show in the sorted result. *)
Lemma sortIDs_order_irrelevant keys keys' :
  keys ≡ₚ keys' -> sortIDs keys = sortIDs keys'.
Proof.
  intros Hp. apply (Sorted_unique String.le); try apply sortIDs_Sorted.
  by rewrite !sortIDs_Permutation.
Qed.

Lemma registeredIDs_NoDup (featureBuilders : Registry) :
  NoDup (registeredIDs Options featureBuilders).
Proof. apply NoDup_fst_map_to_list. Qed.

Lemma registeredIDs_elem_of id (featureBuilders : Registry) :
  id ∈ registeredIDs Options featureBuilders <-> is_Some (featureBuilders !! id).
Proof.
  unfold registeredIDs. rewrite list_elem_of_fmap. split.
  - intros [[k b] [-> Hin]]. apply elem_of_map_to_list in Hin. by exists b.
  - intros [b Hb]. exists (id, b). split; [done|]. by apply elem_of_map_to_list.
Qed.

(** Without multi-process mode: every registered identifier, once, in
    ascending order. *)
Lemma getSortedFeatureIDs_single (featureBuilders : Registry) :
  Sorted String.le (sortedFeatureIDs featureBuilders false)
  /\ NoDup (sortedFeatureIDs featureBuilders false)
  /\ forall id, id ∈ sortedFeatureIDs featureBuilders false
                <-> is_Some (featureBuilders !! id).
Proof.
  unfold getSortedFeatureIDs. split; [apply sortIDs_Sorted|]. split.
  - apply sortIDs_NoDup, registeredIDs_NoDup.
  - intros id. by rewrite sortIDs_elem_of, registeredIDs_elem_of.
Qed.

(** With multi-process mode: the registered identifiers that are not
    privileged, once, in ascending order, then [privilegedFeatures] as it is
    declared. *)
Lemma getSortedFeatureIDs_multi (featureBuilders : Registry) :
  exists front,
    sortedFeatureIDs featureBuilders true = front ++ privileged
    /\ Sorted String.le front
    /\ NoDup front
    /\ forall id, id ∈ front
                  <-> is_Some (featureBuilders !! id) /\ id ∉ privileged.
Proof.
  unfold getSortedFeatureIDs. eexists. split; [done|].
  split; [apply sortIDs_Sorted|]. split.
  - apply sortIDs_NoDup, NoDup_filter, registeredIDs_NoDup.
  - intros id. rewrite sortIDs_elem_of, list_elem_of_filter, registeredIDs_elem_of.
    tauto.
Qed.

(** In the order of multi-process mode a privileged identifier never stands
    before one that is not privileged. *)
Lemma getSortedFeatureIDs_privileged_last (featureBuilders : Registry) i j p q :
  sortedFeatureIDs featureBuilders true !! i = Some p ->
  sortedFeatureIDs featureBuilders true !! j = Some q ->
  p ∈ privileged -> q ∉ privileged -> j < i.
Proof.
  destruct (getSortedFeatureIDs_multi featureBuilders)
    as (front & -> & _ & _ & Hfront).
  intros Hi Hj Hp Hq.
  destruct (decide (j < length front)) as [Hlt|Hge].
  - destruct (decide (i < length front)) as [Hilt|]; [|lia].
    rewrite lookup_app_l in Hi by done.
    apply list_elem_of_lookup_2, Hfront in Hi. tauto.
  - rewrite lookup_app_r in Hj by lia.
    apply list_elem_of_lookup_2 in Hj. tauto.
Qed.

(** When the six privileged identifiers are registered, the order of
    multi-process mode lists the registered identifiers and no other. *)
Lemma getSortedFeatureIDs_multi_registered (featureBuilders : Registry) :
  (forall id, id ∈ privileged -> is_Some (featureBuilders !! id)) ->
  forall id, id ∈ sortedFeatureIDs featureBuilders true
             <-> is_Some (featureBuilders !! id).
Proof.
  intros Hreg id.
  destruct (getSortedFeatureIDs_multi featureBuilders)
    as (front & -> & _ & _ & Hfront).
  rewrite elem_of_app, Hfront. split.
  - intros [[Hid _]|Hid]; [done|by apply Hreg].
  - intros Hid. destruct (decide (id ∈ privileged)); [by right|by left].
Qed.

(** C5, as the code has it: without multi-process mode the order is every
    registered identifier, once, ascending; with multi-process mode it is the
    registered identifiers that are not privileged, once, ascending, followed
    by the six privileged identifiers in the order of their declaration
    (EBPF check, CWS, CSPM, OOM kill, TCP queue length, USM), so that no
    privileged identifier stands before one that is not privileged; when the
    six are registered, this order lists the registered identifiers and no
    other. *)
Theorem getSortedFeatureIDs_order (featureBuilders : Registry) :
  let single :=
    getSortedFeatureIDs Options EBPFCheckIDType CWSIDType CSPMIDType
      OOMKillIDType TCPQueueLengthIDType USMIDType featureBuilders false in
  let multi :=
    getSortedFeatureIDs Options EBPFCheckIDType CWSIDType CSPMIDType
      OOMKillIDType TCPQueueLengthIDType USMIDType featureBuilders true in
  let isPrivileged id :=
    id ∈ privilegedFeatures EBPFCheckIDType CWSIDType CSPMIDType
           OOMKillIDType TCPQueueLengthIDType USMIDType in
  (Sorted String.le single
   /\ NoDup single
   /\ forall id, id ∈ single <-> is_Some (featureBuilders !! id))
  /\ (exists front,
        multi = front ++ [EBPFCheckIDType; CWSIDType; CSPMIDType;
                          OOMKillIDType; TCPQueueLengthIDType; USMIDType]
        /\ Sorted String.le front
        /\ NoDup front
        /\ forall id, id ∈ front
                      <-> is_Some (featureBuilders !! id) /\ ~ isPrivileged id)
  /\ (forall i j p q,
        multi !! i = Some p -> multi !! j = Some q ->
        isPrivileged p -> ~ isPrivileged q -> j < i)
  /\ ((forall id, isPrivileged id -> is_Some (featureBuilders !! id)) ->
      forall id, id ∈ multi <-> is_Some (featureBuilders !! id)).
Proof.
  split; [apply getSortedFeatureIDs_single|].
  split; [apply getSortedFeatureIDs_multi|].
  split; [apply getSortedFeatureIDs_privileged_last|].
  apply getSortedFeatureIDs_multi_registered.
Qed.

End Order.

(** ** The resolution loop *)

Section Loop.

Variable Options : Type.
Variables EBPFCheckIDType CWSIDType CSPMIDType : IDType.
Variables OOMKillIDType TCPQueueLengthIDType USMIDType : IDType.
Variable dda : DatadogAgent.
Variable options : Options.
Variable featureBuilders : gmap string (BuildFunc Options).

Abbreviation iter := (BuildFeatures_iter Options dda options featureBuilders).
Abbreviation loop := (BuildFeatures_loop Options dda options featureBuilders).
Abbreviation run :=
  (BuildFeatures_run Options EBPFCheckIDType CWSIDType CSPMIDType
     OOMKillIDType TCPQueueLengthIDType USMIDType dda options featureBuilders).

(** The requirement that the feature registered under [id] returns when it
    is configured with the flag [multi]. *)
Definition requirementOf (id : IDType) (multi : bool) : option RequiredComponents :=
  match featureBuilders !! id with
  | Some build => Some (Configure (build options) dda multi)
  | None => None
  end.

(** [flagsFrom multi trace multi']: [trace] lists the identifiers visited and
    the flag each was configured with, starting with the flag [multi]; after
    each of them the flag is cleared if it was set and the requirement the
    feature returned asks for it; [multi'] is the flag after the last. *)
Inductive flagsFrom : bool -> list (IDType * bool) -> bool -> Prop :=
| flagsFrom_nil multi : flagsFrom multi [] multi
| flagsFrom_cons multi id req trace multi' :
    requirementOf id multi = Some req ->
    flagsFrom (multi && negb (shouldDisableMultiProcessContainer req)) trace multi' ->
    flagsFrom multi ((id, multi) :: trace) multi'.

(** The requirement accumulated by the first [k] iterations of the call,
    that is, the accumulator right after the [k]-th merge. *)
Definition mergedAfter (k : nat) : option RequiredComponents :=
  let multi := requestedMultiProcessContainer dda in
  requiredComponents <$>
    loop {| output := [];
            requiredComponents := emptyRequiredComponents;
            useMultiProcessContainer := multi;
            visited := [] |}
      (take k (getSortedFeatureIDs Options EBPFCheckIDType CWSIDType CSPMIDType
                 OOMKillIDType TCPQueueLengthIDType USMIDType featureBuilders multi)).

(** The clearing of the flag as the specification words it: the check
    follows the merge and reads the node-agent component of the merged
    requirement, so that once this component is enabled and privileged every
    later feature is configured with the flag off. *)
Definition clearedOnMergedRequirement : Prop :=
  forall st k merged j id b,
    run = Some st ->
    mergedAfter k = Some merged ->
    shouldDisableMultiProcessContainer merged = true ->
    k <= j -> visited st !! j = Some (id, b) -> b = false.

Lemma BuildFeatures_iter_Some st id st' :
  iter st id = Some st' ->
  exists req,
    requirementOf id (useMultiProcessContainer st) = Some req
    /\ useMultiProcessContainer st'
       = useMultiProcessContainer st && negb (shouldDisableMultiProcessContainer req)
    /\ requiredComponents st' = Merge (requiredComponents st) req
    /\ visited st' = visited st ++ [(id, useMultiProcessContainer st)].
Proof.
  unfold BuildFeatures_iter, requirementOf.
  destruct (featureBuilders !! id) as [build|]; [|done].
  intros [= <-]. eexists. split; [done|]. simpl. split; [|done].
  by destruct (useMultiProcessContainer st),
    (shouldDisableMultiProcessContainer _).
Qed.

Lemma BuildFeatures_loop_trace keys : forall st st',
  loop st keys = Some st' ->
  exists trace,
    visited st' = visited st ++ trace
    /\ trace.*1 = keys
    /\ flagsFrom (useMultiProcessContainer st) trace (useMultiProcessContainer st').
Proof.
  induction keys as [|id keys IH]; intros st st'; simpl.
  - intros [= <-]. exists []. rewrite app_nil_r. repeat split. constructor.
  - destruct (iter st id) as [st1|] eqn:Hiter; [|done]. intros Hloop.
    apply BuildFeatures_iter_Some in Hiter as (req & Hreq & Hflag & _ & Hvis).
    apply IH in Hloop as (trace & Hvis' & Hkeys & Hflags).
    exists ((id, useMultiProcessContainer st) :: trace).
    rewrite Hvis', Hvis, <- app_assoc. simpl. split; [done|].
    split; [f_equal; exact Hkeys|].
    econstructor; [done|]. by rewrite <- Hflag.
Qed.

(** Once off, the flag stays off. *)
Lemma flagsFrom_off trace multi' :
  flagsFrom false trace multi' ->
  multi' = false /\ forall j id b, trace !! j = Some (id, b) -> b = false.
Proof.
  remember false as multi eqn:Hm. induction 1 as [|multi id req trace multi' Hreq H IH].
  - split; [done|]. intros j id b Hj. by rewrite lookup_nil in Hj.
  - subst multi. destruct (IH eq_refl) as [-> IHj]. split; [done|].
    intros [|j] id' b; simpl; [by intros [= _ <-]|]. apply IHj.
Qed.

Lemma flagsFrom_antitone multi trace multi' :
  flagsFrom multi trace multi' ->
  forall i j idi bi idj bj,
    i <= j -> trace !! i = Some (idi, bi) -> trace !! j = Some (idj, bj) ->
    bi = false -> bj = false.
Proof.
  induction 1 as [|multi id req trace multi' Hreq H IH];
    intros i j idi bi idj bj Hle Hi Hj Hoff.
  - by rewrite lookup_nil in Hi.
  - destruct i as [|i]; simpl in Hi.
    + injection Hi as _ <-. subst multi. destruct j as [|j]; simpl in Hj.
      * by injection Hj as _ <-.
      * simpl in H. apply flagsFrom_off in H as [_ H]. by eapply H.
    + destruct j as [|j]; [lia|]. simpl in Hj.
      apply (IH i j idi bi idj bj); [lia|done..].
Qed.

Lemma flagsFrom_cleared multi trace multi' :
  flagsFrom multi trace multi' ->
  forall i id b req,
    trace !! i = Some (id, b) ->
    requirementOf id b = Some req ->
    shouldDisableMultiProcessContainer req = true ->
    multi' = false
    /\ forall j idj bj, i < j -> trace !! j = Some (idj, bj) -> bj = false.
Proof.
  induction 1 as [|multi id req trace multi' Hreq H IH];
    intros i id' b req' Hi Hreq' Hdis.
  - by rewrite lookup_nil in Hi.
  - destruct i as [|i]; simpl in Hi.
    + injection Hi as <- <-. rewrite Hreq in Hreq'. injection Hreq' as <-.
      rewrite Hdis, andb_false_r in H. apply flagsFrom_off in H as [-> H].
      split; [done|]. intros [|j] idj bj Hlt; [lia|]. simpl. apply H.
    + destruct (IH _ _ _ _ Hi Hreq' Hdis) as [-> IHj]. split; [done|].
      intros [|j] idj bj Hlt; [lia|]. simpl. apply IHj. lia.
Qed.

Lemma flagsFrom_step multi trace multi' :
  flagsFrom multi trace multi' ->
  forall i id b id' b',
    trace !! i = Some (id, b) -> trace !! S i = Some (id', b') ->
    exists req,
      requirementOf id b = Some req
      /\ b' = b && negb (shouldDisableMultiProcessContainer req).
Proof.
  induction 1 as [|multi id req trace multi' Hreq H IH];
    intros i id1 b1 id2 b2 Hi Hsi.
  - by rewrite lookup_nil in Hi.
  - destruct i as [|i]; simpl in Hi, Hsi.
    + injection Hi as <- <-. exists req. split; [done|].
      inversion H; subst; simpl in Hsi; [done|]. by injection Hsi as _ <-.
    + by eapply IH.
Qed.

Lemma flagsFrom_head multi trace multi' :
  flagsFrom multi trace multi' ->
  forall id b, trace !! 0 = Some (id, b) -> b = multi.
Proof. destruct 1; simpl; [done|]. by intros ?? [= _ <-]. Qed.

(** C4, as the code has it: in a call of [BuildFeatures] that returns, the
    identifiers are visited in the order computed from the flag the object
    requests, whatever happens to the flag during the call; the first feature
    is configured with the requested flag; from one iteration to the next the
    flag is cleared when it was set and the node-agent component of the
    requirement that the feature of this iteration returned is enabled and
    privileged, and is left as it was otherwise, so that the merged
    requirement has no part in it; hence a flag that is off stays off, and
    after an iteration whose feature returned a requirement with the node
    agent enabled and privileged every later feature is configured with the
    flag off and the call ends with the flag off. *)
Theorem BuildFeatures_multi_process_cleared st :
  run = Some st ->
  (visited st).*1
  = getSortedFeatureIDs Options EBPFCheckIDType CWSIDType CSPMIDType
      OOMKillIDType TCPQueueLengthIDType USMIDType featureBuilders
      (requestedMultiProcessContainer dda)
  /\ (forall id b, visited st !! 0 = Some (id, b) ->
       b = requestedMultiProcessContainer dda)
  /\ (forall i id b id' b',
        visited st !! i = Some (id, b) -> visited st !! S i = Some (id', b') ->
        exists req,
          requirementOf id b = Some req
          /\ b' = b && negb (IsEnabled (Agent req) && IsPrivileged (Agent req)))
  /\ (forall i j idi bi idj bj,
        i <= j -> visited st !! i = Some (idi, bi) ->
        visited st !! j = Some (idj, bj) -> bi = false -> bj = false)
  /\ (forall i id b req,
        visited st !! i = Some (id, b) ->
        requirementOf id b = Some req ->
        IsEnabled (Agent req) && IsPrivileged (Agent req) = true ->
        useMultiProcessContainer st = false
        /\ forall j idj bj, i < j -> visited st !! j = Some (idj, bj) -> bj = false).
Proof.
  unfold BuildFeatures_run. intros Hrun.
  apply BuildFeatures_loop_trace in Hrun as (trace & Hvis & Hkeys & Hflags).
  simpl in Hvis, Hflags. rewrite Hvis. split; [done|].
  split; [by apply (flagsFrom_head _ _ _ Hflags)|].
  split; [by apply (flagsFrom_step _ _ _ Hflags)|].
  split; [by apply (flagsFrom_antitone _ _ _ Hflags)|].
  by apply (flagsFrom_cleared _ _ _ Hflags).
Qed.

End Loop.

(** ** The factory on concrete registries *)

(** C9 at [sevenBuilders]: registering CWS again is refused and changes
    nothing; registering a new identifier stores it. *)
Lemma Register_duplicate_or_store_example :
  Register unit "cws" (someFeature "again") sevenBuilders
  = (sevenBuilders, Some (alreadyRegistered "cws"))
  /\ exists featureBuilders' : gmap string (BuildFunc unit),
       Register unit "npm" (someFeature "npm") sevenBuilders = (featureBuilders', None)
       /\ featureBuilders' !! "npm" = Some (someFeature "npm")
       /\ forall id', id' <> "npm" -> featureBuilders' !! id' = sevenBuilders !! id'.
Proof.
  pose proof (Register_duplicate_or_store unit "cws" (someFeature "again") sevenBuilders)
    as [Hdup _].
  pose proof (Register_duplicate_or_store unit "npm" (someFeature "npm") sevenBuilders)
    as [_ Hnew].
  split.
  - apply Hdup. vm_compute. by eexists.
  - apply Hnew. by vm_compute.
Defined.

(** C4 at [sevenBuilders]: CWS is visited third, with the flag still on;
    the features after it are configured with the flag off, in the positions
    computed at the start. *)
Lemma BuildFeatures_multi_process_cleared_example :
  exists st,
    exampleRun sevenBuilders = Some st
    /\ visited st
       = [("apm", true); ("ebpf_check", true); ("cws", true); ("cspm", false);
          ("oom_kill", false); ("tcp_queue_length", false); ("usm", false)]
    /\ useMultiProcessContainer st = false.
Proof.
  destruct (exampleRun sevenBuilders) as [st|] eqn:Hrun; [|by vm_compute in Hrun].
  exists st. split; [done|].
  pose proof (BuildFeatures_multi_process_cleared unit
                "ebpf_check" "cws" "cspm" "oom_kill" "tcp_queue_length" "usm"
                multiProcessAgent tt sevenBuilders st Hrun)
    as (_ & _ & _ & _ & Hclear).
  vm_compute in Hrun. injection Hrun as <-. split; [done|].
  eapply (Hclear 2 "cws" true); by vm_compute.
Defined.

(** C4, as the claim words it, fails: at [nineBuilders] one feature enables
    the node agent and the next one only marks it privileged, so that after
    the third merge the node-agent component of the merged requirement is
    enabled and privileged; no feature returns such a requirement itself,
    and the six features that follow are configured with the flag on, with
    which the call ends. *)
Lemma BuildFeatures_flag_on_after_privileged_merge :
  exists st merged,
    exampleRun nineBuilders = Some st
    /\ mergedAfter unit "ebpf_check" "cws" "cspm" "oom_kill" "tcp_queue_length" "usm"
         multiProcessAgent tt nineBuilders 3 = Some merged
    /\ IsEnabled (Agent merged) = true
    /\ IsPrivileged (Agent merged) = true
    /\ visited st
       = [("apm", true); ("dogstatsd", true); ("live_container", true);
          ("ebpf_check", true); ("cws", true); ("cspm", true);
          ("oom_kill", true); ("tcp_queue_length", true); ("usm", true)]
    /\ useMultiProcessContainer st = true
    /\ ~ clearedOnMergedRequirement unit
           "ebpf_check" "cws" "cspm" "oom_kill" "tcp_queue_length" "usm"
           multiProcessAgent tt nineBuilders.
Proof.
  destruct (exampleRun nineBuilders) as [st|] eqn:Hrun; [|by vm_compute in Hrun].
  destruct (mergedAfter unit "ebpf_check" "cws" "cspm" "oom_kill"
              "tcp_queue_length" "usm" multiProcessAgent tt nineBuilders 3)
    as [merged|] eqn:Hmerged; [|by vm_compute in Hmerged].
  exists st, merged.
  assert (visited st !! 3 = Some ("ebpf_check", true)) as Hvisit.
  { pose proof Hrun as Hst. vm_compute in Hst. by injection Hst as <-. }
  assert (shouldDisableMultiProcessContainer merged = true) as Hdisable.
  { pose proof Hmerged as Hm. vm_compute in Hm. by injection Hm as <-. }
  split; [done|]. split; [done|].
  split; [pose proof Hmerged as Hm; vm_compute in Hm; by injection Hm as <-|].
  split; [pose proof Hmerged as Hm; vm_compute in Hm; by injection Hm as <-|].
  split; [pose proof Hrun as Hst; vm_compute in Hst; by injection Hst as <-|].
  split; [pose proof Hrun as Hst; vm_compute in Hst; by injection Hst as <-|].
  intros Hcleared.
  by pose proof (Hcleared st 3 merged 3 "ebpf_check" true
                   Hrun Hmerged Hdisable (le_n 3) Hvisit).
Qed.

(** The trailing block holds the six privileged identifiers whether they
    are registered or not; [BuildFeatures] then calls a constructor that is
    not there. *)
Remark BuildFeatures_unregistered_privileged :
  getSortedFeatureIDs unit
    "ebpf_check" "cws" "cspm" "oom_kill" "tcp_queue_length" "usm" ∅ true
  = ["ebpf_check"; "cws"; "cspm"; "oom_kill"; "tcp_queue_length"; "usm"]
  /\ BuildFeatures unit
       "ebpf_check" "cws" "cspm" "oom_kill" "tcp_queue_length" "usm"
       multiProcessAgent tt ∅
     = None.
Proof. by vm_compute. Qed.

(** C5, as the claim words it, fails: the trailing block is the declared
    list, which is not sorted within itself when the identifiers are the
    operator's own names. *)
Lemma getSortedFeatureIDs_block_as_declared :
  getSortedFeatureIDs unit
    "ebpf_check" "cws" "cspm" "oom_kill" "tcp_queue_length" "usm"
    sevenBuilders true
  <> specSortedFeatureIDs unit
       "ebpf_check" "cws" "cspm" "oom_kill" "tcp_queue_length" "usm"
       sevenBuilders true
  /\ getSortedFeatureIDs unit
       "ebpf_check" "cws" "cspm" "oom_kill" "tcp_queue_length" "usm"
       sevenBuilders true
     = ["apm"; "ebpf_check"; "cws"; "cspm"; "oom_kill"; "tcp_queue_length"; "usm"]
  /\ ~ Sorted String.le
        ["ebpf_check"; "cws"; "cspm"; "oom_kill"; "tcp_queue_length"; "usm"].
Proof.
  split; [by vm_compute|]. split; [by vm_compute|].
  intros Hs. apply Sorted_inv in Hs as [_ Hhd].
  apply HdRel_inv in Hhd. by vm_compute in Hhd.
Qed.

End feature_facts.

(** * Properties of the defaulting pass *)

Module v1alpha1_facts.
Import v1alpha1.

(** ** Reading the tree *)

Definition emptyDatadogAgent : DatadogAgent := {| Spec := zero |}.

(** The container configuration of the node agent. *)
Definition nodeAgentContainer (agent : DatadogAgentSpecAgentSpec)
    : option DatadogAgentGenericContainerConfig :=
  na_ContainerConfig <$> agent_NodeAgent agent.

(** The HTTP path of a probe. *)
Definition probePath (probe : option Probe) : option string :=
  match probe with
  | Some p =>
      match probe_HTTPGet p with
      | Some get => Some (http_Path get)
      | None => None
      end
  | None => None
  end.

(** The Docker socket path of a socket configuration. *)
Definition socketPath (criSocket : option CRISocketConfig) : option string :=
  criSocket ≫= cri_DockerSocketPath.

(** The flag of log collection in a spec. *)
Definition logCollectionEnabled (spec : DatadogAgentSpec) : option bool :=
  ft_LogCollection (spec_Features spec) ≫= log_Enabled.

(** The flag of process collection in a spec. *)
Definition processEnabled (spec : DatadogAgentSpec) : option bool :=
  agent_Process (spec_Agent spec) ≫= proc_Enabled.

(** A field is tracked by the override, in the words of the specification:
    a field that was set stays as it was and is absent from the override; a
    field that was absent and is present afterwards is in the override with
    the same value. *)
Definition shadowComplete {V} (before after shadow : option V) : Prop :=
  (is_Some before -> after = before /\ shadow = None)
  /\ (before = None -> is_Some after -> shadow = after).

(** What the override of a feature repeats on every run: the flags of
    the feature, and for the orchestrator explorer its being disabled. *)
Definition orchestratorEcho (orch : OrchestratorExplorerConfig) : OrchestratorExplorerConfig :=
  if BoolValue (oe_Enabled orch) then zero
  else {| oe_Enabled := Some false; oe_ClusterCheck := None; oe_Scrubbing := None |}.

Definition prometheusEcho (prom : PrometheusScrapeConfig) : PrometheusScrapeConfig :=
  {| prom_Enabled := prom_Enabled prom; prom_ServiceEndpoints := None |}.

Definition logEcho (l : LogCollectionConfig) : LogCollectionConfig :=
  {| log_Enabled := log_Enabled l;
     log_LogsConfigContainerCollectAll := None;
     log_ContainerCollectUsingFiles := None;
     log_ContainerLogsPath := None;
     log_PodLogsPath := None;
     log_ContainerSymlinksPath := None;
     log_TempStoragePath := None;
     log_OpenFilesLimit := None |}.

Definition featuresEcho (ft : DatadogFeatures) : DatadogFeatures :=
  {| ft_OrchestratorExplorer :=
       ft_OrchestratorExplorer ft ≫= fun orch => unlessEmpty (orchestratorEcho orch);
     ft_KubeStateMetricsCore := ft_KubeStateMetricsCore ft;
     ft_PrometheusScrape := prometheusEcho <$> ft_PrometheusScrape ft;
     ft_LogCollection := logEcho <$> ft_LogCollection ft;
     ft_NetworkMonitoring := ft_NetworkMonitoring ft |}.

(** ** Specs and collaborators to run the pass on *)

(** A spec with one feature requested and nothing else. *)
Definition onlyNetworkMonitoring : DatadogAgentSpec :=
  set_spec_Features
    {| ft_OrchestratorExplorer := None;
       ft_KubeStateMetricsCore := None;
       ft_PrometheusScrape := None;
       ft_LogCollection := None;
       ft_NetworkMonitoring := Some {| nm_Enabled := Some true |} |}
    zero.

Definition onlyOrchestratorExplorer : DatadogAgentSpec :=
  set_spec_Features
    {| ft_OrchestratorExplorer :=
         Some {| oe_Enabled := Some true;
                 oe_ClusterCheck := None;
                 oe_Scrubbing := None |};
       ft_KubeStateMetricsCore := None;
       ft_PrometheusScrape := None;
       ft_LogCollection := None;
       ft_NetworkMonitoring := None |}
    zero.

Definition onlyLogCollection : DatadogAgentSpec :=
  set_spec_Features
    {| ft_OrchestratorExplorer := None;
       ft_KubeStateMetricsCore := None;
       ft_PrometheusScrape := None;
       ft_LogCollection :=
         Some {| log_Enabled := Some true;
                 log_LogsConfigContainerCollectAll := None;
                 log_ContainerCollectUsingFiles := None;
                 log_ContainerLogsPath := None;
                 log_PodLogsPath := None;
                 log_ContainerSymlinksPath := None;
                 log_TempStoragePath := None;
                 log_OpenFilesLimit := None |};
       ft_NetworkMonitoring := None |}
    zero.

(** The same with the node agent enabled by the user. *)
Definition withAgentEnabled (dda : DatadogAgentSpec) : DatadogAgentSpec :=
  set_spec_Agent (set_agent_Enabled (Some true) (spec_Agent dda)) dda.

(** An image of agent 6.20.1, which is below both thresholds, one of agent
    7.28.0, and one whose tag is no version. *)
Definition oldImage : ImageConfig :=
  {| img_Name := "gcr.io/datadoghq/agent:6.20.1-jmx";
     img_Tag := "";
     img_PullPolicy := None;
     img_PullSecrets := None |}.

Definition recentImage : ImageConfig :=
  {| img_Name := "gcr.io/datadoghq/agent:7.28.0";
     img_Tag := "";
     img_PullPolicy := None;
     img_PullSecrets := None |}.

Definition customImage : ImageConfig :=
  {| img_Name := "registry.example/agent:nightly";
     img_Tag := "";
     img_PullPolicy := None;
     img_PullSecrets := None |}.

(** A configuration of the cluster agent that sets its log level. *)
Definition debugConfig : ClusterAgentConfig :=
  {| cac_ContainerConfig :=
       {| cc_LogLevel := Some "DEBUG";
          cc_Resources := None;
          cc_LivenessProbe := None;
          cc_ReadinessProbe := None;
          cc_HealthPort := None |};
     cac_Features := zero |}.

(** A node agent that sets its health port and nothing else. *)
Definition nodeAgentWithPort : NodeAgentSpec :=
  {| na_ContainerConfig :=
       {| cc_LogLevel := None;
          cc_Resources := None;
          cc_LivenessProbe := None;
          cc_ReadinessProbe := None;
          cc_HealthPort := Some 5000%Z |};
     na_CollectEvents := None;
     na_LeaderElection := None;
     na_CriSocket := None;
     na_Dogstatsd := None;
     na_PodLabelsAsTags := None;
     na_PodAnnotationsAsTags := None;
     na_Tags := None |}.

(** Specs in which a subtree is present and a field below it is absent. *)
Definition scrubbingWithoutContainers : DatadogAgentSpec :=
  set_spec_Features
    {| ft_OrchestratorExplorer :=
         Some {| oe_Enabled := None;
                 oe_ClusterCheck := None;
                 oe_Scrubbing := Some {| scrub_Containers := None |} |};
       ft_KubeStateMetricsCore := None;
       ft_PrometheusScrape := None;
       ft_LogCollection := None;
       ft_NetworkMonitoring := None |}
    zero.

Definition syscallMonitorWithoutEnabled : DatadogAgentSpec :=
  set_spec_Agent
    {| agent_Enabled := None;
       agent_UseExtendedDaemonset := None;
       agent_Image := None;
       agent_NodeAgent := None;
       agent_Rbac := None;
       agent_DeploymentStrategy := None;
       agent_Apm := None;
       agent_SystemProbe := None;
       agent_Security :=
         Some {| sec_Compliance := zero;
                 sec_Runtime :=
                   {| rt_Enabled := None;
                      rt_SyscallMonitor := Some {| sm_Enabled := None |} |} |};
       agent_Process := None;
       agent_NetworkPolicy := None |}
    zero.

Definition customConfigOnly : DatadogAgentSpec :=
  set_spec_ClusterAgent
    {| dca_Enabled := None;
       dca_Image := None;
       dca_Config := None;
       dca_CustomConfig := Some {| custom_ConfigData := Some "log_level: debug" |};
       dca_Rbac := None;
       dca_NetworkPolicy := None |}
    zero.

(** A canary defaulting that fills one setting. *)
Definition exampleCanaryDefaults (canary : ExtendedDaemonSetSpecStrategyCanary)
    : ExtendedDaemonSetSpecStrategyCanary :=
  match canary_Settings canary with
  | [] => {| canary_Settings := [("duration", "10m")] |}
  | _ => canary
  end.

(** A tag extraction: the text after the last colon of the name, [latest]
    when there is no colon. *)
Fixpoint tagAfterColon (name : string) : option string :=
  match name with
  | EmptyString => None
  | String c rest =>
      match tagAfterColon rest with
      | Some tag => Some tag
      | None => if Ascii.eqb c ":"%char then Some rest else None
      end
  end.

Definition exampleGetTagFromImageName (name : string) : string :=
  default "latest" (tagAfterColon name).

(** A version parser: numbers separated by dots, up to a hyphen. *)
Fixpoint parseNumbers (s : string) (current : option nat) : option (list nat) :=
  match s with
  | EmptyString => (fun n => [n]) <$> current
  | String c rest =>
      if Ascii.eqb c "."%char then
        match current, parseNumbers rest None with
        | Some n, Some ns => Some (n :: ns)
        | _, _ => None
        end
      else if Ascii.eqb c "-"%char then (fun n => [n]) <$> current
      else
        match Ascii.is_nat c with
        | Some d => parseNumbers rest (Some (10 * default 0 current + d))
        | None => None
        end
  end.

Definition exampleNewVersion (s : string) : option (list nat) := parseNumbers s None.

Fixpoint exampleVersionLeb (v w : list nat) : bool :=
  match v, w with
  | [], _ => true
  | _ :: _, [] => false
  | x :: v', y :: w' => (x <? y)%nat || ((x =? y)%nat && exampleVersionLeb v' w')
  end.

Abbreviation exampleDefaultDatadogAgent :=
  (DefaultDatadogAgent exampleCanaryDefaults exampleGetTagFromImageName
     (list nat) exampleNewVersion exampleVersionLeb).
Abbreviation exampleDefaultAgent :=
  (DefaultDatadogAgentSpecAgent exampleCanaryDefaults exampleGetTagFromImageName
     (list nat) exampleNewVersion exampleVersionLeb).
Abbreviation exampleDefaultAgentConfig :=
  (DefaultDatadogAgentSpecAgentConfig exampleGetTagFromImageName
     (list nat) exampleNewVersion exampleVersionLeb).

(** ** The idioms *)

Lemma orDefault_idem {A} (p : option A) (d d' : A) :
  orDefault (orDefault p d).1 d' = ((orDefault p d).1, None).
Proof. by destruct p. Qed.

Lemma orDefault_Some {A} (p : option A) (d : A) :
  (orDefault p d).1 = Some (default d p).
Proof. by destruct p. Qed.

Lemma orDefaultString_idem (s d d' : string) :
  d <> "" -> orDefaultString (orDefaultString s d).1 d' = ((orDefaultString s d).1, "").
Proof.
  intros Hd. unfold orDefaultString.
  destruct (String.eqb_spec s "") as [->|Hs]; simpl.
  - by destruct (String.eqb_spec d "").
  - by destruct (String.eqb_spec s "").
Qed.

Lemma orEmpty_idem {A} (p : option A) (e e' : A) :
  orEmpty (orEmpty p e) e' = orEmpty p e.
Proof. by destruct p. Qed.

Lemma orDefault_orEmpty {A} (p : option A) (e d : A) :
  orDefault (orEmpty p e) d = (orEmpty p e, None).
Proof. by destruct p. Qed.

Lemma unlessEmpty_zero {A} `{EqDecision A} `{Zero A} : unlessEmpty (zero : A) = None.
Proof. unfold unlessEmpty, IsEqualStruct. by rewrite bool_decide_eq_true_2. Qed.

Lemma unlessEmpty_nonzero {A} `{EqDecision A} `{Zero A} (x : A) :
  x <> zero -> unlessEmpty x = Some x.
Proof. intros Hx. unfold unlessEmpty, IsEqualStruct. by rewrite bool_decide_eq_false_2. Qed.

Create Rewrite HintDb idioms.
#[global] Hint Rewrite @orDefault_idem @orEmpty_idem @orDefault_orEmpty : idioms.

Ltac idem := simpl; autorewrite with idioms; simpl; try reflexivity.

(** ** A second run of each defaulting function

    Each function, run on the value it has returned, returns that value
    and an empty override. *)

Lemma Image_idem image name tag name' tag' :
  name <> "" -> tag <> "" ->
  DefaultDatadogAgentSpecAgentImage
    (Some (DefaultDatadogAgentSpecAgentImage image name tag).1) name' tag'
  = ((DefaultDatadogAgentSpecAgentImage image name tag).1, zero).
Proof.
  intros Hn Ht. unfold DefaultDatadogAgentSpecAgentImage. simpl.
  rewrite !orDefaultString_idem by done. idem.
Qed.

Lemma Socket_idem criSocket :
  DefaultContainerSocket (Some (DefaultContainerSocket criSocket).1)
  = ((DefaultContainerSocket criSocket).1, zero).
Proof. unfold DefaultContainerSocket. destruct criSocket as [c|]; idem. Qed.

Lemma UDS_idem uds :
  DefaultConfigDogstatsdUDS (Some (DefaultConfigDogstatsdUDS uds).1)
  = ((DefaultConfigDogstatsdUDS uds).1, zero).
Proof. unfold DefaultConfigDogstatsdUDS. idem. Qed.

Lemma Dogstatsd_idem dsd :
  DefaultConfigDogstatsd (Some (DefaultConfigDogstatsd dsd).1)
  = ((DefaultConfigDogstatsd dsd).1, zero).
Proof.
  unfold DefaultConfigDogstatsd, DefaultConfigDogstatsdUDS. idem.
Qed.

Lemma Rbac_idem rbac :
  DefaultDatadogAgentSpecRbacConfig (DefaultDatadogAgentSpecRbacConfig rbac).1
  = ((DefaultDatadogAgentSpecRbacConfig rbac).1, zero).
Proof. destruct rbac as [[[]]|]; idem. Qed.

Lemma NetworkPolicy_idem policy :
  DefaultAgentNetworkPolicy (DefaultAgentNetworkPolicy policy).1
  = ((DefaultAgentNetworkPolicy policy).1, zero).
Proof. destruct policy as [[[]]|]; idem. Qed.

Lemma Strategy_idem canary strategy :
  DefaultDatadogAgentSpecDatadogAgentStrategy canary
    (Some (DefaultDatadogAgentSpecDatadogAgentStrategy canary strategy).1)
  = ((DefaultDatadogAgentSpecDatadogAgentStrategy canary strategy).1, zero).
Proof. unfold DefaultDatadogAgentSpecDatadogAgentStrategy. idem. Qed.

Lemma ApmUDS_idem uds :
  DefaultDatadogAgentSpecAgentApmUDS (Some (DefaultDatadogAgentSpecAgentApmUDS uds).1)
  = ((DefaultDatadogAgentSpecAgentApmUDS uds).1, zero).
Proof.
  unfold DefaultDatadogAgentSpecAgentApmUDS. destruct uds as [[[[]|] path]|]; idem.
Qed.

Lemma Apm_idem apm :
  DefaultDatadogAgentSpecAgentApm (Some (DefaultDatadogAgentSpecAgentApm apm).1)
  = ((DefaultDatadogAgentSpecAgentApm apm).1, zero).
Proof.
  destruct apm as [[[[]|] port container [[[[]|] path]|]]|]; idem.
Qed.

Lemma SystemProbe_idem systemProbe :
  DefaultDatadogAgentSpecAgentSystemProbe
    (Some (DefaultDatadogAgentSpecAgentSystemProbe systemProbe).1)
  = ((DefaultDatadogAgentSpecAgentSystemProbe systemProbe).1, zero).
Proof.
  destruct systemProbe as [[[[]|] ? ? ? ? ? ? ? ?]|]; simpl; try reflexivity.
  rewrite !orDefaultString_idem by done. idem.
Qed.

Lemma Process_idem process :
  DefaultDatadogAgentSpecAgentProcess
    (Some (DefaultDatadogAgentSpecAgentProcess process).1)
  = ((DefaultDatadogAgentSpecAgentProcess process).1, zero).
Proof. destruct process as [[[[]|] ?]|]; idem. Qed.

Lemma Security_idem security sec o :
  DefaultDatadogAgentSpecAgentSecurity security = Some (sec, o) ->
  DefaultDatadogAgentSpecAgentSecurity (Some sec) = Some (sec, zero).
Proof.
  unfold DefaultDatadogAgentSpecAgentSecurity.
  destruct (rt_SyscallMonitor _) as [[[enabled|]]|]; intros [= <- <-]; idem.
Qed.

Lemma Orchestrator_idem orch w w' orch1 o :
  DefaultDatadogFeatureOrchestratorExplorer orch w = Some (orch1, o) ->
  DefaultDatadogFeatureOrchestratorExplorer (Some orch1) w'
  = Some (orch1, orchestratorEcho orch1).
Proof.
  unfold DefaultDatadogFeatureOrchestratorExplorer,
    defaultEnabledDatadogFeatureOrchestratorExplorer.
  destruct orch as [[[[]|] ? [[[]]|]]|]; simpl; intros [= <- _]; idem.
Qed.

Lemma KubeStateMetricsCore_idem ksm w w' :
  DefaultDatadogFeatureKubeStateMetricsCore
    (Some (DefaultDatadogFeatureKubeStateMetricsCore ksm w).1) w'
  = ((DefaultDatadogFeatureKubeStateMetricsCore ksm w).1,
     (DefaultDatadogFeatureKubeStateMetricsCore ksm w).1).
Proof. destruct ksm as [[]|]; idem. Qed.

Lemma KubeStateMetricsCore_nonzero ksm w :
  (DefaultDatadogFeatureKubeStateMetricsCore ksm w).1 <> zero.
Proof. by destruct ksm as [[[]]|]. Qed.

Lemma PrometheusScrape_idem prom :
  DefaultDatadogFeaturePrometheusScrape
    (Some (DefaultDatadogFeaturePrometheusScrape prom).1)
  = ((DefaultDatadogFeaturePrometheusScrape prom).1,
     prometheusEcho (DefaultDatadogFeaturePrometheusScrape prom).1).
Proof. destruct prom as [[[[]|] []]|]; idem. Qed.

Lemma PrometheusScrape_nonzero prom :
  prometheusEcho (DefaultDatadogFeaturePrometheusScrape prom).1 <> zero.
Proof. by destruct prom as [[[[]|] ?]|]. Qed.

Lemma LogCollection_idem l :
  DefaultDatadogFeatureLogCollection
    (Some (DefaultDatadogFeatureLogCollection l).1)
  = ((DefaultDatadogFeatureLogCollection l).1,
     logEcho (DefaultDatadogFeatureLogCollection l).1).
Proof. destruct l as [[[[]|] [] [] [] [] [] [] []]|]; idem. Qed.

Lemma LogCollection_nonzero l :
  logEcho (DefaultDatadogFeatureLogCollection l).1 <> zero.
Proof. by destruct l as [[[[]|] ? ? ? ? ? ? ?]|]. Qed.

Lemma NetworkMonitoring_idem net :
  DefaultDatadogFeatureNetworkMonitoring
    (Some (DefaultDatadogFeatureNetworkMonitoring net).1)
  = ((DefaultDatadogFeatureNetworkMonitoring net).1,
     (DefaultDatadogFeatureNetworkMonitoring net).1).
Proof. destruct net as [[]|]; idem. Qed.

Lemma NetworkMonitoring_nonzero net :
  (DefaultDatadogFeatureNetworkMonitoring net).1 <> zero.
Proof. by destruct net as [[[]]|]. Qed.

Ltac features_fields :=
  cbn [Spec spec_Features set_spec_Features ft_OrchestratorExplorer
       ft_KubeStateMetricsCore ft_PrometheusScrape ft_LogCollection
       ft_NetworkMonitoring fst snd].

Lemma Features_idem_match dda :
  match DefaultFeatures dda with
  | Some (dda1, _) =>
      DefaultFeatures dda1 = Some (dda1, featuresEcho (spec_Features (Spec dda1)))
  | None => True
  end.
Proof.
  unfold DefaultFeatures at 1.
  destruct (DefaultDatadogFeatureOrchestratorExplorer _ _) as [[orch1 orcho]|] eqn:Horch;
    [|done].
  unfold DefaultFeatures, featuresEcho. features_fields.
  rewrite (Orchestrator_idem _ _ _ _ _ Horch).
  rewrite KubeStateMetricsCore_idem, PrometheusScrape_idem, LogCollection_idem,
    NetworkMonitoring_idem.
  features_fields.
  rewrite (unlessEmpty_nonzero _ (KubeStateMetricsCore_nonzero _ _)),
    (unlessEmpty_nonzero _ (PrometheusScrape_nonzero _)),
    (unlessEmpty_nonzero _ (LogCollection_nonzero _)),
    (unlessEmpty_nonzero _ (NetworkMonitoring_nonzero _)).
  by destruct dda as [[]].
Qed.

(** ** The cross-feature overrides *)

(** [FeatureOverride] never creates a system probe: on a spec without one it
    faults or returns a spec without one. *)
Lemma FeatureOverride_creates_no_system_probe (dda dso : DatadogAgentSpec) :
  agent_SystemProbe (spec_Agent dda) = None ->
  match FeatureOverride dda dso with
  | Some (dda', _) => agent_SystemProbe (spec_Agent dda') = None
  | None => True
  end.
Proof.
  intros Hnone. unfold FeatureOverride. rewrite Hnone. simpl.
  rewrite orb_false_r.
  destruct (networkMonitoringEnabled _ && negb _); simpl; [done|].
  destruct (orchestratorExplorerEnabled _ && _); [|done].
  by destruct (agent_Process _).
Qed.

(** With network monitoring enabled and no system probe, [FeatureOverride]
    faults unless the user enabled the node agent, and then it leaves the
    spec as it is. *)
Lemma FeatureOverride_network_monitoring_without_probe (dda dso : DatadogAgentSpec) :
  networkMonitoringEnabled (spec_Features dda) = true ->
  agent_SystemProbe (spec_Agent dda) = None ->
  if BoolValue (agent_Enabled (spec_Agent dda))
  then match FeatureOverride dda dso with
       | Some (dda', _) => agent_SystemProbe (spec_Agent dda') = None
       | None => True
       end
  else FeatureOverride dda dso = None.
Proof.
  intros Hnet Hnone.
  destruct (BoolValue _) eqn:Hen.
  - by apply FeatureOverride_creates_no_system_probe.
  - unfold FeatureOverride. by rewrite Hnet, Hen, Hnone.
Qed.

(** C2, on the code: with network monitoring enabled and the system probe
    absent, [FeatureOverride] dereferences the absent system probe when
    the node agent is not enabled by the user, and does nothing when it is;
    in neither case is the system probe enabled afterwards. *)
Theorem FeatureOverride_network_monitoring_absent_probe :
  FeatureOverride onlyNetworkMonitoring zero = None
  /\ FeatureOverride (withAgentEnabled onlyNetworkMonitoring) zero
     = Some (withAgentEnabled onlyNetworkMonitoring, zero)
  /\ agent_SystemProbe (spec_Agent (withAgentEnabled onlyNetworkMonitoring)) = None.
Proof. by vm_compute. Qed.

Section Facts.

Variable DefaultExtendedDaemonSetSpecStrategyCanary :
  ExtendedDaemonSetSpecStrategyCanary -> ExtendedDaemonSetSpecStrategyCanary.
Variable GetTagFromImageName : string -> string.
Variable Version : Type.
Variable NewVersion : string -> option Version.
Variable versionLeb : Version -> Version -> bool.

Abbreviation defaultDatadogAgent :=
  (DefaultDatadogAgent DefaultExtendedDaemonSetSpecStrategyCanary
     GetTagFromImageName Version NewVersion versionLeb).
Abbreviation defaultAgent :=
  (DefaultDatadogAgentSpecAgent DefaultExtendedDaemonSetSpecStrategyCanary
     GetTagFromImageName Version NewVersion versionLeb).
Abbreviation defaultAgentConfig :=
  (DefaultDatadogAgentSpecAgentConfig
     GetTagFromImageName Version NewVersion versionLeb).
Abbreviation isAboveMinVersion := (IsAboveMinVersion Version NewVersion versionLeb).
Abbreviation skipped := (socketDefaultSkipped Version NewVersion versionLeb).
Abbreviation tagOf := (agentTagOf GetTagFromImageName).

(** The tag is below the minimum version: it is not [latest] and it is at
    or above neither threshold. *)
Definition belowMinVersion (agentTag : string) : Prop :=
  agentTag <> "latest"
  /\ isAboveMinVersion agentTag "7.27.0-0" = false
  /\ isAboveMinVersion agentTag "6.27.0-0" = false.

(** ** The empty spec *)


(** ** The socket default *)

Lemma socketDefaultSkipped_false agentTag :
  skipped agentTag = false <-> belowMinVersion agentTag.
Proof.
  unfold socketDefaultSkipped, belowMinVersion.
  rewrite !orb_false_iff, String.eqb_neq. tauto.
Qed.

Lemma belowMinVersion_unparsable agentTag :
  NewVersion agentTag = None -> agentTag <> "latest" -> belowMinVersion agentTag.
Proof.
  intros Hparse Hlatest. unfold belowMinVersion, IsAboveMinVersion.
  by rewrite Hparse.
Qed.

Lemma DefaultContainerSocket_path criSocket :
  socketPath (Some (DefaultContainerSocket criSocket).1)
  = Some (default defaultDockerSocketPath (socketPath criSocket))
  /\ (socketPath criSocket = None ->
      socketPath (unlessEmpty (DefaultContainerSocket criSocket).2)
      = Some defaultDockerSocketPath).
Proof.
  destruct criSocket as [[[path|]]|]; simpl; split; try done; by intros _.
Qed.

(** C8: [DefaultDatadogAgentSpecAgentConfig] returns on every image and
    node agent configuration, and raises no error.  The tag it looks at is
    the one [GetTagFromImageName] finds in the name of the image, without a
    [-jmx] suffix.  When that tag is below the minimum version the Docker
    socket path is set afterwards, to the default if it was absent, in which
    case the override holds the default too; when the tag is not below the
    minimum version the socket configuration is left as it was and the
    override holds none.  The tag [latest] and a tag at or above a threshold
    are not below the minimum version; a tag other than [latest] that does
    not parse is. *)
Theorem DefaultDatadogAgentSpecAgentConfig_socket (img : ImageConfig)
    (nodeAgent : option NodeAgentSpec) :
  exists cfg o,
    defaultAgentConfig (Some img) nodeAgent = Some (cfg, o)
    /\ (belowMinVersion (tagOf img) ->
        socketPath (na_CriSocket cfg)
        = Some (default defaultDockerSocketPath
                  (socketPath (nodeAgent ≫= na_CriSocket)))
        /\ (socketPath (nodeAgent ≫= na_CriSocket) = None ->
            socketPath (na_CriSocket o) = Some defaultDockerSocketPath))
    /\ (~ belowMinVersion (tagOf img) ->
        na_CriSocket cfg = nodeAgent ≫= na_CriSocket /\ na_CriSocket o = None)
    /\ (tagOf img = "latest" -> ~ belowMinVersion (tagOf img))
    /\ (isAboveMinVersion (tagOf img) "7.27.0-0" = true
        \/ isAboveMinVersion (tagOf img) "6.27.0-0" = true ->
        ~ belowMinVersion (tagOf img))
    /\ (NewVersion (tagOf img) = None -> tagOf img <> "latest" ->
        belowMinVersion (tagOf img)).
Proof.
  unfold DefaultDatadogAgentSpecAgentConfig. eexists _, _. split; [done|].
  simpl. rewrite <- socketDefaultSkipped_false.
  replace (nodeAgent ≫= na_CriSocket)
    with (na_CriSocket (default zero nodeAgent)) by by destruct nodeAgent.
  destruct (skipped (tagOf img)) eqn:Hskip; simpl.
  - split; [done|]. split; [done|]. split; [done|]. split; [done|].
    intros Hparse Hlatest.
    by rewrite (proj2 (socketDefaultSkipped_false _)
                  (belowMinVersion_unparsable _ Hparse Hlatest)) in Hskip.
  - split; [intros _; apply DefaultContainerSocket_path|].
    split; [done|].
    apply socketDefaultSkipped_false in Hskip. destruct Hskip as (Hl & H7 & H6).
    split; [by intros ? []|]. split; [|done].
    intros [H|H] _; congruence.
Qed.

(** ** Totality *)

(** C10, on the code: the pass faults, on every choice of the
    collaborators, when network monitoring is enabled and the node agent
    has neither an [Enabled] flag nor a system probe, and likewise when the
    orchestrator explorer is enabled and the node agent has no process
    configuration. *)
Theorem DefaultDatadogAgent_faults :
  defaultDatadogAgent {| Spec := onlyNetworkMonitoring |} = None
  /\ defaultDatadogAgent {| Spec := onlyOrchestratorExplorer |} = None.
Proof. by vm_compute. Qed.

(** ** A second run of the node agent defaulting *)

Lemma AgentConfig_idem img nodeAgent cfg o :
  defaultAgentConfig (Some img) nodeAgent = Some (cfg, o) ->
  defaultAgentConfig (Some img) (Some cfg) = Some (cfg, zero).
Proof.
  unfold DefaultDatadogAgentSpecAgentConfig. intros [= <- <-]. f_equal.
  destruct (negb _); simpl; autorewrite with idioms; simpl.
  - destruct (na_CriSocket _) as [[path]|]; idem.
  - reflexivity.
Qed.

Lemma Agent_zero_iff (agent : DatadogAgentSpecAgentSpec) :
  IsEqualStruct agent zero = true -> agent = zero.
Proof. unfold IsEqualStruct. by intros ?%bool_decide_eq_true. Qed.

Lemma Agent_nonzero (agent : DatadogAgentSpecAgentSpec) b :
  agent_Enabled agent = Some b -> IsEqualStruct agent zero = false.
Proof.
  intros He. unfold IsEqualStruct. apply bool_decide_eq_false_2.
  by intros ->.
Qed.

Ltac agent_fields :=
  cbn [agent_Enabled agent_UseExtendedDaemonset agent_Image agent_NodeAgent
       agent_Rbac agent_DeploymentStrategy agent_Apm agent_SystemProbe
       agent_Security agent_Process agent_NetworkPolicy fst snd].

Lemma Agent_idem_match agent :
  match defaultAgent agent with
  | Some (agent1, _) => defaultAgent agent1 = Some (agent1, zero)
  | None => True
  end.
Proof.
  unfold DefaultDatadogAgentSpecAgent at 1.
  set (agents := if IsEqualStruct agent zero then _ else _).
  assert (IsEqualStruct agent zero && negb (BoolValue (agent_Enabled agents)) = false)
    as ->.
  { subst agents. destruct (IsEqualStruct agent zero) eqn:Hz; [|done].
    by rewrite (Agent_zero_iff _ Hz). }
  clearbody agents. clear agent.
  destruct (negb (BoolValue (orDefault (agent_Enabled agents) defaultAgentEnabled).1))
    eqn:Hen.
  - by destruct agents as [[[]|] ? ? ? ? ? ? ? ? ? ?].
  - destruct (DefaultDatadogAgentSpecAgentConfig _ _ _ _ _ _) as [[cfg cfgo]|] eqn:Hcfg;
      [|done].
    destruct (DefaultDatadogAgentSpecAgentSecurity _) as [[sec seco]|] eqn:Hsec;
      [|done].
    unfold DefaultDatadogAgentSpecAgent.
    rewrite (Agent_nonzero _ (default defaultAgentEnabled (agent_Enabled agents)))
      by apply orDefault_Some.
    agent_fields. rewrite orDefault_idem. agent_fields. rewrite Hen.
    rewrite Image_idem by done. agent_fields.
    rewrite (AgentConfig_idem _ _ _ _ Hcfg), (Security_idem _ _ _ Hsec).
    rewrite Rbac_idem, Strategy_idem, Apm_idem, SystemProbe_idem, Process_idem,
      NetworkPolicy_idem, orDefault_idem.
    agent_fields. by rewrite !unlessEmpty_zero.
Qed.

Lemma Agent_idem agent agent1 o1 :
  defaultAgent agent = Some (agent1, o1) ->
  defaultAgent agent1 = Some (agent1, zero).
Proof.
  intros Heq. pose proof (Agent_idem_match agent) as H. by rewrite Heq in H.
Qed.

Lemma Features_idem dda dda1 f1 :
  DefaultFeatures dda = Some (dda1, f1) ->
  DefaultFeatures dda1 = Some (dda1, featuresEcho (spec_Features (Spec dda1)))
  /\ is_Some (ft_KubeStateMetricsCore (featuresEcho (spec_Features (Spec dda1)))).
Proof.
  intros Heq. pose proof (Features_idem_match dda) as H. rewrite Heq in H.
  split; [done|]. revert Heq. unfold DefaultFeatures.
  destruct (DefaultDatadogFeatureOrchestratorExplorer _ _); [|done].
  intros [= <- _]. by eexists.
Qed.


(** ** The fields the override tracks *)

Lemma orDefault_shadowComplete {V} (p : option V) (d : V) :
  shadowComplete p (orDefault p d).1 (orDefault p d).2.
Proof.
  destruct p; split; simpl; try done; by intros [? [=]].
Qed.

Lemma AgentConfig_tracked image nodeAgent cfg o :
  defaultAgentConfig image nodeAgent = Some (cfg, o) ->
  shadowComplete (na_CollectEvents (default zero nodeAgent))
    (na_CollectEvents cfg) (na_CollectEvents o)
  /\ shadowComplete (na_LeaderElection (default zero nodeAgent))
       (na_LeaderElection cfg) (na_LeaderElection o)
  /\ shadowComplete (cc_LivenessProbe (na_ContainerConfig (default zero nodeAgent)))
       (cc_LivenessProbe (na_ContainerConfig cfg))
       (cc_LivenessProbe (na_ContainerConfig o))
  /\ shadowComplete (cc_ReadinessProbe (na_ContainerConfig (default zero nodeAgent)))
       (cc_ReadinessProbe (na_ContainerConfig cfg))
       (cc_ReadinessProbe (na_ContainerConfig o))
  /\ shadowComplete (cc_HealthPort (na_ContainerConfig (default zero nodeAgent)))
       (cc_HealthPort (na_ContainerConfig cfg))
       (cc_HealthPort (na_ContainerConfig o)).
Proof.
  unfold DefaultDatadogAgentSpecAgentConfig.
  destruct image as [img|]; [|done]. intros [= <- <-].
  cbn [na_CollectEvents na_LeaderElection na_ContainerConfig cc_LivenessProbe
       cc_ReadinessProbe cc_HealthPort].
  repeat (split; [apply orDefault_shadowComplete|]);
    apply orDefault_shadowComplete.
Qed.

Lemma ClusterAgentConfig_tracked config customConfig cfg o :
  (customConfig = None -> config = None) ->
  DefaultDatadogAgentSpecClusterAgentConfig config customConfig = Some (cfg, o) ->
  shadowComplete (cc_LogLevel (cac_ContainerConfig (default zero config)))
    (cc_LogLevel (cac_ContainerConfig cfg)) (cc_LogLevel (cac_ContainerConfig o))
  /\ shadowComplete (fca_ClusterChecksEnabled (cac_Features (default zero config)))
       (fca_ClusterChecksEnabled (cac_Features cfg))
       (fca_ClusterChecksEnabled (cac_Features o))
  /\ shadowComplete (fca_CollectEvents (cac_Features (default zero config)))
       (fca_CollectEvents (cac_Features cfg)) (fca_CollectEvents (cac_Features o))
  /\ shadowComplete (cc_HealthPort (cac_ContainerConfig (default zero config)))
       (cc_HealthPort (cac_ContainerConfig cfg))
       (cc_HealthPort (cac_ContainerConfig o)).
Proof.
  intros Hcustom. unfold DefaultDatadogAgentSpecClusterAgentConfig.
  destruct customConfig as [custom|].
  - destruct config as [c|]; [|done]. intros [= <- <-].
    cbn [cac_ContainerConfig cac_Features cc_LogLevel cc_HealthPort
         fca_ClusterChecksEnabled fca_CollectEvents default].
    repeat (split; [apply orDefault_shadowComplete|]);
      apply orDefault_shadowComplete.
  - rewrite (Hcustom eq_refl). intros Heq. injection Heq as <- <-. simpl.
    repeat split; try done; by intros [? [=]].
Qed.

(** The override of a feature always holds the flag of the feature. *)
Lemma feature_flags_echoed logCollection ksm withClusterChecksRunner prom net :
  let l := DefaultDatadogFeatureLogCollection logCollection in
  let k := DefaultDatadogFeatureKubeStateMetricsCore ksm withClusterChecksRunner in
  let p := DefaultDatadogFeaturePrometheusScrape prom in
  let n := DefaultDatadogFeatureNetworkMonitoring net in
  (is_Some (log_Enabled l.2) /\ log_Enabled l.2 = log_Enabled l.1)
  /\ (is_Some (ksm_Enabled k.2) /\ ksm_Enabled k.2 = ksm_Enabled k.1)
  /\ (is_Some (prom_Enabled p.2) /\ prom_Enabled p.2 = prom_Enabled p.1)
  /\ (is_Some (nm_Enabled n.2) /\ nm_Enabled n.2 = nm_Enabled n.1).
Proof.
  repeat split.
  - by destruct logCollection as [[[[]|] ? ? ? ? ? ? ?]|]; eexists.
  - by destruct logCollection as [[[[]|] ? ? ? ? ? ? ?]|].
  - by destruct ksm as [[[]]|]; eexists.
  - by destruct ksm as [[[]]|].
  - by destruct prom as [[[[]|] ?]|]; eexists.
  - by destruct prom as [[[[]|] ?]|].
  - by destruct net as [[[]]|]; eexists.
  - by destruct net as [[[]]|].
Qed.


(** The pass faults in three more places: on a scrubbing configuration
    without [Containers], on a syscall monitor without [Enabled], and on a
    cluster agent with a custom configuration and no [Config]. *)
Remark DefaultDatadogAgent_faults_elsewhere :
  defaultDatadogAgent {| Spec := scrubbingWithoutContainers |} = None
  /\ defaultDatadogAgent {| Spec := syscallMonitorWithoutEnabled |} = None
  /\ defaultDatadogAgent {| Spec := customConfigOnly |} = None.
Proof.
  split; [by vm_compute|]. split; [|by vm_compute].
  cbv -[socketDefaultSkipped agentTagOf].
  by repeat case_match.
Qed.

End Facts.

(** ** The pass on concrete specs *)

Example exampleNewVersion_parses :
  exampleNewVersion "7.27.0-0" = Some [7; 27; 0]
  /\ exampleNewVersion "6.20.1" = Some [6; 20; 1]
  /\ exampleNewVersion "latest" = None
  /\ exampleGetTagFromImageName "gcr.io/datadoghq/agent:6.20.1-jmx" = "6.20.1-jmx"
  /\ exampleGetTagFromImageName "agent" = "latest"
  /\ TrimSuffix "6.20.1-jmx" "-jmx" = "6.20.1"
  /\ TrimSuffix "6.20.1" "-jmx" = "6.20.1".
Proof. by vm_compute. Qed.

(** C8 on the three images: the socket default is applied for agent 6.20.1
    and for the tag that does not parse, and skipped for agent 7.28.0. *)
Lemma DefaultDatadogAgentSpecAgentConfig_socket_example :
  (exists cfg o,
     exampleDefaultAgentConfig (Some oldImage) None = Some (cfg, o)
     /\ socketPath (na_CriSocket cfg) = Some "/var/run/docker.sock"
     /\ socketPath (na_CriSocket o) = Some "/var/run/docker.sock")
  /\ (exists cfg o,
       exampleDefaultAgentConfig (Some customImage) None = Some (cfg, o)
       /\ socketPath (na_CriSocket cfg) = Some "/var/run/docker.sock")
  /\ (exists cfg o,
       exampleDefaultAgentConfig (Some recentImage) None = Some (cfg, o)
       /\ na_CriSocket cfg = None /\ na_CriSocket o = None).
Proof.
  split; [|split].
  - destruct (DefaultDatadogAgentSpecAgentConfig_socket exampleGetTagFromImageName
                (list nat) exampleNewVersion exampleVersionLeb oldImage None)
      as (cfg & o & Hrun & Hbelow & _).
    exists cfg, o. split; [done|]. destruct Hbelow as [Hpath Hshadow].
    { by vm_compute. }
    split; [exact Hpath|]. by apply Hshadow.
  - destruct (DefaultDatadogAgentSpecAgentConfig_socket exampleGetTagFromImageName
                (list nat) exampleNewVersion exampleVersionLeb customImage None)
      as (cfg & o & Hrun & Hbelow & _ & _ & _ & Hparse).
    exists cfg, o. split; [done|].
    apply Hbelow, Hparse; by vm_compute.
  - destruct (DefaultDatadogAgentSpecAgentConfig_socket exampleGetTagFromImageName
                (list nat) exampleNewVersion exampleVersionLeb recentImage None)
      as (cfg & o & Hrun & _ & Hskip & _ & Habove & _).
    exists cfg, o. split; [done|].
    apply Hskip, Habove. left. by vm_compute.
Defined.


(** The slips next to the tracked fields: the log level of the node agent
    is defaulted without a trace in the override, and a configuration of
    the cluster agent is discarded when there is no custom configuration. *)
Remark LogLevel_defaulted_without_trace :
  exists cfg o,
    exampleDefaultAgentConfig (Some recentImage) None = Some (cfg, o)
    /\ cc_LogLevel (na_ContainerConfig cfg) = Some "INFO"
    /\ cc_LogLevel (na_ContainerConfig o) = None.
Proof. eexists _, _. split; [by vm_compute|]. by vm_compute. Qed.

Remark ClusterAgentConfig_discarded :
  exists cfg o,
    DefaultDatadogAgentSpecClusterAgentConfig (Some debugConfig) None = Some (cfg, o)
    /\ cc_LogLevel (cac_ContainerConfig cfg) = Some "INFO"
    /\ DefaultDatadogAgentSpecClusterAgentConfig None
         (Some {| custom_ConfigData := Some "" |}) = None.
Proof. eexists _, _. split; [by vm_compute|]. by vm_compute. Qed.



(** The runner is defaulted in full on the second pass, disabled as it
    is. *)
Remark ClusterChecksRunner_second_run :
  let first := DefaultDatadogAgentSpecClusterChecksRunner zero in
  let second := DefaultDatadogAgentSpecClusterChecksRunner first.1 in
  clc_Enabled first.1 = Some false
  /\ clc_Image first.1 = None
  /\ clc_Enabled second.1 = Some false
  /\ img_Tag <$> clc_Image second.1 = Some "7.28.0".
Proof. by vm_compute. Qed.


End v1alpha1_facts.

(** * The factory: registration order, faults and results *)

Module factory_facts.
Import feature featureV1 feature_facts.

(** ** Registering twice, and in either order *)

Section Registration.

Variable Options : Type.

Implicit Types featureBuilders : gmap string (BuildFunc Options).

(** X1: whatever the registry holds, a second registration under an
    identifier that has just been registered is refused and leaves the
    registry as the first call left it; the constructor found under the
    identifier afterwards is the one that was there before the first call,
    or else the one the first call brought. *)
Theorem Register_twice_refused id (f1 f2 : BuildFunc Options) featureBuilders :
  let first := Register Options id f1 featureBuilders in
  Register Options id f2 first.1 = (first.1, Some (alreadyRegistered id))
  /\ first.1 !! id = Some (default f1 (featureBuilders !! id)).
Proof.
  unfold Register.
  destruct (featureBuilders !! id) as [b|] eqn:Hb; simpl.
  - by rewrite Hb.
  - by rewrite lookup_insert_eq.
Qed.

(** X2: registrations under two different identifiers commute: either
    order leaves the same registry, and each call returns the error it
    returns when it is made alone. *)
Theorem Register_commutes id1 id2 (f1 f2 : BuildFunc Options) featureBuilders :
  id1 <> id2 ->
  let one := Register Options id1 f1 featureBuilders in
  let two := Register Options id2 f2 featureBuilders in
  (Register Options id2 f2 one.1).1 = (Register Options id1 f1 two.1).1
  /\ (Register Options id2 f2 one.1).2 = two.2
  /\ (Register Options id1 f1 two.1).2 = one.2.
Proof.
  intros Hne. unfold Register.
  destruct (featureBuilders !! id1) as [b1|] eqn:H1,
    (featureBuilders !! id2) as [b2|] eqn:H2; simpl;
    rewrite ?H1, ?H2, ?lookup_insert_ne, ?H1, ?H2 by done; simpl; try done.
  split; [|done]. by apply insert_insert_ne.
Qed.

End Registration.

(** ** The two orders of [getSortedFeatureIDs] *)

Section Modes.

Variable Options : Type.
Variables EBPFCheckIDType CWSIDType CSPMIDType : IDType.
Variables OOMKillIDType TCPQueueLengthIDType USMIDType : IDType.

Implicit Types featureBuilders : gmap string (BuildFunc Options).

Abbreviation privilegedIDs :=
  (privilegedFeatures EBPFCheckIDType CWSIDType CSPMIDType
     OOMKillIDType TCPQueueLengthIDType USMIDType).
Abbreviation sortedIDs :=
  (getSortedFeatureIDs Options EBPFCheckIDType CWSIDType CSPMIDType
     OOMKillIDType TCPQueueLengthIDType USMIDType).

Lemma registeredIDs_split featureBuilders :
  sortedIDs featureBuilders false
  ≡ₚ filter (fun key => key ∉ privilegedIDs) (registeredIDs Options featureBuilders)
     ++ filter (fun key => ~ (key ∉ privilegedIDs)) (registeredIDs Options featureBuilders).
Proof.
  unfold getSortedFeatureIDs. rewrite sortIDs_Permutation.
  symmetry. apply filter_app_complement.
Qed.

Lemma privileged_registered_Permutation featureBuilders :
  privilegedIDs
  ≡ₚ filter (fun key => ~ (key ∉ privilegedIDs)) (registeredIDs Options featureBuilders)
  <-> NoDup privilegedIDs
      /\ forall id, id ∈ privilegedIDs -> is_Some (featureBuilders !! id).
Proof.
  split.
  - intros Hp. split.
    + rewrite Hp. apply NoDup_filter, registeredIDs_NoDup.
    + intros id Hin. rewrite Hp in Hin.
      apply list_elem_of_filter in Hin as [_ Hin].
      by apply registeredIDs_elem_of in Hin.
  - intros [Hnd Hall]. apply NoDup_Permutation; [done| |].
    + apply NoDup_filter, registeredIDs_NoDup.
    + intros id. rewrite list_elem_of_filter, registeredIDs_elem_of. split.
      * intros Hin. split; [by intros ?|by apply Hall].
      * intros [Hnn _]. by destruct (decide (id ∈ privilegedIDs)).
Qed.

(** X3: the order of multi-process mode is a rearrangement of the order
    without it, so that both modes build the same features, exactly when
    the six privileged identifiers are pairwise different and all
    registered. *)
Theorem getSortedFeatureIDs_modes_agree featureBuilders :
  getSortedFeatureIDs Options EBPFCheckIDType CWSIDType CSPMIDType
    OOMKillIDType TCPQueueLengthIDType USMIDType featureBuilders true
  ≡ₚ getSortedFeatureIDs Options EBPFCheckIDType CWSIDType CSPMIDType
       OOMKillIDType TCPQueueLengthIDType USMIDType featureBuilders false
  <-> NoDup [EBPFCheckIDType; CWSIDType; CSPMIDType;
             OOMKillIDType; TCPQueueLengthIDType; USMIDType]
      /\ forall id,
           id ∈ [EBPFCheckIDType; CWSIDType; CSPMIDType;
                 OOMKillIDType; TCPQueueLengthIDType; USMIDType] ->
           is_Some (featureBuilders !! id).
Proof.
  rewrite registeredIDs_split.
  rewrite <- (privileged_registered_Permutation featureBuilders).
  unfold getSortedFeatureIDs at 1. rewrite sortIDs_Permutation. split.
  - apply Permutation_app_inv_l.
  - intros Hp. by apply Permutation_app_head.
Qed.

End Modes.

(** ** What the returned requirement asks for *)

Lemma foldl_Merge_enabled k (reqs : list RequiredComponents) : forall acc,
  IsEnabled (component k (foldl Merge acc reqs)) = true
  <-> IsEnabled (component k acc) = true
      \/ exists req, req ∈ reqs /\ IsEnabled (component k req) = true.
Proof.
  induction reqs as [|req reqs IH]; intros acc; simpl.
  - split; [by left|]. intros [H|(req & Hin%elem_of_nil & _)]; done.
  - rewrite IH, component_Merge. unfold IsEnabled at 1. simpl.
    fold (IsEnabled (component k acc)). split.
    + intros [H|(req' & Hin & Hen)].
      * unfold IsEnabled in *.
        destruct (IsRequired (component k acc)) as [[]|],
          (IsRequired (component k req)) as [[]|] eqn:Hreq; simpl in *;
          try done; try (by left).
        all: right; exists req; split; [by left|];
          unfold IsEnabled; by rewrite Hreq.
      * right. exists req'. split; [by right|done].
    + intros [H|(req' & Hin & Hen)].
      * left. unfold IsEnabled in *.
        by destruct (IsRequired (component k acc)) as [[]|].
      * apply elem_of_cons in Hin as [->|Hin].
        -- left. unfold IsEnabled in *.
           destruct (IsRequired (component k req)) as [[]|]; [|done..].
           by destruct (IsRequired (component k acc)) as [[]|].
        -- right. by exists req'.
Qed.

Lemma foldl_Merge_privileged k (reqs : list RequiredComponents) : forall acc,
  IsPrivileged (component k (foldl Merge acc reqs)) = true
  <-> IsPrivileged (component k acc) = true
      \/ exists req, req ∈ reqs /\ IsPrivileged (component k req) = true.
Proof.
  induction reqs as [|req reqs IH]; intros acc; simpl.
  - split; [by left|]. intros [H|(req & Hin%elem_of_nil & _)]; done.
  - rewrite IH, component_Merge. unfold IsPrivileged at 1. simpl.
    rewrite orb_true_iff. fold (IsPrivileged (component k acc)).
    fold (IsPrivileged (component k req)). split.
    + intros [[H|H]|(req' & Hin & Hen)].
      * by left.
      * right. exists req. split; [by left|done].
      * right. exists req'. split; [by right|done].
    + intros [H|(req' & Hin & Hen)].
      * by left; left.
      * apply elem_of_cons in Hin as [->|Hin].
        -- by left; right.
        -- right. by exists req'.
Qed.

(** ** The resolution loop: when it faults and what it returns *)

Section Resolution.

Variable Options : Type.
Variables EBPFCheckIDType CWSIDType CSPMIDType : IDType.
Variables OOMKillIDType TCPQueueLengthIDType USMIDType : IDType.
Variable dda : DatadogAgent.
Variable options : Options.
Variable featureBuilders : gmap string (BuildFunc Options).

Abbreviation iter := (BuildFeatures_iter Options dda options featureBuilders).
Abbreviation loop := (BuildFeatures_loop Options dda options featureBuilders).

(** What an iteration works with: the feature built for the identifier of a
    visit, and the requirement it returns for the flag of the visit. *)
Definition configuredAt (visit : IDType * bool) : option (Feature * RequiredComponents) :=
  (fun build : BuildFunc Options =>
     (build options, Configure (build options) dda visit.2))
  <$> featureBuilders !! visit.1.

Lemma BuildFeatures_loop_None keys : forall st,
  loop st keys = None <-> exists id, id ∈ keys /\ featureBuilders !! id = None.
Proof.
  induction keys as [|id keys IH]; intros st; simpl.
  - split; [done|]. by intros (id & Hin%elem_of_nil & _).
  - unfold BuildFeatures_iter.
    destruct (featureBuilders !! id) as [build|] eqn:Hb.
    + rewrite IH. split.
      * intros (id' & Hin & Hnone). exists id'. split; [by right|done].
      * intros (id' & Hin & Hnone). exists id'. split; [|done].
        apply elem_of_cons in Hin as [Heq|Hin]; [|done].
        subst id'. unfold BuildFunc in *. congruence.
    + split; [|done]. intros _. exists id. split; [by left|done].
Qed.


Lemma BuildFeatures_loop_steps keys : forall st st',
  loop st keys = Some st' ->
  exists trace,
    visited st' = visited st ++ trace
    /\ length (omap configuredAt trace) = length trace
    /\ output st'
       = output st
         ++ (filter (fun step => IsConfigured step.2 = true)
               (omap configuredAt trace)).*1
    /\ requiredComponents st'
       = foldl Merge (requiredComponents st) (omap configuredAt trace).*2.
Proof.
  induction keys as [|id keys IH]; intros st st'; simpl.
  - intros [= <-]. exists []. by rewrite !app_nil_r.
  - unfold BuildFeatures_iter at 1.
    destruct (featureBuilders !! id) as [build|] eqn:Hb; [|done].
    intros Hloop. apply IH in Hloop as (trace & Hvis & Hlen & Hout & Hreq).
    simpl in Hvis, Hout, Hreq.
    exists ((id, useMultiProcessContainer st) :: trace).
    assert (configuredAt (id, useMultiProcessContainer st)
            = Some (build options,
                    Configure (build options) dda (useMultiProcessContainer st)))
      as Hstep
      by (unfold configuredAt; unfold BuildFunc in Hb |- *; cbn [fst snd];
          by rewrite Hb).
    cbn [omap list_omap]. rewrite Hstep. cbn [length].
    split; [by rewrite Hvis, <- app_assoc|]. split; [by rewrite Hlen|].
    rewrite Hout, Hreq. split; [|done].
    rewrite filter_cons. cbn [snd].
    destruct (IsConfigured _) eqn:Hconf.
    + rewrite decide_True by done. by rewrite <- app_assoc.
    + rewrite decide_False by done. done.
Qed.

(** X5: in a call of [BuildFeatures] that returns, every visit built its
    feature; the list returned holds, in the order of the visits, the
    features whose requirement, for the flag they were configured with, is
    configured; the requirement returned is the merge, from the empty
    requirement on, of the requirements of all the visits, configured or
    not. *)
Theorem BuildFeatures_result st :
  BuildFeatures_run Options EBPFCheckIDType CWSIDType CSPMIDType
    OOMKillIDType TCPQueueLengthIDType USMIDType dda options featureBuilders
  = Some st ->
  let steps := omap configuredAt (visited st) in
  length steps = length (visited st)
  /\ output st = (filter (fun step => IsConfigured step.2 = true) steps).*1
  /\ requiredComponents st = foldl Merge emptyRequiredComponents steps.*2.
Proof.
  unfold BuildFeatures_run. intros Hrun.
  apply BuildFeatures_loop_steps in Hrun as (trace & Hvis & Hlen & Hout & Hreq).
  simpl in Hvis, Hout, Hreq. by rewrite Hvis.
Qed.

(** X25: in a call of [BuildFeatures] that returns, a kind of component is
    enabled in the requirement returned exactly when one of the features
    visited returned a requirement that enables it, and privileged exactly
    when one of them returned a requirement that marks it privileged: the
    merged requirement asks for nothing that no feature asked for, and
    drops nothing that a feature asked for. *)
Theorem BuildFeatures_requirement_from_features st (k : ComponentKind) :
  BuildFeatures_run Options EBPFCheckIDType CWSIDType CSPMIDType
    OOMKillIDType TCPQueueLengthIDType USMIDType dda options featureBuilders
  = Some st ->
  let reqs := (omap configuredAt (visited st)).*2 in
  (IsEnabled (component k (requiredComponents st)) = true
   <-> exists req, req ∈ reqs /\ IsEnabled (component k req) = true)
  /\ (IsPrivileged (component k (requiredComponents st)) = true
      <-> exists req, req ∈ reqs /\ IsPrivileged (component k req) = true).
Proof.
  unfold BuildFeatures_run. intros Hrun.
  apply BuildFeatures_loop_steps in Hrun as (trace & Hvis & _ & _ & Hreq).
  simpl in Hvis, Hreq. rewrite Hvis, Hreq. split.
  - rewrite foldl_Merge_enabled. split; [|by right].
    intros [H|H]; [|done]. by destruct k.
  - rewrite foldl_Merge_privileged. split; [|by right].
    intros [H|H]; [|done]. by destruct k.
Qed.

End Resolution.

(** ** The resolution of a [v1alpha1] object *)

Section ResolutionV1.

Variable Options : Type.
Variables EBPFCheckIDType CWSIDType CSPMIDType : IDType.
Variables OOMKillIDType TCPQueueLengthIDType USMIDType : IDType.
Variable ConfigureV1 : Feature -> v1alpha1.DatadogAgent -> RequiredComponents.
Variable requirementsEnabled : RequiredComponents -> bool.
Variable dda : v1alpha1.DatadogAgent.
Variable options : Options.
Variable featureBuilders : gmap string (BuildFunc Options).

Abbreviation loopV1 :=
  (BuildFeaturesV1_loop Options ConfigureV1 requirementsEnabled
     dda options featureBuilders).

(** The features that the constructors registered under [ids] build. *)
Definition builtFeatures (ids : list IDType) : list Feature :=
  omap (fun id => (fun build : BuildFunc Options => build options)
                  <$> featureBuilders !! id) ids.

Lemma builtFeatures_cons id keys (build : BuildFunc Options) :
  featureBuilders !! id = Some build ->
  builtFeatures (id :: keys) = build options :: builtFeatures keys.
Proof.
  intros Hb. unfold builtFeatures. cbn [omap list_omap]. by rewrite Hb.
Qed.

Lemma BuildFeaturesV1_loop_registered keys : forall st,
  Forall (fun id => is_Some (featureBuilders !! id)) keys ->
  length (builtFeatures keys) = length keys
  /\ loopV1 st keys
     = Some (st.1 ++ filter (fun feat => requirementsEnabled (ConfigureV1 feat dda) = true)
                       (builtFeatures keys),
             foldl Merge st.2
               (map (fun feat => ConfigureV1 feat dda) (builtFeatures keys))).
Proof.
  induction keys as [|id keys IH]; intros [out req] Hall.
  - simpl. by rewrite app_nil_r.
  - apply Forall_cons in Hall as [[build Hb] Hall].
    rewrite (builtFeatures_cons _ _ _ Hb).
    cbn [BuildFeaturesV1_loop]. unfold BuildFeaturesV1_iter.
    unfold BuildFunc in Hb |- *. rewrite Hb.
    cbn [length fst snd map foldl].
    destruct (IH (if requirementsEnabled (ConfigureV1 (build options) dda)
                  then out ++ [build options] else out,
                  Merge req (ConfigureV1 (build options) dda)) Hall)
      as [Hlen ->].
    split; [by rewrite Hlen|]. cbn [fst snd]. rewrite filter_cons.
    destruct (requirementsEnabled _) eqn:Hen.
    + rewrite decide_True by done. by rewrite <- app_assoc.
    + rewrite decide_False by done. done.
Qed.


End ResolutionV1.

(** ** On concrete registries *)

(** X2 at [sevenBuilders]: registering a new feature and registering CWS
    again, in either order. *)
Lemma Register_commutes_example :
  (Register unit "cws" (someFeature "again")
     (Register unit "dogstatsd" (someFeature "dogstatsd") sevenBuilders).1).1
  = (Register unit "dogstatsd" (someFeature "dogstatsd")
       (Register unit "cws" (someFeature "again") sevenBuilders).1).1
  /\ (Register unit "cws" (someFeature "again")
        (Register unit "dogstatsd" (someFeature "dogstatsd") sevenBuilders).1).2
     = Some (alreadyRegistered "cws")
  /\ (Register unit "dogstatsd" (someFeature "dogstatsd")
        (Register unit "cws" (someFeature "again") sevenBuilders).1).2
     = None.
Proof.
  destruct (Register_commutes unit "dogstatsd" "cws"
              (someFeature "dogstatsd") (someFeature "again") sevenBuilders)
    as (Hregistry & Hcws & Hdsd); [done|].
  split; [exact Hregistry|]. split.
  - rewrite Hcws. by vm_compute.
  - rewrite Hdsd. by vm_compute.
Defined.

(** X5 at [sevenBuilders]: of the seven features visited only CWS returns a
    configured requirement; it is the one returned, and the requirement
    returned is its own. *)
Lemma BuildFeatures_result_example :
  exists st,
    exampleRun sevenBuilders = Some st
    /\ length (visited st) = 7
    /\ FeatureName <$> output st = ["cws"]
    /\ requiredComponents st
       = {| Agent := {| IsRequired := Some true; Privileged := true |};
            ClusterAgent := noRequirement;
            ClusterChecksRunner := noRequirement |}.
Proof.
  destruct (exampleRun sevenBuilders) as [st|] eqn:Hrun; [|by vm_compute in Hrun].
  exists st. split; [done|].
  destruct (BuildFeatures_result unit
              "ebpf_check" "cws" "cspm" "oom_kill" "tcp_queue_length" "usm"
              multiProcessAgent tt sevenBuilders st Hrun)
    as (Hlen & Hout & Hreq).
  rewrite Hout, Hreq, <- Hlen.
  vm_compute in Hrun. injection Hrun as <-. by vm_compute.
Defined.

(** X25 at [sevenBuilders]: CWS asks for a privileged node agent, and so
    does the requirement returned. *)
Lemma BuildFeatures_requirement_from_features_example :
  exists st,
    exampleRun sevenBuilders = Some st
    /\ IsEnabled (component NodeAgent (requiredComponents st)) = true
    /\ IsPrivileged (component NodeAgent (requiredComponents st)) = true.
Proof.
  destruct (exampleRun sevenBuilders) as [st|] eqn:Hrun; [|by vm_compute in Hrun].
  exists st. split; [done|].
  destruct (BuildFeatures_requirement_from_features unit
              "ebpf_check" "cws" "cspm" "oom_kill" "tcp_queue_length" "usm"
              multiProcessAgent tt sevenBuilders st NodeAgent Hrun)
    as [Hen Hpriv].
  vm_compute in Hrun. injection Hrun as <-. split.
  - apply Hen. eexists.
    split; [apply (list_elem_of_lookup_2 _ 2); by vm_compute|by vm_compute].
  - apply Hpriv. eexists.
    split; [apply (list_elem_of_lookup_2 _ 2); by vm_compute|by vm_compute].
Defined.

End factory_facts.

(** * The defaulting pass: components, faults and what a pass leaves *)

Module defaulting_facts.
Import v1alpha1 v1alpha1_facts.

(** ** Vocabulary *)

(** A node agent without its system probe and its process agent: what
    [FeatureOverride] has no business with. *)
Definition withoutProbes (agent : DatadogAgentSpecAgentSpec) : DatadogAgentSpecAgentSpec :=
  set_agent_SystemProbe None (set_agent_Process None agent).

(** A component that the user has not disabled: its [Enabled] is true or
    unset, and an unset one defaults to true. *)
Definition notDisabled (enabled : option bool) : bool :=
  match enabled with
  | Some false => false
  | _ => true
  end.

(** [FeatureOverride] writes through an absent system probe, or an absent
    process agent. *)
Definition overrideFaults (spec : DatadogAgentSpec) : bool :=
  negb (BoolValue (agent_Enabled (spec_Agent spec)))
  && (networkMonitoringEnabled (spec_Features spec)
      && negb (isSome (agent_SystemProbe (spec_Agent spec)))
      || orchestratorExplorerEnabled (spec_Features spec)
         && negb (isSome (agent_Process (spec_Agent spec)))).

(** The orchestrator explorer is not disabled and has a scrubbing
    configuration without [Containers]. *)
Definition scrubbingFaults (ft : DatadogFeatures) : bool :=
  let orch := default zero (ft_OrchestratorExplorer ft) in
  notDisabled (oe_Enabled orch)
  && match oe_Scrubbing orch with
     | Some scrubbing => negb (isSome (scrub_Containers scrubbing))
     | None => false
     end.

(** The cluster agent is not disabled and has a custom configuration but
    no configuration. *)
Definition customConfigFaults (dca : DatadogAgentSpecClusterAgentSpec) : bool :=
  notDisabled (dca_Enabled dca)
  && isSome (dca_CustomConfig dca) && negb (isSome (dca_Config dca)).

(** The node agent is not disabled and has a syscall monitor without
    [Enabled]. *)
Definition syscallMonitorFaults (agent : DatadogAgentSpecAgentSpec) : bool :=
  notDisabled (agent_Enabled agent)
  && match agent_Security agent with
     | Some security =>
         match rt_SyscallMonitor (sec_Runtime security) with
         | Some monitor => negb (isSome (sm_Enabled monitor))
         | None => false
         end
     | None => false
     end.

(** One of the five. *)
Definition passFaults (spec : DatadogAgentSpec) : bool :=
  overrideFaults spec
  || scrubbingFaults (spec_Features spec)
  || customConfigFaults (spec_ClusterAgent spec)
  || syscallMonitorFaults (spec_Agent spec).

(** Every subtree of a node agent is allocated. *)
Definition agentAllocated (agent : DatadogAgentSpecAgentSpec) : Prop :=
  is_Some (agent_UseExtendedDaemonset agent)
  /\ is_Some (agent_Image agent)
  /\ is_Some (agent_NodeAgent agent)
  /\ is_Some (agent_Rbac agent)
  /\ is_Some (agent_DeploymentStrategy agent)
  /\ is_Some (agent_Apm agent)
  /\ is_Some (agent_SystemProbe agent)
  /\ is_Some (agent_Security agent)
  /\ is_Some (agent_Process agent)
  /\ is_Some (agent_NetworkPolicy agent).

(** Every subtree of a cluster agent is allocated. *)
Definition clusterAgentAllocated (dca : DatadogAgentSpecClusterAgentSpec) : Prop :=
  is_Some (dca_Image dca)
  /\ is_Some (dca_Config dca)
  /\ is_Some (dca_Rbac dca)
  /\ is_Some (dca_NetworkPolicy dca).

(** Every feature is present and has its [Enabled] decided. *)
Definition featuresDecided (ft : DatadogFeatures) : Prop :=
  is_Some (ft_OrchestratorExplorer ft ≫= oe_Enabled)
  /\ is_Some (ft_KubeStateMetricsCore ft ≫= ksm_Enabled)
  /\ is_Some (ft_PrometheusScrape ft ≫= prom_Enabled)
  /\ is_Some (ft_LogCollection ft ≫= log_Enabled)
  /\ is_Some (ft_NetworkMonitoring ft ≫= nm_Enabled).

(** ** Inputs to run the pass on *)

(** A cluster-check runner that the user has disabled, and says nothing
    else about. *)
Definition disabledRunner : DatadogAgentSpecClusterChecksRunnerSpec :=
  set_clc_Enabled (Some false) zero.

(** A node agent that the user has disabled but whose image is given. *)
Definition disabledAgent : DatadogAgentSpecAgentSpec :=
  {| agent_Enabled := Some false;
     agent_UseExtendedDaemonset := None;
     agent_Image := Some recentImage;
     agent_NodeAgent := None;
     agent_Rbac := None;
     agent_DeploymentStrategy := None;
     agent_Apm := None;
     agent_SystemProbe := None;
     agent_Security := None;
     agent_Process := None;
     agent_NetworkPolicy := None |}.

(** A system probe and a process agent that the user has disabled, with
    one more field set. *)
Definition disabledProbe : SystemProbeSpec :=
  {| sp_Enabled := Some false;
     sp_EnableOOMKill := Some true;
     sp_EnableTCPQueueLength := None;
     sp_BPFDebugEnabled := None;
     sp_CollectDNSStats := None;
     sp_ConntrackEnabled := None;
     sp_SecCompRootPath := "";
     sp_AppArmorProfileName := "";
     sp_SecCompProfileName := "" |}.

Definition disabledProcess : ProcessSpec :=
  {| proc_Enabled := Some false; proc_ProcessCollectionEnabled := None |}.

Definition disabledApm : APMSpec :=
  {| apm_Enabled := Some false;
     apm_HostPort := Some 9000%Z;
     apm_ContainerConfig := zero;
     apm_UnixDomainSocket := None |}.

Definition enabledApm : APMSpec :=
  {| apm_Enabled := Some true;
     apm_HostPort := None;
     apm_ContainerConfig := zero;
     apm_UnixDomainSocket := None |}.

Definition disabledLogCollection : LogCollectionConfig :=
  {| log_Enabled := Some false;
     log_LogsConfigContainerCollectAll := None;
     log_ContainerCollectUsingFiles := None;
     log_ContainerLogsPath := Some "/custom";
     log_PodLogsPath := None;
     log_ContainerSymlinksPath := None;
     log_TempStoragePath := None;
     log_OpenFilesLimit := None |}.

Definition enabledLogCollection : LogCollectionConfig :=
  {| log_Enabled := Some true;
     log_LogsConfigContainerCollectAll := None;
     log_ContainerCollectUsingFiles := None;
     log_ContainerLogsPath := Some "/custom";
     log_PodLogsPath := None;
     log_ContainerSymlinksPath := None;
     log_TempStoragePath := None;
     log_OpenFilesLimit := None |}.

(** Network monitoring and the orchestrator explorer enabled, on a node
    agent whose system probe and process agent the user has disabled. *)
Definition probesDisabledByUser : DatadogAgentSpec :=
  {| spec_Credentials := None;
     spec_Features :=
       {| ft_OrchestratorExplorer :=
            Some {| oe_Enabled := Some true;
                    oe_ClusterCheck := None;
                    oe_Scrubbing := None |};
          ft_KubeStateMetricsCore := None;
          ft_PrometheusScrape := None;
          ft_LogCollection := None;
          ft_NetworkMonitoring := Some {| nm_Enabled := Some true |} |};
     spec_Agent :=
       set_agent_SystemProbe (Some disabledProbe)
         (set_agent_Process (Some disabledProcess) zero);
     spec_ClusterAgent := zero;
     spec_ClusterChecksRunner := zero |}.

(** A cluster-check runner whose image the user has given, and nothing
    else. *)
Definition runnerWithImage : DatadogAgentSpec :=
  set_spec_ClusterChecksRunner
    {| clc_Enabled := None;
       clc_Image := Some recentImage;
       clc_ContainerConfig := None;
       clc_Rbac := None;
       clc_NetworkPolicy := None |}
    zero.

(** The image of agent 6.20.1 without the JMX flavour. *)
Definition plainImage : ImageConfig :=
  {| img_Name := "gcr.io/datadoghq/agent:6.20.1";
     img_Tag := "";
     img_PullPolicy := None;
     img_PullSecrets := None |}.

(** ** Struct equality *)

Lemma IsEqualStruct_true {A} `{EqDecision A} (x y : A) :
  IsEqualStruct x y = true <-> x = y.
Proof. unfold IsEqualStruct. apply bool_decide_eq_true. Qed.

Lemma IsEqualStruct_false {A} `{EqDecision A} (x y : A) :
  IsEqualStruct x y = false <-> x <> y.
Proof. unfold IsEqualStruct. apply bool_decide_eq_false. Qed.

(** ** Components that the user has disabled *)

Lemma ClusterAgent_nonzero (dca : DatadogAgentSpecClusterAgentSpec) b :
  dca_Enabled dca = Some b -> IsEqualStruct dca zero = false.
Proof.
  intros He. unfold IsEqualStruct. apply bool_decide_eq_false_2. by intros ->.
Qed.

Section Components.

Variable DefaultExtendedDaemonSetSpecStrategyCanary :
  ExtendedDaemonSetSpecStrategyCanary -> ExtendedDaemonSetSpecStrategyCanary.
Variable GetTagFromImageName : string -> string.
Variable Version : Type.
Variable NewVersion : string -> option Version.
Variable versionLeb : Version -> Version -> bool.

(** X7: a node agent, or a cluster agent, whose [Enabled] the user has set
    to false is returned as it is, whatever else it holds, and the override
    is empty: nothing below a disabled component is defaulted, and the call
    cannot fault. *)
Theorem disabled_component_untouched (agent : DatadogAgentSpecAgentSpec)
    (dca : DatadogAgentSpecClusterAgentSpec) :
  (agent_Enabled agent = Some false ->
   DefaultDatadogAgentSpecAgent DefaultExtendedDaemonSetSpecStrategyCanary
     GetTagFromImageName Version NewVersion versionLeb agent
   = Some (agent, zero))
  /\ (dca_Enabled dca = Some false ->
      DefaultDatadogAgentSpecClusterAgent dca = Some (dca, zero)).
Proof.
  split; intros He.
  - unfold DefaultDatadogAgentSpecAgent.
    rewrite (Agent_nonzero _ _ He), He. simpl.
    by destruct agent; simpl in *; subst.
  - unfold DefaultDatadogAgentSpecClusterAgent.
    rewrite (ClusterAgent_nonzero _ _ He), He. simpl.
    by destruct dca; simpl in *; subst.
Qed.

End Components.

(** X8: below the node agent, the APM agent, the system probe and the
    process agent that the user has disabled are returned as they are, with
    an empty override; log collection that the user has disabled is
    returned as it is, and its override holds the flag and nothing else. *)
Theorem disabled_subcomponent_untouched (apm : APMSpec) (systemProbe : SystemProbeSpec)
    (process : ProcessSpec) (logCollection : LogCollectionConfig) :
  (apm_Enabled apm = Some false ->
   DefaultDatadogAgentSpecAgentApm (Some apm) = (apm, zero))
  /\ (sp_Enabled systemProbe = Some false ->
      DefaultDatadogAgentSpecAgentSystemProbe (Some systemProbe) = (systemProbe, zero))
  /\ (proc_Enabled process = Some false ->
      DefaultDatadogAgentSpecAgentProcess (Some process) = (process, zero))
  /\ (log_Enabled logCollection = Some false ->
      DefaultDatadogFeatureLogCollection (Some logCollection)
      = (logCollection, logEcho logCollection)).
Proof.
  repeat split; intros He.
  - by destruct apm; simpl in *; subst.
  - by destruct systemProbe; simpl in *; subst.
  - by destruct process; simpl in *; subst.
  - by destruct logCollection; simpl in *; subst.
Qed.

(** ** The cluster-check runner *)

Lemma ClusterChecksRunner_first_nonzero clc :
  (DefaultDatadogAgentSpecClusterChecksRunner clc).1 <> zero.
Proof.
  unfold DefaultDatadogAgentSpecClusterChecksRunner.
  destruct (IsEqualStruct clc zero) eqn:Hz.
  - apply IsEqualStruct_true in Hz as ->. by vm_compute.
  - simpl. intros Heq. apply (f_equal clc_Enabled) in Heq. simpl in Heq.
    by destruct (clc_Enabled clc).
Qed.

Lemma ClusterChecksRunnerConfig_idem containerConfig :
  DefaultDatadogAgentSpecClusterChecksRunnerConfig
    (Some (DefaultDatadogAgentSpecClusterChecksRunnerConfig containerConfig).1)
  = ((DefaultDatadogAgentSpecClusterChecksRunnerConfig containerConfig).1, zero).
Proof. unfold DefaultDatadogAgentSpecClusterChecksRunnerConfig. idem. Qed.

Lemma ClusterChecksRunner_idem clc :
  clc <> zero ->
  DefaultDatadogAgentSpecClusterChecksRunner
    (DefaultDatadogAgentSpecClusterChecksRunner clc).1
  = ((DefaultDatadogAgentSpecClusterChecksRunner clc).1, zero).
Proof.
  intros Hnz.
  assert (IsEqualStruct clc zero = false) as Hz by by apply IsEqualStruct_false.
  assert (IsEqualStruct (DefaultDatadogAgentSpecClusterChecksRunner clc).1 zero = false)
    as Hz1 by apply IsEqualStruct_false, ClusterChecksRunner_first_nonzero.
  unfold DefaultDatadogAgentSpecClusterChecksRunner at 1. rewrite Hz1.
  unfold DefaultDatadogAgentSpecClusterChecksRunner. rewrite Hz.
  cbn [andb fst snd clc_Enabled clc_Image clc_ContainerConfig clc_Rbac
       clc_NetworkPolicy].
  unfold DefaultDatadogAgentSpecClusterChecksRunnerImage,
    DefaultDatadogClusterCheckRunnerSpecRbacConfig,
    DefaultClusterCheckRunnerNetworkPolicy.
  rewrite Image_idem by done.
  rewrite ClusterChecksRunnerConfig_idem, Rbac_idem, NetworkPolicy_idem,
    orDefault_idem.
  cbn [fst snd]. by rewrite !unlessEmpty_zero.
Qed.

(** X9: a cluster-check runner of which the user has set any field is
    defaulted in full, whether it is enabled or not: [Enabled] is true unless
    the user has set it, and the image (with a name and a tag), the container
    configuration (with log level, health port and both probes), the RBAC
    and the network policy are present afterwards.  The disabled runner is
    not left as it is. *)
Theorem ClusterChecksRunner_defaulted_when_present clc :
  clc <> zero ->
  let after := (DefaultDatadogAgentSpecClusterChecksRunner clc).1 in
  clc_Enabled after = Some (default true (clc_Enabled clc))
  /\ (exists img,
        clc_Image after = Some img /\ img_Name img <> "" /\ img_Tag img <> ""
        /\ is_Some (img_PullPolicy img))
  /\ (exists container,
        clc_ContainerConfig after = Some container
        /\ is_Some (cc_LogLevel container) /\ is_Some (cc_HealthPort container)
        /\ is_Some (cc_LivenessProbe container)
        /\ is_Some (cc_ReadinessProbe container))
  /\ (exists rbac, clc_Rbac after = Some rbac /\ is_Some (rbac_Create rbac))
  /\ (exists policy, clc_NetworkPolicy after = Some policy /\ is_Some (np_Create policy)).
Proof.
  intros Hnz.
  assert (IsEqualStruct clc zero = false) as Hz by by apply IsEqualStruct_false.
  unfold DefaultDatadogAgentSpecClusterChecksRunner. rewrite Hz.
  cbn [andb fst snd clc_Enabled clc_Image clc_ContainerConfig clc_Rbac
       clc_NetworkPolicy].
  split; [apply orDefault_Some|]. split.
  { eexists. split; [done|].
    unfold DefaultDatadogAgentSpecClusterChecksRunnerImage,
      DefaultDatadogAgentSpecAgentImage, orDefaultString. simpl.
    split; [|split].
    - by destruct (String.eqb_spec (img_Name (default zero (clc_Image clc))) "").
    - by destruct (String.eqb_spec (img_Tag (default zero (clc_Image clc))) "").
    - rewrite orDefault_Some. by eexists. }
  split.
  { eexists. split; [done|]. simpl. rewrite !orDefault_Some. by repeat split; eexists. }
  split.
  - destruct (clc_Rbac clc) as [[create]|]; simpl; eexists; split; try done;
      rewrite orDefault_Some; by eexists.
  - destruct (clc_NetworkPolicy clc) as [[create]|]; simpl; eexists; split; try done;
      rewrite orDefault_Some; by eexists.
Qed.

(** X10: the defaulting of the cluster-check runner settles after two
    runs at most.  On a runner of which the user has set any field a second
    run changes nothing and returns an empty override.  On the empty runner
    the first run does no more than disable it, the second run defaults the
    disabled runner in full, and a third run changes nothing. *)
Theorem ClusterChecksRunner_settles clc :
  let first := (DefaultDatadogAgentSpecClusterChecksRunner clc).1 in
  let second := (DefaultDatadogAgentSpecClusterChecksRunner first).1 in
  (clc <> zero ->
   DefaultDatadogAgentSpecClusterChecksRunner first = (first, zero))
  /\ (clc = zero ->
      first = set_clc_Enabled (Some false) zero /\ second <> first)
  /\ DefaultDatadogAgentSpecClusterChecksRunner second = (second, zero).
Proof.
  split; [apply ClusterChecksRunner_idem|]. split.
  - intros ->. split; [done|]. intros Heq.
    apply (f_equal clc_Image) in Heq. by vm_compute in Heq.
  - apply ClusterChecksRunner_idem, ClusterChecksRunner_first_nonzero.
Qed.

(** ** What an enabled component holds after the pass *)

(** X11: after its defaulting the APM agent, the system probe and the
    process agent have their [Enabled] decided, and one that is enabled is
    configured in full: the APM agent has a host port, a liveness probe and
    a socket configuration whose [Enabled] is decided and which, when
    enabled, has a host path; the system probe has its five flags decided
    and its three names filled; the process agent has process collection
    decided. *)
Theorem enabled_subcomponent_configured (apm : option APMSpec)
    (systemProbe : option SystemProbeSpec) (process : option ProcessSpec) :
  let a := (DefaultDatadogAgentSpecAgentApm apm).1 in
  let sp := (DefaultDatadogAgentSpecAgentSystemProbe systemProbe).1 in
  let p := (DefaultDatadogAgentSpecAgentProcess process).1 in
  (is_Some (apm_Enabled a)
   /\ (BoolValue (apm_Enabled a) = true ->
       is_Some (apm_HostPort a)
       /\ is_Some (cc_LivenessProbe (apm_ContainerConfig a))
       /\ exists uds,
            apm_UnixDomainSocket a = Some uds
            /\ is_Some (apmuds_Enabled uds)
            /\ (BoolValue (apmuds_Enabled uds) = true ->
                is_Some (apmuds_HostFilepath uds))))
  /\ (is_Some (sp_Enabled sp)
      /\ (BoolValue (sp_Enabled sp) = true ->
          is_Some (sp_EnableOOMKill sp)
          /\ is_Some (sp_EnableTCPQueueLength sp)
          /\ is_Some (sp_BPFDebugEnabled sp)
          /\ is_Some (sp_CollectDNSStats sp)
          /\ is_Some (sp_ConntrackEnabled sp)
          /\ sp_SecCompRootPath sp <> ""
          /\ sp_AppArmorProfileName sp <> ""
          /\ sp_SecCompProfileName sp <> ""))
  /\ (is_Some (proc_Enabled p)
      /\ (BoolValue (proc_Enabled p) = true ->
          is_Some (proc_ProcessCollectionEnabled p))).
Proof.
  split; [|split].
  - destruct apm as [[[[]|] port container uds]|]; simpl;
      (split; [by eexists|]); try done; intros _;
      rewrite !orDefault_Some; (split; [by eexists|]); (split; [by eexists|]);
      eexists; (split; [done|]);
      destruct uds as [[[[]|] path]|]; simpl; (split; [by eexists|]); try done;
      intros _; rewrite orDefault_Some; by eexists.
  - destruct systemProbe as [[[[]|] ? ? ? ? ? root armor seccomp]|]; simpl;
      (split; [by eexists|]); try done; intros _;
      rewrite !orDefault_Some; unfold orDefaultString;
      repeat (split; [by eexists|]);
      repeat split.
    all: match goal with
         | |- (if String.eqb ?s "" then _ else _).1 <> "" =>
             by destruct (String.eqb_spec s "")
         end.
  - destruct process as [[[[]|] collection]|]; simpl;
      (split; [by eexists|]); try done; intros _;
      rewrite orDefault_Some; by eexists.
Qed.

(** X12: after its defaulting a feature has its [Enabled] decided, and one
    that is enabled is configured in full: log collection has its two
    flags, its four paths and its limit of open files; the Prometheus scrape
    has [ServiceEndpoints]; the orchestrator explorer, when its defaulting
    returns, has [ClusterCheck] and a scrubbing configuration with
    [Containers]; the external metrics server of the cluster agent has a
    port. *)
Theorem enabled_feature_configured (logCollection : option LogCollectionConfig)
    (prom : option PrometheusScrapeConfig) (orch : option OrchestratorExplorerConfig)
    (withClusterChecksRunner : bool) (externalMetrics : option ExternalMetricsConfig) :
  let l := (DefaultDatadogFeatureLogCollection logCollection).1 in
  let p := (DefaultDatadogFeaturePrometheusScrape prom).1 in
  let em := (DefaultExternalMetrics externalMetrics).1 in
  (is_Some (log_Enabled l)
   /\ (BoolValue (log_Enabled l) = true ->
       is_Some (log_LogsConfigContainerCollectAll l)
       /\ is_Some (log_ContainerCollectUsingFiles l)
       /\ is_Some (log_ContainerLogsPath l)
       /\ is_Some (log_PodLogsPath l)
       /\ is_Some (log_ContainerSymlinksPath l)
       /\ is_Some (log_TempStoragePath l)
       /\ is_Some (log_OpenFilesLimit l)))
  /\ (is_Some (prom_Enabled p)
      /\ (BoolValue (prom_Enabled p) = true -> is_Some (prom_ServiceEndpoints p)))
  /\ (forall o override,
        DefaultDatadogFeatureOrchestratorExplorer orch withClusterChecksRunner
        = Some (o, override) ->
        is_Some (oe_Enabled o)
        /\ (BoolValue (oe_Enabled o) = true ->
            is_Some (oe_ClusterCheck o)
            /\ exists scrubbing,
                 oe_Scrubbing o = Some scrubbing
                 /\ is_Some (scrub_Containers scrubbing)))
  /\ (is_Some (em_Enabled em)
      /\ (BoolValue (em_Enabled em) = true -> is_Some (em_Port em))).
Proof.
  split; [|split; [|split]].
  - destruct logCollection as [[[[]|] ? ? ? ? ? ? ?]|]; simpl;
      (split; [by eexists|]); try done; intros _;
      rewrite !orDefault_Some; by repeat split; eexists.
  - destruct prom as [[[[]|] ?]|]; simpl;
      (split; [by eexists|]); try done; intros _;
      rewrite ?orDefault_Some; by eexists.
  - intros o override.
    unfold DefaultDatadogFeatureOrchestratorExplorer,
      defaultEnabledDatadogFeatureOrchestratorExplorer.
    destruct orch as [[[[]|] clusterCheck [[[[]|]]|]]|]; simpl; intros [= <- <-];
      simpl; (split; [by eexists|]); try done; intros _;
      rewrite ?orDefault_Some; (split; [by eexists|]);
      eexists; (split; [done|]); by eexists.
  - destruct externalMetrics as [[[[]|] [port|]]|]; simpl;
      (split; [by eexists|]); try done; intros _; by eexists.
Qed.

(** ** The cross-feature overrides *)

(** X13: a call of [FeatureOverride] that returns touches nothing but the
    system probe and the process agent of the node agent, in the spec and in
    the override alike.  With network monitoring enabled and a system probe
    present, the system probe is enabled afterwards in both, whatever its
    [Enabled] was, also when the user had set it to false; otherwise the
    system probe is as it was in both.  The same holds of the orchestrator
    explorer and the process agent. *)
Theorem FeatureOverride_frame_and_force (dda dso dda' dso' : DatadogAgentSpec) :
  FeatureOverride dda dso = Some (dda', dso') ->
  set_spec_Agent (withoutProbes (spec_Agent dda')) dda'
  = set_spec_Agent (withoutProbes (spec_Agent dda)) dda
  /\ set_spec_Agent (withoutProbes (spec_Agent dso')) dso'
     = set_spec_Agent (withoutProbes (spec_Agent dso)) dso
  /\ (if networkMonitoringEnabled (spec_Features dda)
         && isSome (agent_SystemProbe (spec_Agent dda))
      then agent_SystemProbe (spec_Agent dda') ≫= sp_Enabled = Some true
           /\ agent_SystemProbe (spec_Agent dso') ≫= sp_Enabled = Some true
      else agent_SystemProbe (spec_Agent dda') = agent_SystemProbe (spec_Agent dda)
           /\ agent_SystemProbe (spec_Agent dso') = agent_SystemProbe (spec_Agent dso))
  /\ (if orchestratorExplorerEnabled (spec_Features dda)
         && isSome (agent_Process (spec_Agent dda))
      then agent_Process (spec_Agent dda') ≫= proc_Enabled = Some true
           /\ agent_Process (spec_Agent dso') ≫= proc_Enabled = Some true
      else agent_Process (spec_Agent dda') = agent_Process (spec_Agent dda)
           /\ agent_Process (spec_Agent dso') = agent_Process (spec_Agent dso)).
Proof.
  destruct dda as [cred ft [en eds img na rbac strat apm sp sec proc net] dca clc].
  destruct dso as [cred' ft' [en' eds' img' na' rbac' strat' apm' sp' sec' proc' net']
                     dca' clc'].
  unfold FeatureOverride, withoutProbes. simpl.
  destruct (networkMonitoringEnabled ft), en as [[]|], sp as [systemProbe|];
    simpl; try discriminate;
    destruct (orchestratorExplorerEnabled ft), proc as [process|]; simpl;
    intros Heq; try discriminate; by injection Heq as <- <-.
Qed.

(** ** When the pass faults *)

Lemma FeatureOverride_None (spec dso : DatadogAgentSpec) :
  FeatureOverride spec dso = None <-> overrideFaults spec = true.
Proof.
  destruct spec as [cred ft [en eds img na rbac strat apm sp sec proc net] dca clc].
  unfold FeatureOverride, overrideFaults. simpl.
  destruct (networkMonitoringEnabled ft), en as [[]|], sp as [systemProbe|];
    simpl; try done;
    destruct (orchestratorExplorerEnabled ft), proc as [process|]; simpl; done.
Qed.

Lemma FeatureOverride_frame (spec dso spec' dso' : DatadogAgentSpec) :
  FeatureOverride spec dso = Some (spec', dso') ->
  spec_Credentials spec' = spec_Credentials spec
  /\ spec_Features spec' = spec_Features spec
  /\ spec_ClusterAgent spec' = spec_ClusterAgent spec
  /\ spec_ClusterChecksRunner spec' = spec_ClusterChecksRunner spec
  /\ withoutProbes (spec_Agent spec') = withoutProbes (spec_Agent spec).
Proof.
  destruct spec as [cred ft [en eds img na rbac strat apm sp sec proc net] dca clc].
  unfold FeatureOverride, withoutProbes. simpl.
  destruct (networkMonitoringEnabled ft), en as [[]|], sp as [systemProbe|];
    simpl; try discriminate;
    destruct (orchestratorExplorerEnabled ft), proc as [process|]; simpl;
    intros Heq; try discriminate; by injection Heq as <- <-.
Qed.

Lemma withoutProbes_fields (agent agent' : DatadogAgentSpecAgentSpec) :
  withoutProbes agent' = withoutProbes agent ->
  agent_Enabled agent' = agent_Enabled agent
  /\ agent_Security agent' = agent_Security agent.
Proof.
  intros Heq. split.
  - by apply (f_equal agent_Enabled) in Heq.
  - by apply (f_equal agent_Security) in Heq.
Qed.

Lemma DefaultFeatures_None (dda : DatadogAgent) :
  DefaultFeatures dda = None <-> scrubbingFaults (spec_Features (Spec dda)) = true.
Proof.
  unfold DefaultFeatures, scrubbingFaults, DefaultDatadogFeatureOrchestratorExplorer,
    defaultEnabledDatadogFeatureOrchestratorExplorer.
  destruct (default zero (ft_OrchestratorExplorer (spec_Features (Spec dda))))
    as [[[]|] clusterCheck [[[containers|]]|]]; simpl; done.
Qed.

Lemma DefaultFeatures_frame (dda dda' : DatadogAgent) (features : DatadogFeatures) :
  DefaultFeatures dda = Some (dda', features) ->
  spec_Credentials (Spec dda') = spec_Credentials (Spec dda)
  /\ spec_Agent (Spec dda') = spec_Agent (Spec dda)
  /\ spec_ClusterAgent (Spec dda') = spec_ClusterAgent (Spec dda)
  /\ spec_ClusterChecksRunner (Spec dda') = spec_ClusterChecksRunner (Spec dda).
Proof.
  unfold DefaultFeatures.
  destruct (DefaultDatadogFeatureOrchestratorExplorer _ _); [|done].
  by intros [= <- _].
Qed.

Lemma ClusterAgent_None (dca : DatadogAgentSpecClusterAgentSpec) :
  DefaultDatadogAgentSpecClusterAgent dca = None <-> customConfigFaults dca = true.
Proof.
  unfold DefaultDatadogAgentSpecClusterAgent, customConfigFaults.
  destruct (IsEqualStruct dca zero) eqn:Hz.
  - apply IsEqualStruct_true in Hz as ->. by vm_compute.
  - unfold DefaultDatadogAgentSpecClusterAgentConfig.
    destruct dca as [[[]|] img [config|] [custom|] rbac net]; simpl; done.
Qed.

Section Faults.

Variable DefaultExtendedDaemonSetSpecStrategyCanary :
  ExtendedDaemonSetSpecStrategyCanary -> ExtendedDaemonSetSpecStrategyCanary.
Variable GetTagFromImageName : string -> string.
Variable Version : Type.
Variable NewVersion : string -> option Version.
Variable versionLeb : Version -> Version -> bool.

Abbreviation defaultPass :=
  (DefaultDatadogAgent DefaultExtendedDaemonSetSpecStrategyCanary
     GetTagFromImageName Version NewVersion versionLeb).
Abbreviation defaultNodeAgent :=
  (DefaultDatadogAgentSpecAgent DefaultExtendedDaemonSetSpecStrategyCanary
     GetTagFromImageName Version NewVersion versionLeb).

Lemma Agent_None (agent : DatadogAgentSpecAgentSpec) :
  defaultNodeAgent agent = None <-> syscallMonitorFaults agent = true.
Proof.
  unfold DefaultDatadogAgentSpecAgent, syscallMonitorFaults.
  destruct (IsEqualStruct agent zero) eqn:Hz.
  - apply IsEqualStruct_true in Hz as ->.
    unfold DefaultDatadogAgentSpecAgentConfig. by simpl.
  - unfold DefaultDatadogAgentSpecAgentConfig, DefaultDatadogAgentSpecAgentSecurity.
    destruct agent as [[[]|] eds img na rbac strat apm sp
                         [[compliance [runtime [[[enabled|]]|]]]|] proc net];
      simpl; done.
Qed.


End Faults.

(** ** What a pass that returns leaves behind *)

Lemma DefaultFeatures_decided (dda dda' : DatadogAgent) (features : DatadogFeatures) :
  DefaultFeatures dda = Some (dda', features) ->
  featuresDecided (spec_Features (Spec dda')).
Proof.
  unfold DefaultFeatures, DefaultDatadogFeatureOrchestratorExplorer,
    defaultEnabledDatadogFeatureOrchestratorExplorer, featuresDecided.
  destruct (spec_Features (Spec dda)) as [orch ksm prom l net].
  cbn [ft_OrchestratorExplorer ft_KubeStateMetricsCore ft_PrometheusScrape
       ft_LogCollection ft_NetworkMonitoring].
  destruct (default zero orch) as [[[]|] clusterCheck [[[containers|]]|]];
    simpl; intros Heq; try discriminate; injection Heq as <- _; simpl.
  all: split; [by eexists|].
  all: split; [by destruct ksm as [[[]]|]; eexists|].
  all: split; [by destruct prom as [[[[]|] ?]|]; eexists|].
  all: split; [by destruct l as [[[[]|] ? ? ? ? ? ? ?]|]; eexists|].
  all: by destruct net as [[[]]|]; eexists.
Qed.

Lemma ClusterAgent_allocated (dca dca' override : DatadogAgentSpecClusterAgentSpec) :
  DefaultDatadogAgentSpecClusterAgent dca = Some (dca', override) ->
  is_Some (dca_Enabled dca')
  /\ (BoolValue (dca_Enabled dca') = true -> clusterAgentAllocated dca').
Proof.
  unfold DefaultDatadogAgentSpecClusterAgent, clusterAgentAllocated.
  destruct (IsEqualStruct dca zero) eqn:Hz.
  - apply IsEqualStruct_true in Hz as ->. simpl. intros [= <- _]. simpl.
    split; [by eexists|]. intros _. by repeat split; eexists.
  - unfold DefaultDatadogAgentSpecClusterAgentConfig.
    destruct dca as [[[]|] img [config|] [custom|] [rbac|] [net|]]; simpl;
      intros Heq; try discriminate; injection Heq as <- _; simpl;
      (split; [by eexists|]); try done; intros _; by repeat split; eexists.
Qed.

Section Decided.

Variable DefaultExtendedDaemonSetSpecStrategyCanary :
  ExtendedDaemonSetSpecStrategyCanary -> ExtendedDaemonSetSpecStrategyCanary.
Variable GetTagFromImageName : string -> string.
Variable Version : Type.
Variable NewVersion : string -> option Version.
Variable versionLeb : Version -> Version -> bool.

Lemma Agent_allocated (agent agent' override : DatadogAgentSpecAgentSpec) :
  DefaultDatadogAgentSpecAgent DefaultExtendedDaemonSetSpecStrategyCanary
    GetTagFromImageName Version NewVersion versionLeb agent
  = Some (agent', override) ->
  is_Some (agent_Enabled agent')
  /\ (BoolValue (agent_Enabled agent') = true -> agentAllocated agent').
Proof.
  unfold DefaultDatadogAgentSpecAgent, agentAllocated.
  destruct (IsEqualStruct agent zero) eqn:Hz.
  - apply IsEqualStruct_true in Hz as ->.
    unfold DefaultDatadogAgentSpecAgentConfig. simpl. intros [= <- _]. simpl.
    split; [by eexists|]. intros _. by repeat split; eexists.
  - unfold DefaultDatadogAgentSpecAgentConfig, DefaultDatadogAgentSpecAgentSecurity.
    destruct agent as [[[]|] [eds|] img na [rbac|] strat apm sp
                         [[compliance [runtime [[[enabled|]]|]]]|] proc [net|]];
      simpl; intros Heq; try discriminate; injection Heq as <- _; simpl;
      (split; [by eexists|]); try done; intros _; by repeat split; eexists.
Qed.


End Decided.

(** ** What the status does not tell *)

Lemma FeatureOverride_forced (spec dso spec' dso' : DatadogAgentSpec) :
  FeatureOverride spec dso = Some (spec', dso') ->
  (forall systemProbe,
     networkMonitoringEnabled (spec_Features spec) = true ->
     agent_SystemProbe (spec_Agent spec) = Some systemProbe ->
     agent_SystemProbe (spec_Agent spec')
     = Some (DefaultDatadogAgentSpecAgentSystemProbe
               (Some (set_sp_Enabled (Some true) systemProbe))).1)
  /\ (forall process,
        orchestratorExplorerEnabled (spec_Features spec) = true ->
        agent_Process (spec_Agent spec) = Some process ->
        agent_Process (spec_Agent spec')
        = Some (DefaultDatadogAgentSpecAgentProcess
                  (Some (set_proc_Enabled (Some true) process))).1).
Proof.
  destruct spec as [cred ft [en eds img na rbac strat apm sp sec proc net] dca clc].
  unfold FeatureOverride. simpl.
  destruct (networkMonitoringEnabled ft), en as [[]|], sp as [systemProbe|];
    simpl; try discriminate;
    destruct (orchestratorExplorerEnabled ft), proc as [process|]; simpl;
    intros Heq; try discriminate; injection Heq as <- <-; simpl;
    split; intros ? ? Hsome; try discriminate; by injection Hsome as <-.
Qed.

Lemma SystemProbe_forced_settled systemProbe :
  let forced :=
    (DefaultDatadogAgentSpecAgentSystemProbe
       (Some (set_sp_Enabled (Some true) systemProbe))).1 in
  DefaultDatadogAgentSpecAgentSystemProbe (Some forced) = (forced, zero)
  /\ sp_Enabled forced = Some true.
Proof. split; [apply SystemProbe_idem|done]. Qed.

Lemma Process_forced_settled process :
  let forced :=
    (DefaultDatadogAgentSpecAgentProcess
       (Some (set_proc_Enabled (Some true) process))).1 in
  DefaultDatadogAgentSpecAgentProcess (Some forced) = (forced, zero)
  /\ proc_Enabled forced = Some true.
Proof. split; [apply Process_idem|done]. Qed.

Section Status.

Variable DefaultExtendedDaemonSetSpecStrategyCanary :
  ExtendedDaemonSetSpecStrategyCanary -> ExtendedDaemonSetSpecStrategyCanary.
Variable GetTagFromImageName : string -> string.
Variable Version : Type.
Variable NewVersion : string -> option Version.
Variable versionLeb : Version -> Version -> bool.

(** A subtree of the node agent that a second run of its defaulting leaves
    alone is as it was after the defaulting of the node agent, and absent
    from the override. *)
Lemma Agent_settled_subtrees (agent agent' override : DatadogAgentSpecAgentSpec) :
  DefaultDatadogAgentSpecAgent DefaultExtendedDaemonSetSpecStrategyCanary
    GetTagFromImageName Version NewVersion versionLeb agent
  = Some (agent', override) ->
  (forall systemProbe,
     agent_SystemProbe agent = Some systemProbe ->
     DefaultDatadogAgentSpecAgentSystemProbe (Some systemProbe) = (systemProbe, zero) ->
     agent_SystemProbe agent' = Some systemProbe
     /\ agent_SystemProbe override = None)
  /\ (forall process,
        agent_Process agent = Some process ->
        DefaultDatadogAgentSpecAgentProcess (Some process) = (process, zero) ->
        agent_Process agent' = Some process /\ agent_Process override = None).
Proof.
  unfold DefaultDatadogAgentSpecAgent.
  destruct (IsEqualStruct agent zero) eqn:Hz.
  - apply IsEqualStruct_true in Hz as ->. intros _. by split.
  - cbn [andb].
    destruct (negb (BoolValue (orDefault (agent_Enabled agent) defaultAgentEnabled).1)).
    + intros [= <- <-]. by split.
    + destruct (DefaultDatadogAgentSpecAgentConfig _ _ _ _ _ _) as [cfg|]; [|done].
      destruct (DefaultDatadogAgentSpecAgentSecurity _) as [sec|]; [|done].
      intros [= <- <-]. cbn [agent_SystemProbe agent_Process].
      split; intros sub -> ->; cbn [fst snd]; by rewrite unlessEmpty_zero.
Qed.



End Status.

(** ** The admission controller of the cluster agent *)

(** X18: an admission controller that is absent is disabled and nothing
    more: it has no [MutateUnlabelled] and no [ServiceName] afterwards.  One
    that is present has both afterwards, whether it is enabled or not, and a
    second run leaves it alone.  So a second run on the result for an absent
    admission controller still changes something, it fills those two
    fields, and only the third run changes nothing. *)
Theorem AdmissionController_settles_in_two
    (admissionController : option AdmissionControllerConfig) :
  let first := (DefaultAdmissionController admissionController).1 in
  let second := (DefaultAdmissionController (Some first)).1 in
  (admissionController = None ->
   first = {| ac_Enabled := Some false;
              ac_MutateUnlabelled := None;
              ac_ServiceName := None |}
   /\ second = {| ac_Enabled := Some false;
                  ac_MutateUnlabelled := Some false;
                  ac_ServiceName := Some "datadog-admission-controller" |})
  /\ (is_Some admissionController ->
      is_Some (ac_Enabled first) /\ is_Some (ac_MutateUnlabelled first)
      /\ is_Some (ac_ServiceName first)
      /\ DefaultAdmissionController (Some first) = (first, zero))
  /\ DefaultAdmissionController (Some second) = (second, zero).
Proof.
  split; [by intros ->|]. split.
  - intros [[enabled mutate service] ->]. simpl. rewrite !orDefault_Some.
    by repeat split; eexists.
  - destruct admissionController as [[enabled mutate service]|]; idem.
Qed.

(** ** Images of the JMX flavour *)

Lemma length_append (s t : string) :
  String.length (s +:+ t) = (String.length s + String.length t)%nat.
Proof. induction s as [|c s IH]; simpl; [done|]. by rewrite IH. Qed.

Lemma substring_full (s : string) : substring 0 (String.length s) s = s.
Proof. induction s as [|c s IH]; simpl; [done|]. by rewrite IH. Qed.

Lemma substring_append_r (s t : string) :
  substring (String.length s) (String.length t) (s +:+ t) = t.
Proof. induction s as [|c s IH]; simpl; [apply substring_full|done]. Qed.

Lemma substring_append_l (s t : string) :
  substring 0 (String.length s) (s +:+ t) = s.
Proof.
  induction s as [|c s IH]; simpl; [by destruct t|]. by rewrite IH.
Qed.

Lemma TrimSuffix_append (s suffix : string) : TrimSuffix (s +:+ suffix) suffix = s.
Proof.
  unfold TrimSuffix. rewrite length_append.
  replace (String.length s + String.length suffix - String.length suffix)%nat
    with (String.length s) by lia.
  rewrite substring_append_r, substring_append_l, String.eqb_refl.
  by rewrite (proj2 (Nat.leb_le _ _)) by lia.
Qed.

Section Jmx.

Variable GetTagFromImageName : string -> string.
Variable Version : Type.
Variable NewVersion : string -> option Version.
Variable versionLeb : Version -> Version -> bool.

(** X19: the JMX flavour of an image is defaulted like the image itself.
    When the tag of one image is the tag of another followed by [-jmx], and
    that other tag does not end in [-jmx] itself, the defaulting of the node
    agent configuration returns the same configuration and the same
    override for both images; the decision about the Docker socket is the
    same in particular. *)
Theorem jmx_image_defaulted_alike (img img' : ImageConfig)
    (nodeAgent : option NodeAgentSpec) :
  TrimSuffix (GetTagFromImageName (img_Name img)) "-jmx"
  = GetTagFromImageName (img_Name img) ->
  GetTagFromImageName (img_Name img')
  = GetTagFromImageName (img_Name img) +:+ "-jmx" ->
  agentTagOf GetTagFromImageName img' = agentTagOf GetTagFromImageName img
  /\ DefaultDatadogAgentSpecAgentConfig GetTagFromImageName Version NewVersion
       versionLeb (Some img') nodeAgent
     = DefaultDatadogAgentSpecAgentConfig GetTagFromImageName Version NewVersion
         versionLeb (Some img) nodeAgent.
Proof.
  intros Hplain Hjmx.
  assert (agentTagOf GetTagFromImageName img' = agentTagOf GetTagFromImageName img)
    as Htag.
  { unfold agentTagOf. by rewrite Hjmx, TrimSuffix_append, Hplain. }
  split; [done|]. unfold DefaultDatadogAgentSpecAgentConfig. by rewrite Htag.
Qed.

End Jmx.

(** ** On concrete specs *)

(** X7 on a disabled node agent with an image, and on a disabled cluster
    agent. *)
Lemma disabled_component_untouched_example :
  exampleDefaultAgent disabledAgent = Some (disabledAgent, zero)
  /\ DefaultDatadogAgentSpecClusterAgent (set_dca_Enabled (Some false) zero)
     = Some (set_dca_Enabled (Some false) zero, zero).
Proof.
  destruct (disabled_component_untouched exampleCanaryDefaults
              exampleGetTagFromImageName (list nat) exampleNewVersion
              exampleVersionLeb disabledAgent (set_dca_Enabled (Some false) zero))
    as [Hagent Hdca].
  split; [by apply Hagent|by apply Hdca].
Defined.

(** X8 on disabled sub-components that hold one more field. *)
Lemma disabled_subcomponent_untouched_example :
  DefaultDatadogAgentSpecAgentApm (Some disabledApm) = (disabledApm, zero)
  /\ DefaultDatadogAgentSpecAgentSystemProbe (Some disabledProbe) = (disabledProbe, zero)
  /\ DefaultDatadogAgentSpecAgentProcess (Some disabledProcess) = (disabledProcess, zero)
  /\ DefaultDatadogFeatureLogCollection (Some disabledLogCollection)
     = (disabledLogCollection, logEcho disabledLogCollection).
Proof.
  destruct (disabled_subcomponent_untouched disabledApm disabledProbe
              disabledProcess disabledLogCollection)
    as (Hapm & Hprobe & Hproc & Hlog).
  split; [by apply Hapm|]. split; [by apply Hprobe|].
  split; [by apply Hproc|by apply Hlog].
Defined.

(** X9 on the disabled runner: it stays disabled and receives an image. *)
Lemma ClusterChecksRunner_defaulted_when_present_example :
  clc_Enabled (DefaultDatadogAgentSpecClusterChecksRunner disabledRunner).1
  = Some false
  /\ exists img,
       clc_Image (DefaultDatadogAgentSpecClusterChecksRunner disabledRunner).1
       = Some img
       /\ img_Name img <> "" /\ img_Tag img <> "".
Proof.
  destruct (ClusterChecksRunner_defaulted_when_present disabledRunner)
    as (Hen & (img & Himg & Hname & Htag & _) & _); [done|].
  split; [exact Hen|]. by exists img.
Defined.

(** X10 on the empty runner. *)
Lemma ClusterChecksRunner_settles_example :
  (DefaultDatadogAgentSpecClusterChecksRunner zero).1 = disabledRunner
  /\ (DefaultDatadogAgentSpecClusterChecksRunner disabledRunner).1 <> disabledRunner
  /\ DefaultDatadogAgentSpecClusterChecksRunner
       (DefaultDatadogAgentSpecClusterChecksRunner disabledRunner).1
     = ((DefaultDatadogAgentSpecClusterChecksRunner disabledRunner).1, zero).
Proof.
  destruct (ClusterChecksRunner_settles zero) as (_ & Hzero & Hsettled).
  destruct (Hzero eq_refl) as [Hfirst Hsecond].
  split; [exact Hfirst|]. split; [exact Hsecond|exact Hsettled].
Defined.

(** X11 on an APM agent that the user has enabled and says nothing else
    about. *)
Lemma enabled_subcomponent_configured_example :
  apm_HostPort (DefaultDatadogAgentSpecAgentApm (Some enabledApm)).1 = Some 8126%Z
  /\ is_Some (apm_UnixDomainSocket (DefaultDatadogAgentSpecAgentApm (Some enabledApm)).1).
Proof.
  destruct (enabled_subcomponent_configured (Some enabledApm) None None)
    as ((_ & Hapm) & _).
  destruct Hapm as (_ & _ & uds & Huds & _); [done|].
  split; [done|]. by exists uds.
Defined.

(** X12 on log collection that the user has enabled with a path of their
    own. *)
Lemma enabled_feature_configured_example :
  log_ContainerLogsPath
    (DefaultDatadogFeatureLogCollection (Some enabledLogCollection)).1
  = Some "/custom"
  /\ is_Some (log_PodLogsPath
                (DefaultDatadogFeatureLogCollection (Some enabledLogCollection)).1).
Proof.
  destruct (enabled_feature_configured (Some enabledLogCollection) None None false None)
    as ((_ & Hlog) & _).
  destruct Hlog as (_ & _ & _ & Hpod & _); [done|].
  split; [done|exact Hpod].
Defined.

(** X13 on [probesDisabledByUser]: the system probe and the process agent
    that the user had disabled are enabled. *)
Lemma FeatureOverride_frame_and_force_example :
  exists dda' dso',
    FeatureOverride probesDisabledByUser zero = Some (dda', dso')
    /\ agent_SystemProbe (spec_Agent probesDisabledByUser) ≫= sp_Enabled = Some false
    /\ agent_SystemProbe (spec_Agent dda') ≫= sp_Enabled = Some true
    /\ agent_Process (spec_Agent dda') ≫= proc_Enabled = Some true
    /\ spec_Features dda' = spec_Features probesDisabledByUser.
Proof.
  destruct (FeatureOverride probesDisabledByUser zero) as [[dda' dso']|] eqn:Hrun;
    [|by vm_compute in Hrun].
  destruct (FeatureOverride_frame_and_force _ _ _ _ Hrun)
    as (Hframe & _ & [Hprobe _] & [Hprocess _]).
  exists dda', dso'. split; [done|]. split; [done|].
  split; [exact Hprobe|]. split; [exact Hprocess|].
  by apply (f_equal spec_Features) in Hframe.
Defined.




(** X18 on the absent admission controller. *)
Lemma AdmissionController_settles_in_two_example :
  ac_ServiceName (DefaultAdmissionController None).1 = None
  /\ ac_ServiceName
       (DefaultAdmissionController (Some (DefaultAdmissionController None).1)).1
     = Some "datadog-admission-controller".
Proof.
  destruct (AdmissionController_settles_in_two None) as [Hnone _].
  destruct (Hnone eq_refl) as [Hfirst Hsecond].
  split; [by rewrite Hfirst|by rewrite Hsecond].
Defined.

(** X19 on agent 6.20.1 and its JMX flavour. *)
Lemma jmx_image_defaulted_alike_example :
  agentTagOf exampleGetTagFromImageName oldImage = "6.20.1"
  /\ exampleDefaultAgentConfig (Some oldImage) None
     = exampleDefaultAgentConfig (Some plainImage) None.
Proof.
  destruct (jmx_image_defaulted_alike exampleGetTagFromImageName (list nat)
              exampleNewVersion exampleVersionLeb plainImage oldImage None)
    as [Htag Hsame]; [by vm_compute|by vm_compute|].
  split; [|exact Hsame]. rewrite Htag. by vm_compute.
Defined.

End defaulting_facts.

(** * The defaulting pass: what the user has set is kept *)

Module kept_facts.
Import v1alpha1 v1alpha1_facts defaulting_facts.

(** ** Kept fields

    A relation between a struct before a defaulting function, the struct
    after it and the override the function returns.  It says of every field
    the user has set, at any depth, that the field is afterwards as it was
    and that the override does not hold it. *)

Definition Kept (S : Type) : Type := S -> S -> S -> Prop.

(** A pointer to a value that the pass treats as a whole. *)
Definition keptLeaf {V} : Kept (option V) :=
  fun before after shadow => is_Some before -> after = before /\ shadow = None.

(** A string, which is unset when it is empty. *)
Definition keptString : Kept string :=
  fun before after shadow => before <> "" -> after = before /\ shadow = "".

(** A pointer to a struct: a struct that the user has given is still there,
    and its fields are kept; an override without the struct holds none of
    its fields. *)
Definition keptPtr {S} `{Zero S} (kept : Kept S) : Kept (option S) :=
  fun before after shadow =>
    forall b, before = Some b ->
              exists a, after = Some a /\ kept b a (default zero shadow).

(** The relation [kept] on a field of a struct, and a list of relations
    together. *)
Definition onField {S V} (field : S -> V) (kept : Kept V) : Kept S :=
  fun before after shadow => kept (field before) (field after) (field shadow).

Definition allOf {S} (fields : list (Kept S)) : Kept S :=
  fun before after shadow =>
    foldr (fun kept rest => kept before after shadow /\ rest) True fields.

Definition keptImageConfig : Kept ImageConfig :=
  allOf [ onField img_Name keptString;
          onField img_Tag keptString;
          onField img_PullPolicy keptLeaf;
          onField img_PullSecrets keptLeaf ].

Definition keptDatadogAgentGenericContainerConfig : Kept DatadogAgentGenericContainerConfig :=
  allOf [ onField cc_LogLevel keptLeaf;
          onField cc_Resources keptLeaf;
          onField cc_LivenessProbe keptLeaf;
          onField cc_ReadinessProbe keptLeaf;
          onField cc_HealthPort keptLeaf ].

Definition keptCRISocketConfig : Kept CRISocketConfig :=
  allOf [ onField cri_DockerSocketPath keptLeaf ].

Definition keptDSDUnixDomainSocketSpec : Kept DSDUnixDomainSocketSpec :=
  allOf [ onField dsduds_Enabled keptLeaf;
          onField dsduds_HostFilepath keptLeaf ].

Definition keptDogstatsdConfig : Kept DogstatsdConfig :=
  allOf [ onField dsd_DogstatsdOriginDetection keptLeaf;
          onField dsd_UnixDomainSocket (keptPtr keptDSDUnixDomainSocketSpec) ].

Definition keptNodeAgentSpec : Kept NodeAgentSpec :=
  allOf [ onField na_ContainerConfig keptDatadogAgentGenericContainerConfig;
          onField na_CollectEvents keptLeaf;
          onField na_LeaderElection keptLeaf;
          onField na_CriSocket (keptPtr keptCRISocketConfig);
          onField na_Dogstatsd (keptPtr keptDogstatsdConfig);
          onField na_PodLabelsAsTags keptLeaf;
          onField na_PodAnnotationsAsTags keptLeaf;
          onField na_Tags keptLeaf ].

Definition keptRbacConfig : Kept RbacConfig :=
  allOf [ onField rbac_Create keptLeaf ].

Definition keptDaemonSetRollingUpdateSpec : Kept DaemonSetRollingUpdateSpec :=
  allOf [ onField ru_MaxUnavailable keptLeaf;
          onField ru_MaxPodSchedulerFailure keptLeaf;
          onField ru_MaxParallelPodCreation keptLeaf;
          onField ru_SlowStartIntervalDuration keptLeaf;
          onField ru_SlowStartAdditiveIncrease keptLeaf ].

Definition keptDaemonSetDeploymentStrategy : Kept DaemonSetDeploymentStrategy :=
  allOf [ onField ds_UpdateStrategyType keptLeaf;
          onField ds_RollingUpdate keptDaemonSetRollingUpdateSpec;
          onField ds_Canary keptLeaf;
          onField ds_ReconcileFrequency keptLeaf ].

Definition keptAPMUnixDomainSocketSpec : Kept APMUnixDomainSocketSpec :=
  allOf [ onField apmuds_Enabled keptLeaf;
          onField apmuds_HostFilepath keptLeaf ].

Definition keptAPMSpec : Kept APMSpec :=
  allOf [ onField apm_Enabled keptLeaf;
          onField apm_HostPort keptLeaf;
          onField apm_ContainerConfig keptDatadogAgentGenericContainerConfig;
          onField apm_UnixDomainSocket (keptPtr keptAPMUnixDomainSocketSpec) ].

Definition keptSystemProbeSpec : Kept SystemProbeSpec :=
  allOf [ onField sp_Enabled keptLeaf;
          onField sp_EnableOOMKill keptLeaf;
          onField sp_EnableTCPQueueLength keptLeaf;
          onField sp_BPFDebugEnabled keptLeaf;
          onField sp_CollectDNSStats keptLeaf;
          onField sp_ConntrackEnabled keptLeaf;
          onField sp_SecCompRootPath keptString;
          onField sp_AppArmorProfileName keptString;
          onField sp_SecCompProfileName keptString ].

Definition keptSyscallMonitorSpec : Kept SyscallMonitorSpec :=
  allOf [ onField sm_Enabled keptLeaf ].

Definition keptComplianceSpec : Kept ComplianceSpec :=
  allOf [ onField comp_Enabled keptLeaf ].

Definition keptRuntimeSecuritySpec : Kept RuntimeSecuritySpec :=
  allOf [ onField rt_Enabled keptLeaf;
          onField rt_SyscallMonitor (keptPtr keptSyscallMonitorSpec) ].

Definition keptSecuritySpec : Kept SecuritySpec :=
  allOf [ onField sec_Compliance keptComplianceSpec;
          onField sec_Runtime keptRuntimeSecuritySpec ].

Definition keptProcessSpec : Kept ProcessSpec :=
  allOf [ onField proc_Enabled keptLeaf;
          onField proc_ProcessCollectionEnabled keptLeaf ].

Definition keptNetworkPolicySpec : Kept NetworkPolicySpec :=
  allOf [ onField np_Create keptLeaf ].

Definition keptDatadogAgentSpecAgentSpec : Kept DatadogAgentSpecAgentSpec :=
  allOf [ onField agent_Enabled keptLeaf;
          onField agent_UseExtendedDaemonset keptLeaf;
          onField agent_Image (keptPtr keptImageConfig);
          onField agent_NodeAgent (keptPtr keptNodeAgentSpec);
          onField agent_Rbac (keptPtr keptRbacConfig);
          onField agent_DeploymentStrategy (keptPtr keptDaemonSetDeploymentStrategy);
          onField agent_Apm (keptPtr keptAPMSpec);
          onField agent_SystemProbe (keptPtr keptSystemProbeSpec);
          onField agent_Security (keptPtr keptSecuritySpec);
          onField agent_Process (keptPtr keptProcessSpec);
          onField agent_NetworkPolicy (keptPtr keptNetworkPolicySpec) ].

Definition keptExternalMetricsConfig : Kept ExternalMetricsConfig :=
  allOf [ onField em_Enabled keptLeaf;
          onField em_Port keptLeaf ].

Definition keptAdmissionControllerConfig : Kept AdmissionControllerConfig :=
  allOf [ onField ac_Enabled keptLeaf;
          onField ac_MutateUnlabelled keptLeaf;
          onField ac_ServiceName keptLeaf ].

Definition keptFeaturesConfigClusterAgent : Kept FeaturesConfigClusterAgent :=
  allOf [ onField fca_ExternalMetrics (keptPtr keptExternalMetricsConfig);
          onField fca_ClusterChecksEnabled keptLeaf;
          onField fca_CollectEvents keptLeaf;
          onField fca_AdmissionController (keptPtr keptAdmissionControllerConfig) ].

Definition keptClusterAgentConfig : Kept ClusterAgentConfig :=
  allOf [ onField cac_ContainerConfig keptDatadogAgentGenericContainerConfig;
          onField cac_Features keptFeaturesConfigClusterAgent ].

Definition keptDatadogAgentSpecClusterAgentSpec : Kept DatadogAgentSpecClusterAgentSpec :=
  allOf [ onField dca_Enabled keptLeaf;
          onField dca_Image (keptPtr keptImageConfig);
          onField dca_Config (keptPtr keptClusterAgentConfig);
          onField dca_CustomConfig keptLeaf;
          onField dca_Rbac (keptPtr keptRbacConfig);
          onField dca_NetworkPolicy (keptPtr keptNetworkPolicySpec) ].

Definition keptDatadogAgentSpecClusterChecksRunnerSpec : Kept DatadogAgentSpecClusterChecksRunnerSpec :=
  allOf [ onField clc_Enabled keptLeaf;
          onField clc_Image (keptPtr keptImageConfig);
          onField clc_ContainerConfig (keptPtr keptDatadogAgentGenericContainerConfig);
          onField clc_Rbac (keptPtr keptRbacConfig);
          onField clc_NetworkPolicy (keptPtr keptNetworkPolicySpec) ].

Definition keptScrubbing : Kept Scrubbing :=
  allOf [ onField scrub_Containers keptLeaf ].

Definition keptOrchestratorExplorerConfig : Kept OrchestratorExplorerConfig :=
  allOf [ onField oe_Enabled keptLeaf;
          onField oe_ClusterCheck keptLeaf;
          onField oe_Scrubbing (keptPtr keptScrubbing) ].

Definition keptKubeStateMetricsCore : Kept KubeStateMetricsCore :=
  allOf [ onField ksm_Enabled keptLeaf;
          onField ksm_ClusterCheck keptLeaf ].

Definition keptPrometheusScrapeConfig : Kept PrometheusScrapeConfig :=
  allOf [ onField prom_Enabled keptLeaf;
          onField prom_ServiceEndpoints keptLeaf ].

Definition keptLogCollectionConfig : Kept LogCollectionConfig :=
  allOf [ onField log_Enabled keptLeaf;
          onField log_LogsConfigContainerCollectAll keptLeaf;
          onField log_ContainerCollectUsingFiles keptLeaf;
          onField log_ContainerLogsPath keptLeaf;
          onField log_PodLogsPath keptLeaf;
          onField log_ContainerSymlinksPath keptLeaf;
          onField log_TempStoragePath keptLeaf;
          onField log_OpenFilesLimit keptLeaf ].

Definition keptNetworkMonitoringConfig : Kept NetworkMonitoringConfig :=
  allOf [ onField nm_Enabled keptLeaf ].

Definition keptDatadogFeatures : Kept DatadogFeatures :=
  allOf [ onField ft_OrchestratorExplorer (keptPtr keptOrchestratorExplorerConfig);
          onField ft_KubeStateMetricsCore (keptPtr keptKubeStateMetricsCore);
          onField ft_PrometheusScrape (keptPtr keptPrometheusScrapeConfig);
          onField ft_LogCollection (keptPtr keptLogCollectionConfig);
          onField ft_NetworkMonitoring (keptPtr keptNetworkMonitoringConfig) ].

Definition keptAgentCredentials : Kept AgentCredentials :=
  allOf [ onField cred_UseSecretBackend keptLeaf ].

Definition keptDatadogAgentSpec : Kept DatadogAgentSpec :=
  allOf [ onField spec_Credentials (keptPtr keptAgentCredentials);
          onField spec_Features keptDatadogFeatures;
          onField spec_Agent keptDatadogAgentSpecAgentSpec;
          onField spec_ClusterAgent keptDatadogAgentSpecClusterAgentSpec;
          onField spec_ClusterChecksRunner keptDatadogAgentSpecClusterChecksRunnerSpec ].

(** The override and the spec agree: every field that [shadow] holds,
    [after] holds with the same value.  This is the relation above between
    the override, the spec and the empty override. *)
Definition heldBy {S} `{Zero S} (kept : Kept S) (shadow after : S) : Prop :=
  kept shadow after zero.

(** ** Inputs to run the pass on *)

(** A node agent of which the user has given the image and the health
    port. *)
Definition agentWithImageAndPort : DatadogAgentSpecAgentSpec :=
  {| agent_Enabled := None;
     agent_UseExtendedDaemonset := None;
     agent_Image := Some customImage;
     agent_NodeAgent := Some nodeAgentWithPort;
     agent_Rbac := None;
     agent_DeploymentStrategy := None;
     agent_Apm := None;
     agent_SystemProbe := None;
     agent_Security := None;
     agent_Process := None;
     agent_NetworkPolicy := None |}.

(** A cluster agent with a custom configuration and a configuration that
    sets the log level. *)
Definition clusterAgentWithConfig : DatadogAgentSpecClusterAgentSpec :=
  {| dca_Enabled := None;
     dca_Image := None;
     dca_Config := Some debugConfig;
     dca_CustomConfig := Some {| custom_ConfigData := Some "log_level: debug" |};
     dca_Rbac := None;
     dca_NetworkPolicy := None |}.

(** ** A struct that is left alone *)

Lemma keptLeaf_refl {V} (p : option V) : keptLeaf p p None.
Proof. by intros _. Qed.

Lemma keptString_refl (s : string) : keptString s s "".
Proof. by intros _. Qed.

Lemma keptPtr_refl {S} `{Zero S} (kept : Kept S) (p : option S) :
  (forall x, kept x x zero) -> keptPtr kept p p None.
Proof. intros Hrefl b ->. exists b. split; [done|]. apply Hrefl. Qed.

Create HintDb kept.
#[local] Hint Resolve keptLeaf_refl keptString_refl : kept.
#[local] Hint Extern 1 (keptPtr _ ?p ?p _) => apply keptPtr_refl : kept.
#[local] Hint Extern 1 (onField _ _ _ _ _) => unfold onField; simpl : kept.

Lemma keptImageConfig_refl (x : ImageConfig) : keptImageConfig x x zero.
Proof. repeat split; auto with kept. Qed.

#[local] Hint Resolve keptImageConfig_refl : kept.

Lemma keptDatadogAgentGenericContainerConfig_refl (x : DatadogAgentGenericContainerConfig) : keptDatadogAgentGenericContainerConfig x x zero.
Proof. repeat split; auto with kept. Qed.

#[local] Hint Resolve keptDatadogAgentGenericContainerConfig_refl : kept.

Lemma keptCRISocketConfig_refl (x : CRISocketConfig) : keptCRISocketConfig x x zero.
Proof. repeat split; auto with kept. Qed.

#[local] Hint Resolve keptCRISocketConfig_refl : kept.

Lemma keptDSDUnixDomainSocketSpec_refl (x : DSDUnixDomainSocketSpec) : keptDSDUnixDomainSocketSpec x x zero.
Proof. repeat split; auto with kept. Qed.

#[local] Hint Resolve keptDSDUnixDomainSocketSpec_refl : kept.

Lemma keptDogstatsdConfig_refl (x : DogstatsdConfig) : keptDogstatsdConfig x x zero.
Proof. repeat split; auto with kept. Qed.

#[local] Hint Resolve keptDogstatsdConfig_refl : kept.

Lemma keptNodeAgentSpec_refl (x : NodeAgentSpec) : keptNodeAgentSpec x x zero.
Proof. repeat split; auto with kept. Qed.

#[local] Hint Resolve keptNodeAgentSpec_refl : kept.

Lemma keptRbacConfig_refl (x : RbacConfig) : keptRbacConfig x x zero.
Proof. repeat split; auto with kept. Qed.

#[local] Hint Resolve keptRbacConfig_refl : kept.

Lemma keptDaemonSetRollingUpdateSpec_refl (x : DaemonSetRollingUpdateSpec) : keptDaemonSetRollingUpdateSpec x x zero.
Proof. repeat split; auto with kept. Qed.

#[local] Hint Resolve keptDaemonSetRollingUpdateSpec_refl : kept.

Lemma keptDaemonSetDeploymentStrategy_refl (x : DaemonSetDeploymentStrategy) : keptDaemonSetDeploymentStrategy x x zero.
Proof. repeat split; auto with kept. Qed.

#[local] Hint Resolve keptDaemonSetDeploymentStrategy_refl : kept.

Lemma keptAPMUnixDomainSocketSpec_refl (x : APMUnixDomainSocketSpec) : keptAPMUnixDomainSocketSpec x x zero.
Proof. repeat split; auto with kept. Qed.

#[local] Hint Resolve keptAPMUnixDomainSocketSpec_refl : kept.

Lemma keptAPMSpec_refl (x : APMSpec) : keptAPMSpec x x zero.
Proof. repeat split; auto with kept. Qed.

#[local] Hint Resolve keptAPMSpec_refl : kept.

Lemma keptSystemProbeSpec_refl (x : SystemProbeSpec) : keptSystemProbeSpec x x zero.
Proof. repeat split; auto with kept. Qed.

#[local] Hint Resolve keptSystemProbeSpec_refl : kept.

Lemma keptSyscallMonitorSpec_refl (x : SyscallMonitorSpec) : keptSyscallMonitorSpec x x zero.
Proof. repeat split; auto with kept. Qed.

#[local] Hint Resolve keptSyscallMonitorSpec_refl : kept.

Lemma keptComplianceSpec_refl (x : ComplianceSpec) : keptComplianceSpec x x zero.
Proof. repeat split; auto with kept. Qed.

#[local] Hint Resolve keptComplianceSpec_refl : kept.

Lemma keptRuntimeSecuritySpec_refl (x : RuntimeSecuritySpec) : keptRuntimeSecuritySpec x x zero.
Proof. repeat split; auto with kept. Qed.

#[local] Hint Resolve keptRuntimeSecuritySpec_refl : kept.

Lemma keptSecuritySpec_refl (x : SecuritySpec) : keptSecuritySpec x x zero.
Proof. repeat split; auto with kept. Qed.

#[local] Hint Resolve keptSecuritySpec_refl : kept.

Lemma keptProcessSpec_refl (x : ProcessSpec) : keptProcessSpec x x zero.
Proof. repeat split; auto with kept. Qed.

#[local] Hint Resolve keptProcessSpec_refl : kept.

Lemma keptNetworkPolicySpec_refl (x : NetworkPolicySpec) : keptNetworkPolicySpec x x zero.
Proof. repeat split; auto with kept. Qed.

#[local] Hint Resolve keptNetworkPolicySpec_refl : kept.

Lemma keptDatadogAgentSpecAgentSpec_refl (x : DatadogAgentSpecAgentSpec) : keptDatadogAgentSpecAgentSpec x x zero.
Proof. repeat split; auto with kept. Qed.

#[local] Hint Resolve keptDatadogAgentSpecAgentSpec_refl : kept.

Lemma keptExternalMetricsConfig_refl (x : ExternalMetricsConfig) : keptExternalMetricsConfig x x zero.
Proof. repeat split; auto with kept. Qed.

#[local] Hint Resolve keptExternalMetricsConfig_refl : kept.

Lemma keptAdmissionControllerConfig_refl (x : AdmissionControllerConfig) : keptAdmissionControllerConfig x x zero.
Proof. repeat split; auto with kept. Qed.

#[local] Hint Resolve keptAdmissionControllerConfig_refl : kept.

Lemma keptFeaturesConfigClusterAgent_refl (x : FeaturesConfigClusterAgent) : keptFeaturesConfigClusterAgent x x zero.
Proof. repeat split; auto with kept. Qed.

#[local] Hint Resolve keptFeaturesConfigClusterAgent_refl : kept.

Lemma keptClusterAgentConfig_refl (x : ClusterAgentConfig) : keptClusterAgentConfig x x zero.
Proof. repeat split; auto with kept. Qed.

#[local] Hint Resolve keptClusterAgentConfig_refl : kept.

Lemma keptDatadogAgentSpecClusterAgentSpec_refl (x : DatadogAgentSpecClusterAgentSpec) : keptDatadogAgentSpecClusterAgentSpec x x zero.
Proof. repeat split; auto with kept. Qed.

#[local] Hint Resolve keptDatadogAgentSpecClusterAgentSpec_refl : kept.

Lemma keptDatadogAgentSpecClusterChecksRunnerSpec_refl (x : DatadogAgentSpecClusterChecksRunnerSpec) : keptDatadogAgentSpecClusterChecksRunnerSpec x x zero.
Proof. repeat split; auto with kept. Qed.

#[local] Hint Resolve keptDatadogAgentSpecClusterChecksRunnerSpec_refl : kept.

Lemma keptScrubbing_refl (x : Scrubbing) : keptScrubbing x x zero.
Proof. repeat split; auto with kept. Qed.

#[local] Hint Resolve keptScrubbing_refl : kept.

Lemma keptOrchestratorExplorerConfig_refl (x : OrchestratorExplorerConfig) : keptOrchestratorExplorerConfig x x zero.
Proof. repeat split; auto with kept. Qed.

#[local] Hint Resolve keptOrchestratorExplorerConfig_refl : kept.

Lemma keptKubeStateMetricsCore_refl (x : KubeStateMetricsCore) : keptKubeStateMetricsCore x x zero.
Proof. repeat split; auto with kept. Qed.

#[local] Hint Resolve keptKubeStateMetricsCore_refl : kept.

Lemma keptPrometheusScrapeConfig_refl (x : PrometheusScrapeConfig) : keptPrometheusScrapeConfig x x zero.
Proof. repeat split; auto with kept. Qed.

#[local] Hint Resolve keptPrometheusScrapeConfig_refl : kept.

Lemma keptLogCollectionConfig_refl (x : LogCollectionConfig) : keptLogCollectionConfig x x zero.
Proof. repeat split; auto with kept. Qed.

#[local] Hint Resolve keptLogCollectionConfig_refl : kept.

Lemma keptNetworkMonitoringConfig_refl (x : NetworkMonitoringConfig) : keptNetworkMonitoringConfig x x zero.
Proof. repeat split; auto with kept. Qed.

#[local] Hint Resolve keptNetworkMonitoringConfig_refl : kept.

Lemma keptDatadogFeatures_refl (x : DatadogFeatures) : keptDatadogFeatures x x zero.
Proof. repeat split; auto with kept. Qed.

#[local] Hint Resolve keptDatadogFeatures_refl : kept.

Lemma keptAgentCredentials_refl (x : AgentCredentials) : keptAgentCredentials x x zero.
Proof. repeat split; auto with kept. Qed.

#[local] Hint Resolve keptAgentCredentials_refl : kept.


(** ** The idioms keep what is set *)

Lemma orDefault_kept {V} (p : option V) (d : V) :
  keptLeaf p (orDefault p d).1 (orDefault p d).2.
Proof. destruct p; [by intros _|]. by intros [? [=]]. Qed.

Lemma orDefaultString_kept (s d : string) :
  keptString s (orDefaultString s d).1 (orDefaultString s d).2.
Proof.
  unfold keptString, orDefaultString. intros Hs.
  by destruct (String.eqb_spec s "").
Qed.

Lemma orDefault_untracked_kept {V} (p : option V) (d : V) :
  keptLeaf p (orDefault p d).1 None.
Proof. destruct p; [by intros _|]. by intros [? [=]]. Qed.

Lemma orEmpty_kept {V} (p : option V) (e : V) : keptLeaf p (orEmpty p e) None.
Proof. destruct p; [by intros _|]. by intros [? [=]]. Qed.

Lemma default_unlessEmpty {S} `{EqDecision S} `{Zero S} (x : S) :
  default zero (unlessEmpty x) = x.
Proof.
  unfold unlessEmpty, IsEqualStruct. by case_bool_decide.
Qed.

Lemma keptPtr_unlessEmpty {S} `{EqDecision S} `{Zero S} (kept : Kept S)
    (p : option S) (a o : S) :
  (forall b, p = Some b -> kept b a o) -> keptPtr kept p (Some a) (unlessEmpty o).
Proof.
  intros Hkept b ->. exists a. split; [done|].
  rewrite default_unlessEmpty. by apply Hkept.
Qed.

Lemma keptPtr_Some {S} `{Zero S} (kept : Kept S) (p : option S) (a : S)
    (shadow : option S) :
  (forall b, p = Some b -> kept b a (default zero shadow)) ->
  keptPtr kept p (Some a) shadow.
Proof. intros Hkept b ->. exists a. split; [done|]. by apply Hkept. Qed.

Lemma keptLeaf_None {V} (after shadow : option V) : keptLeaf None after shadow.
Proof. by intros [? [=]]. Qed.

Lemma keptPtr_None {S} `{Zero S} (kept : Kept S) (after shadow : option S) :
  keptPtr kept None after shadow.
Proof. by intros ? [=]. Qed.

#[local] Hint Resolve orDefault_kept orDefault_untracked_kept
  orDefaultString_kept orEmpty_kept keptLeaf_None keptPtr_None : kept.

(** Splits a goal [kept... b a o] into its fields. *)
Ltac kept_fields :=
  hnf;
  lazymatch goal with
  | |- True => exact I
  | |- _ /\ _ =>
      apply conj;
      [ unfold onField; simpl;
        first [ solve [auto with kept] | kept_fields | idtac ]
      | kept_fields ]
  end.

(** ** The defaulting functions keep what is set *)

Lemma Image_kept (b : ImageConfig) (name tag : string) :
  let r := DefaultDatadogAgentSpecAgentImage (Some b) name tag in
  keptImageConfig b r.1 r.2.
Proof. kept_fields. Qed.

Lemma Socket_kept (b : CRISocketConfig) :
  let r := DefaultContainerSocket (Some b) in
  keptCRISocketConfig b r.1 r.2.
Proof. kept_fields. Qed.

Lemma DogstatsdUDS_kept (b : DSDUnixDomainSocketSpec) :
  let r := DefaultConfigDogstatsdUDS (Some b) in
  keptDSDUnixDomainSocketSpec b r.1 r.2.
Proof. kept_fields. Qed.

Lemma Dogstatsd_kept (b : DogstatsdConfig) :
  let r := DefaultConfigDogstatsd (Some b) in
  keptDogstatsdConfig b r.1 r.2.
Proof.
  kept_fields. apply keptPtr_unlessEmpty. intros uds Huds. rewrite Huds.
  apply DogstatsdUDS_kept.
Qed.

Lemma Rbac_kept (rbac : option RbacConfig) :
  let r := DefaultDatadogAgentSpecRbacConfig rbac in
  keptPtr keptRbacConfig rbac r.1 (unlessEmpty r.2).
Proof.
  destruct rbac as [b|]; [|by intros r ? [=]]. simpl.
  apply keptPtr_unlessEmpty. intros ? [= <-]. kept_fields.
Qed.

Lemma NetworkPolicy_kept (policy : option NetworkPolicySpec) :
  let r := DefaultAgentNetworkPolicy policy in
  keptPtr keptNetworkPolicySpec policy r.1 (unlessEmpty r.2).
Proof.
  destruct policy as [b|]; [|by intros r ? [=]]. simpl.
  apply keptPtr_unlessEmpty. intros ? [= <-]. kept_fields.
Qed.

Lemma ApmUDS_kept (b : APMUnixDomainSocketSpec) :
  let r := DefaultDatadogAgentSpecAgentApmUDS (Some b) in
  keptAPMUnixDomainSocketSpec b r.1 r.2.
Proof. destruct b as [[[]|] path]; kept_fields. Qed.

Lemma Apm_kept (b : APMSpec) :
  let r := DefaultDatadogAgentSpecAgentApm (Some b) in
  keptAPMSpec b r.1 r.2.
Proof.
  destruct b as [[[]|] port container uds]; kept_fields;
    apply keptPtr_unlessEmpty; intros socket Huds; rewrite Huds; apply ApmUDS_kept.
Qed.

Lemma SystemProbe_kept (b : SystemProbeSpec) :
  let r := DefaultDatadogAgentSpecAgentSystemProbe (Some b) in
  keptSystemProbeSpec b r.1 r.2.
Proof. destruct b as [[[]|] ? ? ? ? ? ? ? ?]; kept_fields. Qed.

Lemma Process_kept (b : ProcessSpec) :
  let r := DefaultDatadogAgentSpecAgentProcess (Some b) in
  keptProcessSpec b r.1 r.2.
Proof. destruct b as [[[]|] ?]; kept_fields. Qed.

Lemma Security_kept (b after override : SecuritySpec) :
  DefaultDatadogAgentSpecAgentSecurity (Some b) = Some (after, override) ->
  keptSecuritySpec b after override.
Proof.
  unfold DefaultDatadogAgentSpecAgentSecurity.
  destruct b as [compliance [enabled [[[monitor|]]|]]]; simpl;
    intros Heq; try discriminate; injection Heq as <- <-; kept_fields.
Qed.


Lemma Image_kept_ptr (image : option ImageConfig) (name tag : string) :
  let r := DefaultDatadogAgentSpecAgentImage image name tag in
  keptPtr keptImageConfig image (Some r.1) (unlessEmpty r.2).
Proof. apply keptPtr_unlessEmpty. intros b ->. apply Image_kept. Qed.

Lemma Apm_kept_ptr (apm : option APMSpec) :
  let r := DefaultDatadogAgentSpecAgentApm apm in
  keptPtr keptAPMSpec apm (Some r.1) (unlessEmpty r.2).
Proof. apply keptPtr_unlessEmpty. intros b ->. apply Apm_kept. Qed.

Lemma SystemProbe_kept_ptr (systemProbe : option SystemProbeSpec) :
  let r := DefaultDatadogAgentSpecAgentSystemProbe systemProbe in
  keptPtr keptSystemProbeSpec systemProbe (Some r.1) (unlessEmpty r.2).
Proof. apply keptPtr_unlessEmpty. intros b ->. apply SystemProbe_kept. Qed.

Lemma Process_kept_ptr (process : option ProcessSpec) :
  let r := DefaultDatadogAgentSpecAgentProcess process in
  keptPtr keptProcessSpec process (Some r.1) (unlessEmpty r.2).
Proof. apply keptPtr_unlessEmpty. intros b ->. apply Process_kept. Qed.

Lemma Security_kept_ptr (security : option SecuritySpec) (after override : SecuritySpec) :
  DefaultDatadogAgentSpecAgentSecurity security = Some (after, override) ->
  keptPtr keptSecuritySpec security (Some after) (unlessEmpty override).
Proof.
  intros Hrun. apply keptPtr_unlessEmpty. intros b ->. by apply Security_kept.
Qed.

Ltac agent_projections :=
  cbn [agent_Enabled agent_UseExtendedDaemonset agent_Image agent_NodeAgent
       agent_Rbac agent_DeploymentStrategy agent_Apm agent_SystemProbe
       agent_Security agent_Process agent_NetworkPolicy fst snd].

Lemma kept_zero_agent (after shadow : DatadogAgentSpecAgentSpec) :
  keptDatadogAgentSpecAgentSpec zero after shadow.
Proof. kept_fields. Qed.

Section Kept.

Variable DefaultExtendedDaemonSetSpecStrategyCanary :
  ExtendedDaemonSetSpecStrategyCanary -> ExtendedDaemonSetSpecStrategyCanary.
Variable GetTagFromImageName : string -> string.
Variable Version : Type.
Variable NewVersion : string -> option Version.
Variable versionLeb : Version -> Version -> bool.

Lemma Strategy_kept_ptr (strategy : option DaemonSetDeploymentStrategy) :
  let r :=
    DefaultDatadogAgentSpecDatadogAgentStrategy
      DefaultExtendedDaemonSetSpecStrategyCanary strategy in
  keptPtr keptDaemonSetDeploymentStrategy strategy (Some r.1) (unlessEmpty r.2).
Proof. apply keptPtr_unlessEmpty. intros b ->. kept_fields. Qed.

Lemma AgentConfig_kept_ptr (image : option ImageConfig)
    (nodeAgent : option NodeAgentSpec) (cfg o : NodeAgentSpec) :
  DefaultDatadogAgentSpecAgentConfig GetTagFromImageName Version NewVersion
    versionLeb image nodeAgent
  = Some (cfg, o) ->
  keptPtr keptNodeAgentSpec nodeAgent (Some cfg) (unlessEmpty o).
Proof.
  intros Hrun. apply keptPtr_unlessEmpty. intros b ->. revert Hrun.
  unfold DefaultDatadogAgentSpecAgentConfig.
  destruct image as [img|]; [|done]. intros [= <- <-].
  destruct (negb (socketDefaultSkipped _ _ _ _)); kept_fields.
  - apply keptPtr_unlessEmpty. intros socket Hs. rewrite Hs. apply Socket_kept.
  - apply keptPtr_unlessEmpty. intros dsd Hd. rewrite Hd. apply Dogstatsd_kept.
  - apply keptPtr_unlessEmpty. intros dsd Hd. rewrite Hd. apply Dogstatsd_kept.
Qed.

(** X20: the defaulting of the node agent changes no field that the user
    has set, at any depth below the node agent, image, configuration and
    sockets, RBAC, deployment strategy, APM, system probe, security, process
    agent and network policy included; a struct that the user has given
    is still there afterwards; and the override it returns holds none of
    the fields that the user has set. *)
Theorem Agent_keeps_what_is_set (agent agent' override : DatadogAgentSpecAgentSpec) :
  DefaultDatadogAgentSpecAgent DefaultExtendedDaemonSetSpecStrategyCanary
    GetTagFromImageName Version NewVersion versionLeb agent
  = Some (agent', override) ->
  keptDatadogAgentSpecAgentSpec agent agent' override.
Proof.
  unfold DefaultDatadogAgentSpecAgent.
  destruct (IsEqualStruct agent zero) eqn:Hz.
  { apply IsEqualStruct_true in Hz as ->. intros _. apply kept_zero_agent. }
  cbn [andb].
  destruct (negb (BoolValue (orDefault (agent_Enabled agent) defaultAgentEnabled).1)).
  { intros [= <- <-]. kept_fields. }
  destruct (DefaultDatadogAgentSpecAgentConfig _ _ _ _ _ _) as [[cfg cfgo]|] eqn:Hcfg;
    [|done].
  destruct (DefaultDatadogAgentSpecAgentSecurity _) as [[sec seco]|] eqn:Hsec;
    [|done].
  intros [= <- <-].
  unfold keptDatadogAgentSpecAgentSpec, allOf, onField. cbn [foldr].
  agent_projections. repeat apply conj; try exact I.
  - apply orDefault_kept.
  - apply orDefault_kept.
  - apply Image_kept_ptr.
  - by apply (AgentConfig_kept_ptr _ _ _ _ Hcfg).
  - apply Rbac_kept.
  - apply Strategy_kept_ptr.
  - apply Apm_kept_ptr.
  - apply SystemProbe_kept_ptr.
  - by apply Security_kept_ptr.
  - apply Process_kept_ptr.
  - apply NetworkPolicy_kept.
Qed.

End Kept.

(** ** The cluster-check runner and the cluster agent *)

Lemma ClusterChecksRunnerConfig_kept_ptr
    (containerConfig : option DatadogAgentGenericContainerConfig) :
  let r := DefaultDatadogAgentSpecClusterChecksRunnerConfig containerConfig in
  keptPtr keptDatadogAgentGenericContainerConfig containerConfig
    (Some r.1) (unlessEmpty r.2).
Proof. apply keptPtr_unlessEmpty. intros b ->. kept_fields. Qed.

Lemma kept_zero_runner (after shadow : DatadogAgentSpecClusterChecksRunnerSpec) :
  keptDatadogAgentSpecClusterChecksRunnerSpec zero after shadow.
Proof. kept_fields. Qed.

(** X21: the defaulting of the cluster-check runner changes no field that
    the user has set, at any depth below the runner; a struct that the user
    has given is still there afterwards; and the override holds none of the
    fields that the user has set. *)
Theorem ClusterChecksRunner_keeps_what_is_set
    (clc : DatadogAgentSpecClusterChecksRunnerSpec) :
  keptDatadogAgentSpecClusterChecksRunnerSpec clc
    (DefaultDatadogAgentSpecClusterChecksRunner clc).1
    (DefaultDatadogAgentSpecClusterChecksRunner clc).2.
Proof.
  unfold DefaultDatadogAgentSpecClusterChecksRunner.
  destruct (IsEqualStruct clc zero) eqn:Hz.
  { apply IsEqualStruct_true in Hz as ->. apply kept_zero_runner. }
  cbn [andb].
  unfold keptDatadogAgentSpecClusterChecksRunnerSpec, allOf, onField.
  cbn [foldr clc_Enabled clc_Image clc_ContainerConfig clc_Rbac clc_NetworkPolicy
       fst snd].
  repeat apply conj; try exact I.
  - apply orDefault_kept.
  - apply Image_kept_ptr.
  - apply ClusterChecksRunnerConfig_kept_ptr.
  - apply Rbac_kept.
  - apply NetworkPolicy_kept.
Qed.

Lemma ExternalMetrics_kept (b : ExternalMetricsConfig) :
  let r := DefaultExternalMetrics (Some b) in
  keptExternalMetricsConfig b r.1 r.2.
Proof. destruct b as [[[]|] [port|]]; kept_fields. Qed.

Lemma AdmissionController_kept (b : AdmissionControllerConfig) :
  let r := DefaultAdmissionController (Some b) in
  keptAdmissionControllerConfig b r.1 r.2.
Proof. kept_fields. Qed.

Lemma ClusterAgentConfig_kept_ptr (config : option ClusterAgentConfig)
    (customConfig : option CustomConfigSpec) (cfg o : ClusterAgentConfig) :
  (customConfig = None -> config = None) ->
  DefaultDatadogAgentSpecClusterAgentConfig config customConfig = Some (cfg, o) ->
  keptPtr keptClusterAgentConfig config (Some cfg) (unlessEmpty o).
Proof.
  intros Hcustom Hrun. apply keptPtr_unlessEmpty. intros b ->. revert Hrun.
  unfold DefaultDatadogAgentSpecClusterAgentConfig.
  destruct customConfig as [custom|]; [|by specialize (Hcustom eq_refl)].
  intros [= <- <-]. kept_fields.
  - apply keptPtr_unlessEmpty. intros em Hem. rewrite Hem. apply ExternalMetrics_kept.
  - apply keptPtr_unlessEmpty. intros ac Hac. rewrite Hac.
    apply AdmissionController_kept.
Qed.

Lemma kept_zero_cluster_agent (after shadow : DatadogAgentSpecClusterAgentSpec) :
  keptDatadogAgentSpecClusterAgentSpec zero after shadow.
Proof. kept_fields. Qed.

Lemma ClusterAgentImage_kept_ptr (image : option ImageConfig) (name tag : string) :
  let r := DefaultDatadogClusterAgentImage (orEmpty image zero) name tag in
  keptPtr keptImageConfig image (Some r.1) (unlessEmpty r.2).
Proof. apply keptPtr_unlessEmpty. intros b ->. apply Image_kept. Qed.


(** ** The features *)

Lemma Orchestrator_kept_ptr (orch : option OrchestratorExplorerConfig)
    (withClusterChecksRunner : bool) (after override : OrchestratorExplorerConfig) :
  DefaultDatadogFeatureOrchestratorExplorer orch withClusterChecksRunner
  = Some (after, override) ->
  keptPtr keptOrchestratorExplorerConfig orch (Some after) None.
Proof.
  intros Hrun. apply keptPtr_Some. intros b ->. revert Hrun.
  unfold DefaultDatadogFeatureOrchestratorExplorer,
    defaultEnabledDatadogFeatureOrchestratorExplorer.
  destruct b as [[[]|] clusterCheck [[[containers|]]|]]; simpl;
    intros Heq; try discriminate; injection Heq as <- _; kept_fields.
Qed.

Lemma KubeStateMetricsCore_kept_ptr (ksm : option KubeStateMetricsCore)
    (withClusterChecksRunner : bool) :
  keptPtr keptKubeStateMetricsCore ksm
    (Some (DefaultDatadogFeatureKubeStateMetricsCore ksm withClusterChecksRunner).1)
    None.
Proof. apply keptPtr_Some. intros b ->. kept_fields. Qed.

Lemma PrometheusScrape_kept_ptr (prom : option PrometheusScrapeConfig) :
  keptPtr keptPrometheusScrapeConfig prom
    (Some (DefaultDatadogFeaturePrometheusScrape prom).1) None.
Proof.
  apply keptPtr_Some. intros b ->. destruct b as [[[]|] endpoints]; kept_fields.
Qed.

Lemma LogCollection_kept_ptr (logCollection : option LogCollectionConfig) :
  keptPtr keptLogCollectionConfig logCollection
    (Some (DefaultDatadogFeatureLogCollection logCollection).1) None.
Proof.
  apply keptPtr_Some. intros b ->.
  destruct b as [[[]|] ? ? ? ? ? ? ?]; kept_fields.
Qed.

Lemma NetworkMonitoring_kept_ptr (net : option NetworkMonitoringConfig) :
  keptPtr keptNetworkMonitoringConfig net
    (Some (DefaultDatadogFeatureNetworkMonitoring net).1) None.
Proof. apply keptPtr_Some. intros b ->. kept_fields. Qed.

(** X23: the defaulting of the features, if it returns, changes no field
    that the user has set in any of the five features, and a feature that
    the user has given is still there afterwards.  (The relation is taken
    with the empty override: what the override of the features holds is
    another matter, it repeats the flags of the features.) *)
Theorem Features_keep_what_is_set (dda dda' : DatadogAgent) (features : DatadogFeatures) :
  DefaultFeatures dda = Some (dda', features) ->
  keptDatadogFeatures (spec_Features (Spec dda)) (spec_Features (Spec dda')) zero.
Proof.
  unfold DefaultFeatures.
  destruct (DefaultDatadogFeatureOrchestratorExplorer _ _) as [[orch orcho]|] eqn:Horch;
    [|done].
  intros [= <- _].
  unfold keptDatadogFeatures, allOf, onField.
  cbn [foldr Spec spec_Features set_spec_Features ft_OrchestratorExplorer
       ft_KubeStateMetricsCore ft_PrometheusScrape ft_LogCollection
       ft_NetworkMonitoring fst snd zero DatadogFeatures_zero].
  repeat apply conj; try exact I.
  - by apply (Orchestrator_kept_ptr _ _ _ _ Horch).
  - apply KubeStateMetricsCore_kept_ptr.
  - apply PrometheusScrape_kept_ptr.
  - apply LogCollection_kept_ptr.
  - apply NetworkMonitoring_kept_ptr.
Qed.

(** ** The override agrees with the spec *)

Lemma orDefault_held {V} (p : option V) (d : V) :
  keptLeaf (orDefault p d).2 (orDefault p d).1 None.
Proof. destruct p; [by intros [? [=]]|by intros _]. Qed.

Lemma orDefaultString_held (s d : string) :
  keptString (orDefaultString s d).2 (orDefaultString s d).1 "".
Proof.
  unfold keptString, orDefaultString. by destruct (String.eqb s "").
Qed.

Lemma keptPtr_held {S} `{EqDecision S} `{Zero S} (kept : Kept S) (o a : S) :
  heldBy kept o a -> keptPtr kept (unlessEmpty o) (Some a) None.
Proof.
  intros Hheld b. unfold unlessEmpty. destruct (IsEqualStruct o zero); [done|].
  intros [= <-]. by exists a.
Qed.

Lemma keptString_empty (after shadow : string) : keptString "" after shadow.
Proof. by intros []. Qed.

#[local] Hint Resolve orDefault_held orDefaultString_held keptString_empty : kept.

Lemma Image_held (image : option ImageConfig) (name tag : string) :
  let r := DefaultDatadogAgentSpecAgentImage image name tag in
  heldBy keptImageConfig r.2 r.1.
Proof. kept_fields. Qed.

Lemma Socket_held (criSocket : option CRISocketConfig) :
  let r := DefaultContainerSocket criSocket in
  heldBy keptCRISocketConfig r.2 r.1.
Proof. destruct criSocket; kept_fields. Qed.

Lemma DogstatsdUDS_held (uds : option DSDUnixDomainSocketSpec) :
  let r := DefaultConfigDogstatsdUDS uds in
  heldBy keptDSDUnixDomainSocketSpec r.2 r.1.
Proof. kept_fields. Qed.

Lemma Dogstatsd_held (dogstatsd : option DogstatsdConfig) :
  let r := DefaultConfigDogstatsd dogstatsd in
  heldBy keptDogstatsdConfig r.2 r.1.
Proof. kept_fields. apply keptPtr_held, DogstatsdUDS_held. Qed.

Lemma Rbac_held (rbac : option RbacConfig) :
  let r := DefaultDatadogAgentSpecRbacConfig rbac in
  keptPtr keptRbacConfig (unlessEmpty r.2) r.1 None.
Proof. destruct rbac as [b|]; simpl; apply keptPtr_held; kept_fields. Qed.

Lemma NetworkPolicy_held (policy : option NetworkPolicySpec) :
  let r := DefaultAgentNetworkPolicy policy in
  keptPtr keptNetworkPolicySpec (unlessEmpty r.2) r.1 None.
Proof. destruct policy as [b|]; simpl; apply keptPtr_held; kept_fields. Qed.

Lemma ApmUDS_held (uds : option APMUnixDomainSocketSpec) :
  let r := DefaultDatadogAgentSpecAgentApmUDS uds in
  heldBy keptAPMUnixDomainSocketSpec r.2 r.1.
Proof. destruct uds as [[[[]|] path]|]; kept_fields. Qed.

Lemma Apm_held (apm : option APMSpec) :
  let r := DefaultDatadogAgentSpecAgentApm apm in
  heldBy keptAPMSpec r.2 r.1.
Proof.
  destruct apm as [[[[]|] port container uds]|]; kept_fields;
    apply keptPtr_held, ApmUDS_held.
Qed.

Lemma SystemProbe_held (systemProbe : option SystemProbeSpec) :
  let r := DefaultDatadogAgentSpecAgentSystemProbe systemProbe in
  heldBy keptSystemProbeSpec r.2 r.1.
Proof. destruct systemProbe as [[[[]|] ? ? ? ? ? ? ? ?]|]; kept_fields. Qed.

Lemma Process_held (process : option ProcessSpec) :
  let r := DefaultDatadogAgentSpecAgentProcess process in
  heldBy keptProcessSpec r.2 r.1.
Proof. destruct process as [[[[]|] ?]|]; kept_fields. Qed.

Lemma Security_held (security : option SecuritySpec) (after override : SecuritySpec) :
  DefaultDatadogAgentSpecAgentSecurity security = Some (after, override) ->
  heldBy keptSecuritySpec override after.
Proof.
  unfold DefaultDatadogAgentSpecAgentSecurity.
  destruct (rt_SyscallMonitor _) as [[[enabled|]]|]; intros Heq; try discriminate;
    injection Heq as <- <-; kept_fields.
Qed.

Lemma ClusterChecksRunnerConfig_held
    (containerConfig : option DatadogAgentGenericContainerConfig) :
  let r := DefaultDatadogAgentSpecClusterChecksRunnerConfig containerConfig in
  heldBy keptDatadogAgentGenericContainerConfig r.2 r.1.
Proof. kept_fields. Qed.

Lemma ExternalMetrics_held (externalMetrics : option ExternalMetricsConfig) :
  let r := DefaultExternalMetrics externalMetrics in
  heldBy keptExternalMetricsConfig r.2 r.1.
Proof. destruct externalMetrics as [[[[]|] [port|]]|]; kept_fields. Qed.

Lemma AdmissionController_held (admissionController : option AdmissionControllerConfig) :
  let r := DefaultAdmissionController admissionController in
  heldBy keptAdmissionControllerConfig r.2 r.1.
Proof. destruct admissionController; kept_fields. Qed.

Lemma ClusterAgentConfig_held (config : option ClusterAgentConfig)
    (customConfig : option CustomConfigSpec) (cfg o : ClusterAgentConfig) :
  DefaultDatadogAgentSpecClusterAgentConfig config customConfig = Some (cfg, o) ->
  heldBy keptClusterAgentConfig o cfg.
Proof.
  unfold DefaultDatadogAgentSpecClusterAgentConfig.
  destruct (match customConfig with Some _ => config | None => Some zero end)
    as [c|]; [|done].
  intros [= <- <-]. kept_fields.
  - apply keptPtr_held, ExternalMetrics_held.
  - apply keptPtr_held, AdmissionController_held.
Qed.

Lemma Orchestrator_held (orch : option OrchestratorExplorerConfig)
    (withClusterChecksRunner : bool) (after override : OrchestratorExplorerConfig) :
  DefaultDatadogFeatureOrchestratorExplorer orch withClusterChecksRunner
  = Some (after, override) ->
  heldBy keptOrchestratorExplorerConfig override after.
Proof.
  unfold DefaultDatadogFeatureOrchestratorExplorer,
    defaultEnabledDatadogFeatureOrchestratorExplorer.
  destruct (default zero orch) as [[[]|] clusterCheck [[[containers|]]|]]; simpl;
    intros Heq; try discriminate; injection Heq as <- <-; kept_fields.
Qed.

Lemma KubeStateMetricsCore_held (ksm : option KubeStateMetricsCore)
    (withClusterChecksRunner : bool) :
  let r := DefaultDatadogFeatureKubeStateMetricsCore ksm withClusterChecksRunner in
  heldBy keptKubeStateMetricsCore r.2 r.1.
Proof. destruct ksm; kept_fields. Qed.

Lemma PrometheusScrape_held (prom : option PrometheusScrapeConfig) :
  let r := DefaultDatadogFeaturePrometheusScrape prom in
  heldBy keptPrometheusScrapeConfig r.2 r.1.
Proof. destruct prom as [[[[]|] endpoints]|]; kept_fields. Qed.

Lemma LogCollection_held (logCollection : option LogCollectionConfig) :
  let r := DefaultDatadogFeatureLogCollection logCollection in
  heldBy keptLogCollectionConfig r.2 r.1.
Proof. destruct logCollection as [[[[]|] ? ? ? ? ? ? ?]|]; kept_fields. Qed.

Lemma NetworkMonitoring_held (net : option NetworkMonitoringConfig) :
  let r := DefaultDatadogFeatureNetworkMonitoring net in
  heldBy keptNetworkMonitoringConfig r.2 r.1.
Proof. destruct net; kept_fields. Qed.

Lemma Features_held (dda dda' : DatadogAgent) (features : DatadogFeatures) :
  DefaultFeatures dda = Some (dda', features) ->
  heldBy keptDatadogFeatures features (spec_Features (Spec dda')).
Proof.
  unfold DefaultFeatures.
  destruct (DefaultDatadogFeatureOrchestratorExplorer _ _) as [[orch orcho]|] eqn:Horch;
    [|done].
  intros [= <- <-].
  unfold heldBy, keptDatadogFeatures, allOf, onField.
  cbn [foldr Spec spec_Features set_spec_Features ft_OrchestratorExplorer
       ft_KubeStateMetricsCore ft_PrometheusScrape ft_LogCollection
       ft_NetworkMonitoring fst snd zero DatadogFeatures_zero].
  repeat apply conj; try exact I.
  - by apply keptPtr_held, (Orchestrator_held _ _ _ _ Horch).
  - apply keptPtr_held, KubeStateMetricsCore_held.
  - apply keptPtr_held, PrometheusScrape_held.
  - apply keptPtr_held, LogCollection_held.
  - apply keptPtr_held, NetworkMonitoring_held.
Qed.

Lemma ClusterChecksRunner_held (clc : DatadogAgentSpecClusterChecksRunnerSpec) :
  let r := DefaultDatadogAgentSpecClusterChecksRunner clc in
  heldBy keptDatadogAgentSpecClusterChecksRunnerSpec r.2 r.1.
Proof.
  unfold DefaultDatadogAgentSpecClusterChecksRunner.
  destruct (IsEqualStruct clc zero) eqn:Hz.
  { apply IsEqualStruct_true in Hz as ->. simpl. kept_fields. }
  cbn [andb].
  unfold heldBy, keptDatadogAgentSpecClusterChecksRunnerSpec, allOf, onField.
  cbn [foldr clc_Enabled clc_Image clc_ContainerConfig clc_Rbac clc_NetworkPolicy
       fst snd zero DatadogAgentSpecClusterChecksRunnerSpec_zero].
  repeat apply conj; try exact I.
  - apply orDefault_held.
  - apply keptPtr_held, Image_held.
  - apply keptPtr_held, ClusterChecksRunnerConfig_held.
  - apply Rbac_held.
  - apply NetworkPolicy_held.
Qed.

Lemma ClusterAgent_held (dca dca' override : DatadogAgentSpecClusterAgentSpec) :
  DefaultDatadogAgentSpecClusterAgent dca = Some (dca', override) ->
  heldBy keptDatadogAgentSpecClusterAgentSpec override dca'.
Proof.
  unfold DefaultDatadogAgentSpecClusterAgent.
  destruct (IsEqualStruct dca zero && negb _).
  { intros [= <- <-]. apply keptDatadogAgentSpecClusterAgentSpec_refl. }
  destruct (negb (BoolValue (orDefault _ defaultClusterAgentEnabled).1)).
  { intros [= <- <-]. kept_fields. }
  destruct (DefaultDatadogAgentSpecClusterAgentConfig _ _) as [[cfg cfgo]|] eqn:Hcfg;
    [|done].
  intros [= <- <-].
  unfold heldBy, keptDatadogAgentSpecClusterAgentSpec, allOf, onField.
  cbn [foldr dca_Enabled dca_Image dca_Config dca_CustomConfig dca_Rbac
       dca_NetworkPolicy fst snd zero DatadogAgentSpecClusterAgentSpec_zero].
  repeat apply conj; try exact I.
  - apply orDefault_held.
  - apply keptPtr_held, Image_held.
  - by apply keptPtr_held, (ClusterAgentConfig_held _ _ _ _ Hcfg).
  - apply keptLeaf_None.
  - apply Rbac_held.
  - apply NetworkPolicy_held.
Qed.

Lemma FeatureOverride_shadow_credentials (spec dso spec' dso' : DatadogAgentSpec) :
  FeatureOverride spec dso = Some (spec', dso') ->
  spec_Credentials dso' = spec_Credentials dso.
Proof.
  destruct spec as [cred ft [en eds img na rbac strat apm sp sec proc net] dca clc].
  unfold FeatureOverride. simpl.
  destruct (networkMonitoringEnabled ft), en as [[]|], sp as [systemProbe|];
    simpl; try discriminate;
    destruct (orchestratorExplorerEnabled ft), proc as [process|]; simpl;
    intros Heq; try discriminate; by injection Heq as <- <-.
Qed.

Section Held.

Variable DefaultExtendedDaemonSetSpecStrategyCanary :
  ExtendedDaemonSetSpecStrategyCanary -> ExtendedDaemonSetSpecStrategyCanary.
Variable GetTagFromImageName : string -> string.
Variable Version : Type.
Variable NewVersion : string -> option Version.
Variable versionLeb : Version -> Version -> bool.

Lemma Strategy_held (strategy : option DaemonSetDeploymentStrategy) :
  let r :=
    DefaultDatadogAgentSpecDatadogAgentStrategy
      DefaultExtendedDaemonSetSpecStrategyCanary strategy in
  heldBy keptDaemonSetDeploymentStrategy r.2 r.1.
Proof. kept_fields. Qed.

Lemma AgentConfig_held (image : option ImageConfig) (nodeAgent : option NodeAgentSpec)
    (cfg o : NodeAgentSpec) :
  DefaultDatadogAgentSpecAgentConfig GetTagFromImageName Version NewVersion
    versionLeb image nodeAgent
  = Some (cfg, o) ->
  heldBy keptNodeAgentSpec o cfg.
Proof.
  unfold DefaultDatadogAgentSpecAgentConfig.
  destruct image as [img|]; [|done]. intros [= <- <-].
  destruct (negb (socketDefaultSkipped _ _ _ _)); kept_fields.
  - apply keptPtr_held, Socket_held.
  - apply keptPtr_held, Dogstatsd_held.
  - apply keptPtr_held, Dogstatsd_held.
Qed.

Lemma Agent_held (agent agent' override : DatadogAgentSpecAgentSpec) :
  DefaultDatadogAgentSpecAgent DefaultExtendedDaemonSetSpecStrategyCanary
    GetTagFromImageName Version NewVersion versionLeb agent
  = Some (agent', override) ->
  heldBy keptDatadogAgentSpecAgentSpec override agent'.
Proof.
  unfold DefaultDatadogAgentSpecAgent.
  destruct (IsEqualStruct agent zero && negb _).
  { intros [= <- <-]. apply keptDatadogAgentSpecAgentSpec_refl. }
  destruct (negb (BoolValue (orDefault _ defaultAgentEnabled).1)).
  { intros [= <- <-]. kept_fields. }
  destruct (DefaultDatadogAgentSpecAgentConfig _ _ _ _ _ _) as [[cfg cfgo]|] eqn:Hcfg;
    [|done].
  destruct (DefaultDatadogAgentSpecAgentSecurity _) as [[sec seco]|] eqn:Hsec;
    [|done].
  intros [= <- <-].
  unfold heldBy, keptDatadogAgentSpecAgentSpec, allOf, onField. cbn [foldr].
  agent_projections. cbn [zero DatadogAgentSpecAgentSpec_zero]. agent_projections.
  repeat apply conj; try exact I.
  - apply orDefault_held.
  - apply orDefault_held.
  - apply keptPtr_held, Image_held.
  - by apply keptPtr_held, (AgentConfig_held _ _ _ _ Hcfg).
  - apply Rbac_held.
  - apply keptPtr_held, Strategy_held.
  - apply keptPtr_held, Apm_held.
  - apply keptPtr_held, SystemProbe_held.
  - by apply keptPtr_held, (Security_held _ _ _ Hsec).
  - apply keptPtr_held, Process_held.
  - apply NetworkPolicy_held.
Qed.


End Held.

(** ** On concrete specs *)

(** X20 on [agentWithImageAndPort]: the name of the image and the health
    port are as the user gave them, and the override holds neither. *)
Lemma Agent_keeps_what_is_set_example :
  exists agent' override,
    exampleDefaultAgent agentWithImageAndPort = Some (agent', override)
    /\ img_Name <$> agent_Image agent' = Some "registry.example/agent:nightly"
    /\ nodeAgentContainer agent' ≫= cc_HealthPort = Some 5000%Z
    /\ keptDatadogAgentSpecAgentSpec agentWithImageAndPort agent' override.
Proof.
  destruct (exampleDefaultAgent agentWithImageAndPort) as [[agent' override]|] eqn:Hrun;
    [|by vm_compute in Hrun].
  pose proof (Agent_keeps_what_is_set _ _ _ _ _ _ _ _ Hrun) as Hkept.
  exists agent', override. split; [done|].
  vm_compute in Hrun. injection Hrun as <- <-.
  split; [done|]. split; [done|exact Hkept].
Defined.


(** X23 on [onlyLogCollection]: log collection is as the user gave it. *)
Lemma Features_keep_what_is_set_example :
  exists dda' features,
    DefaultFeatures {| Spec := onlyLogCollection |} = Some (dda', features)
    /\ logCollectionEnabled (Spec dda') = Some true
    /\ keptDatadogFeatures (spec_Features onlyLogCollection)
         (spec_Features (Spec dda')) zero.
Proof.
  destruct (DefaultFeatures {| Spec := onlyLogCollection |})
    as [[dda' features]|] eqn:Hrun; [|by vm_compute in Hrun].
  pose proof (Features_keep_what_is_set _ _ _ Hrun) as Hkept.
  exists dda', features. split; [done|].
  vm_compute in Hrun. injection Hrun as <- _.
  split; [done|exact Hkept].
Defined.


End kept_facts.
